(** * libcvd-cl: descriptor steps, expectation checks and the pose driver

    A shallow embedding of
      - include/cvd-cl/core/Expect.hh   (expect, cutry),
      - src/steps/HipsGrayStep.cc       (HipsGrayStep::execute),
      - src/steps/HipsRichStep.cc       (HipsRichStep::execute),
      - src/test-pose.cc                (refinement loop, score statistics,
                                         per-device loop of main),
    followed by the properties of these functions.

    Host code is written in a small state-and-exception monad: a C++
    function that mutates objects and may throw becomes a function from
    the state to an outcome and the state reached.  The state reached is
    kept when an exception is thrown, as in C++. *)

From Stdlib Require Import ZArith List String Bool Lia.
From Stdlib Require Import Floats.SpecFloat.
From Stdlib Require DecimalString.
Import ListNotations.

Local Open Scope Z_scope.

(* ================================================================== *)
(** * Host language: exceptions, outcomes, machine integers            *)
(* ================================================================== *)

Module Cxx.

(** The exception classes that appear in the sources.  [ExpectationError]
    derives from [std::invalid_argument]; [cl::Error] derives from
    [std::exception]; neither derives from the other. *)
Inductive exception : Type :=
| ExpectationError (message : string)
| cl_Error (what : string) (err : Z)
| out_of_range (what : string).

Inductive Result (A : Type) : Type :=
| Ok (a : A)
| Throw (e : exception).

Arguments Ok {A} a.
Arguments Throw {A} e.

(** [M S A]: a computation over a state [S] that returns an [A] or
    throws. *)
Definition M (S A : Type) : Type := S -> Result A * S.

Definition ret {S A} (a : A) : M S A := fun s => (Ok a, s).

Definition bind {S A B} (c : M S A) (k : A -> M S B) : M S B :=
  fun s =>
    match c s with
    | (Ok a, s') => k a s'
    | (Throw e, s') => (Throw e, s')
    end.

Definition throw {S A} (e : exception) : M S A := fun s => (Throw e, s).

Definition get {S} : M S S := fun s => (Ok s, s).

Definition modify {S} (f : S -> S) : M S unit := fun s => (Ok tt, f s).

(** [try { body } catch (cl::Error & err) { handler }]: the clause
    matches an exception of class [cl::Error] only; any other exception
    passes through. *)
Definition try_catch_cl_Error {S} (body : M S unit)
    (handler : string -> Z -> M S unit) : M S unit :=
  fun s =>
    match body s with
    | (Throw (cl_Error what err), s') => handler what err s'
    | r => r
    end.

(** [for (T i = lo; i < hi; i++) body]: [n] is the number of iterations
    left, [hi - i]. *)
Fixpoint for_upto {S} (n : nat) (i : Z) (body : Z -> M S unit) : M S unit :=
  match n with
  | O => ret tt
  | Datatypes.S n' => bind (body i) (fun _ => for_upto n' (i + 1) body)
  end.

Definition for_range {S} (lo hi : Z) (body : Z -> M S unit) : M S unit :=
  for_upto (Z.to_nat (hi - lo)) lo body.

(** [size_t] is 64 bits wide, [cl_int] is a 32-bit two's complement
    integer. *)
Definition size_t_max : Z := 2 ^ 64.

Definition size_t_wrap (z : Z) : Z := z mod size_t_max.

Definition cl_int_wrap (z : Z) : Z := (z + 2 ^ 31) mod 2 ^ 32 - 2 ^ 31.

(** [std::vector::at]. *)
Definition vector_at {S A} (v : list A) (i : Z) : M S A :=
  if (0 <=? i) && (i <? Z.of_nat (List.length v)) then
    match nth_error v (Z.to_nat i) with
    | Some x => ret x
    | None => throw (out_of_range "vector::at")
    end
  else throw (out_of_range "vector::at").

End Cxx.

Export Cxx.

Declare Scope cxx_scope.
Delimit Scope cxx_scope with cxx.

Notation "x <- c ;; k" := (bind c (fun x => k))
  (at level 100, c at next level, right associativity) : cxx_scope.
Notation "c ;; k" := (bind c (fun _ => k))
  (at level 100, right associativity) : cxx_scope.

Local Open Scope cxx_scope.

(* ================================================================== *)
(** * include/cvd-cl/core/Expect.hh                                    *)
(* ================================================================== *)

Module Expect.

(** [static void expect(char const * message, bool state)] *)
Definition expect {S} (message : string) (state : bool) : M S unit :=
  if Bool.eqb state false then throw (ExpectationError message)
  else ret tt.

(** [cudaError_t] is the enumeration of the CUDA runtime; [cudaSuccess]
    is its member 0. *)
Definition cudaError_t : Type := Z.

Definition cudaSuccess : cudaError_t := 0.

(** [static void cutry(cudaError_t error)] *)
Definition cutry {S} (error : cudaError_t) : M S unit :=
  if negb (error =? cudaSuccess) then
    throw (ExpectationError "CUDA call failed")
  else ret tt.

End Expect.

(* ================================================================== *)
(** * Buffer states and the descriptor steps                           *)
(* ================================================================== *)

Module ListState.

(** Modelled from the spec: the list states ([PointListState],
    [HipsListState]) are declared in headers that are not part of the
    sources at hand.  A buffer-state owns an array of fixed capacity
    [size] and a valid count [count]; [getCount] reads the count and
    [setCount] overwrites it.  Neither checks the count against the
    capacity. *)
Record t : Type := mk { size : Z; count : Z }.

Definition getCount (l : t) : Z := count l.

Definition setCount (ncount : Z) (l : t) : t :=
  {| size := size l; count := ncount |}.

End ListState.

Module Steps.

(** The objects a descriptor step is bound to. *)
Inductive buffer : Type := image | points | hips.

Inductive kernel_arg : Type :=
| arg_buffer (b : buffer)
| arg_int2 (x y : Z).

(** What a step does, in program order.  [offset], [global] and [local]
    are the ranges passed to [enqueueNDRangeKernel]; [None] is
    [cl::NullRange].

    The calls into the OpenCL wrapper are taken to return.  A failure
    of the backend is a [cl::Error] thrown out of the step; it ends the
    pipeline run of the device (see [TestPose.main_run]). *)
Inductive event : Type :=
| ev_setArg (index : Z) (a : kernel_arg)
| ev_getCount (b : buffer) (n : Z)
| ev_setCount (b : buffer) (n : Z)
| ev_enqueueNDRangeKernel (offset : option Z) (global : Z)
    (local : option Z).

(** The state a step runs in: its input point list, its output
    descriptor list, and the trace of what was done so far. *)
Record world : Type := mk_world {
  i_points : ListState.t;
  o_hips : ListState.t;
  trace : list event
}.

Definition emit (e : event) : M world unit :=
  modify (fun w => {| i_points := i_points w; o_hips := o_hips w;
                      trace := trace w ++ [e] |}).

Definition kernel_setArg (index : Z) (a : kernel_arg) : M world unit :=
  emit (ev_setArg index a).

Definition i_points_getCount : M world Z :=
  w <- get ;;
  let n := ListState.getCount (i_points w) in
  emit (ev_getCount points n) ;;
  ret n.

Definition o_hips_setCount (ncount : Z) : M world unit :=
  modify (fun w => {| i_points := i_points w;
                      o_hips := ListState.setCount ncount (o_hips w);
                      trace := trace w |}) ;;
  emit (ev_setCount hips ncount).

Definition enqueueNDRangeKernel (offset : option Z) (global : Z)
    (local : option Z) : M world unit :=
  emit (ev_enqueueNDRangeKernel offset global local).

End Steps.

Module HipsGrayStep.
Import Steps.

(** [cl_int2 static const offset00 = {{0, 0}};] *)
Definition offset00 : kernel_arg := arg_int2 0 0.

(** [void HipsGrayStep::execute()] *)
Definition execute : M world unit :=
  kernel_setArg 0 (arg_buffer image) ;;
  kernel_setArg 1 (arg_buffer points) ;;
  kernel_setArg 2 (arg_buffer hips) ;;
  kernel_setArg 3 offset00 ;;
  np <- i_points_getCount ;;
  let np_64 := size_t_wrap ((np / 64) * 64) in
  o_hips_setCount np_64 ;;
  enqueueNDRangeKernel None np_64 (Some 64).

End HipsGrayStep.

Module HipsRichStep.
Import Steps.

(** [void HipsRichStep::execute()] *)
Definition execute : M world unit :=
  kernel_setArg 0 (arg_buffer image) ;;
  kernel_setArg 1 (arg_buffer points) ;;
  kernel_setArg 2 (arg_buffer hips) ;;
  np <- i_points_getCount ;;
  o_hips_setCount np ;;
  enqueueNDRangeKernel None np None.

End HipsRichStep.

(* ================================================================== *)
(** * src/test-pose.cc                                                 *)
(* ================================================================== *)

Module TestPose.

(** [size_t const static ncorners = 2048;] *)
Definition ncorners : Z := 2048.

(** [size_t const static nhypos = 8192;] *)
Definition nhypos : Z := 8192.

(** ** [cl_float]: IEEE 754 binary32 *)

Definition cl_float : Type := spec_float.

Definition prec : Z := 24.
Definition emax : Z := 128.

(** Conversion of an integer to [cl_float], as for the literal [0] and
    for [hyposcores.size()] in the division. *)
Definition cl_float_of_Z (z : Z) : cl_float :=
  binary_normalize prec emax z 0 false.

Definition cl_float_add (a b : cl_float) : cl_float := SFadd prec emax a b.

Definition cl_float_div (a b : cl_float) : cl_float := SFdiv prec emax a b.

(** [a > b]; false when either side is a NaN. *)
Definition cl_float_gt (a b : cl_float) : bool :=
  match SFcompare a b with
  | Some Gt => true
  | _ => false
  end.

(** ** Steps of the pose part of [testPipeline] *)

(** The step objects, under the names [testPipeline] gives them:
    [MatIdentStep<4> runIdent (hypo_m)],
    [PoseUvqWlsStep runWls (uvquv_mix, hypo_m, hypo_a, hypo_b)],
    [CholeskyStep<6> runCholesky (hypo_a, hypo_b, hypo_x)],
    [SE3ExpStep runSe3Exp (hypo_x, hypo_cam)],
    [MatMulStep<4> runMul (hypo_cam, hypo_m)],
    [SE3ScoreStep runSe3Score (uvquv, hypo_cam, hypo_scores)] and
    [SE3Run1Step runSe3One (uvquv, hypo_cam, hypo_best, test_uvs)].
    Their classes are declared in headers that are not part of the
    sources at hand, so that what a step reads and writes of the states
    it is constructed on is not modelled: a step acts on the backend as
    a whole (see [measure_step]). *)
Inductive step_id : Type :=
| runIdent | runWls | runCholesky | runSe3Exp | runMul
| runSe3Score | runSe3One.

(** Calls made on the worker and its steps.  In [call_measure] the
    second component is the argument of [measure]: [None] for
    [measure()], [Some n] for [measure(n)]. *)
Inductive call : Type :=
| call_measure (s : step_id) (repeat : option Z)
| call_finish
| call_testPipeline (device : string).

(** Lines written to [std::cerr]. *)
Inductive line : Type :=
| line_int (v : Z) (text : string)
| line_float (v : cl_float) (text : string)
| line_text (text : string)
| line_error (what : string) (err : Z)
| line_blank.

Section Driver.

(** What lives behind the OpenCL interface. *)
Variable Backend : Type.

(** [WorkerStep::measure] is declared in a header that is not part of
    the sources at hand; it is a parameter here.  It runs the step on
    the backend, waits for it and returns the elapsed microseconds, or
    it throws, as the OpenCL calls behind it do ([cl::Error]); either
    way it leaves the backend in some state. *)
Variable measure_step : step_id -> option Z -> Backend -> Result Z * Backend.

Record world : Type := mk_world {
  backend : Backend;
  hypo_best_count : Z;
  calls : list call;
  stderr : list line
}.

Definition record (c : call) : M world unit :=
  modify (fun w => {| backend := backend w;
                      hypo_best_count := hypo_best_count w;
                      calls := calls w ++ [c];
                      stderr := stderr w |}).

Definition print (l : line) : M world unit :=
  modify (fun w => {| backend := backend w;
                      hypo_best_count := hypo_best_count w;
                      calls := calls w;
                      stderr := stderr w ++ [l] |}).

Definition measure (s : step_id) (repeat : option Z) : M world Z :=
  record (call_measure s repeat) ;;
  fun w =>
    let (r, b) := measure_step s repeat (backend w) in
    (r, {| backend := b;
           hypo_best_count := hypo_best_count w;
           calls := calls w;
           stderr := stderr w |}).

Definition worker_finish : M world unit := record call_finish.

(** [hypo_best.setCount(n)], with a [size_t] argument as in the calls
    of the steps. *)
Definition hypo_best_setCount (n : Z) : M world unit :=
  modify (fun w => {| backend := backend w;
                      hypo_best_count := n;
                      calls := calls w;
                      stderr := stderr w |}).

(** *** The refinement loop, [for (int i = 0; i < 10; i++) { ... }] *)

Definition pose_refinement : M world unit :=
  for_range 0 10 (fun i =>
    timeWls <- measure runWls None ;;
    timeCholesky <- measure runCholesky None ;;
    timeSe3Exp <- measure runSe3Exp None ;;
    timeMul <- measure runMul (Some 1) ;;
    print (line_int timeWls " us differentiating matrix") ;;
    print (line_int timeCholesky
             " us decomposing matrix and back-substituting vector") ;;
    print (line_int timeSe3Exp " us exponentiating matrix") ;;
    print (line_int timeMul " us multiplying matrix") ;;
    print line_blank).

End Driver.

(** *** Score statistics *)

(** The locals of the block [/* Calculate score statistics. */]. *)
Record stats : Type := mk_stats {
  total : cl_float;
  best : cl_float;
  non0 : Z;
  ibest : Z
}.

Definition stats_init : stats :=
  {| total := cl_float_of_Z 0; best := cl_float_of_Z 0;
     non0 := 0; ibest := 0 |}.

(** The body of [for (size_t i = 0; i < hyposcores.size(); i++)].  The
    conversion of [i] to [cl_int] and the addition on [non0] are
    written with their 32-bit wrap-around. *)
Definition stats_body (hyposcores : list cl_float) (i : Z) : M stats unit :=
  score <- vector_at hyposcores i ;;
  modify (fun st => {| total := cl_float_add (total st) score;
                       best := best st; non0 := non0 st;
                       ibest := ibest st |}) ;;
  modify (fun st => {| total := total st; best := best st;
                       non0 := cl_int_wrap
                         (non0 st +
                          (if cl_float_gt score (cl_float_of_Z 0)
                           then 1 else 0));
                       ibest := ibest st |}) ;;
  st <- get ;;
  if cl_float_gt score (best st) then
    modify (fun st => {| total := total st; best := score;
                         non0 := non0 st; ibest := cl_int_wrap i |})
  else ret tt.

Definition stats_loop (hyposcores : list cl_float) : M stats unit :=
  for_range 0 (Z.of_nat (List.length hyposcores)) (stats_body hyposcores).

Section Selection.

Variable Backend : Type.
Variable measure_step : step_id -> option Z -> Backend -> Result Z * Backend.

(** The block from [cl_float total = 0;] to [runSe3One.measure();].  The
    wall-clock readings around the loop and the line that reports their
    difference are left out. *)
Definition select_best (hyposcores : list cl_float)
  : M (world Backend) unit :=
  fun w =>
    match stats_loop hyposcores stats_init with
    | (Throw e, _) => (Throw e, w)
    | (Ok _, st) =>
      let avg :=
        cl_float_div (total st)
          (cl_float_of_Z (Z.of_nat (List.length hyposcores))) in
      (print Backend (line_int (non0 st) " non-zero scores") ;;
       print Backend (line_float (total st) " total score") ;;
       print Backend (line_float avg " average score") ;;
       print Backend (line_float (best st) " best score") ;;
       print Backend (line_int (ibest st) " best matrix index") ;;
       worker_finish Backend ;;
       hypo_best_setCount Backend (size_t_wrap (ibest st)) ;;
       measure Backend measure_step runSe3One None ;;
       ret tt) w
    end.

End Selection.

Section Main.

Variable Backend : Type.

(** The body of [testPipeline] on the device of a given name, seen from
    [main]: it returns or it throws. *)
Variable pipeline_body : string -> Backend -> Result unit * Backend.

(** The double-quote character of the message below. *)
Definition dquote : string := String (Ascii.ascii_of_nat 34) EmptyString.

(** [testPipeline(dev, input)], seen from its caller. *)
Definition testPipeline (dev : string) : M (world Backend) unit :=
  record Backend (call_testPipeline dev) ;;
  fun w =>
    let (r, b) := pipeline_body dev (backend Backend w) in
    (r, {| backend := b;
           hypo_best_count := hypo_best_count Backend w;
           calls := calls Backend w;
           stderr := stderr Backend w |}).

(** [for (size_t id = 0; id < devices.size(); id++) { ... }].  A device
    is given by its name, [dev.getInfo<CL_DEVICE_NAME>()], which [main]
    has read once already while it built the list. *)
Definition device_loop (devices : list string) : M (world Backend) unit :=
  for_range 0 (Z.of_nat (List.length devices)) (fun id =>
    dev <- vector_at devices id ;;
    print Backend
      (line_text ("Running pipeline for " ++ dquote ++ dev ++ dquote)%string) ;;
    try_catch_cl_Error (testPipeline dev)
      (fun what err => print Backend (line_error what err))).

(** The end of [main], once the list of devices is built: the loop over
    the devices inside the outer [try], then [return 0]. *)
Definition main_run (devices : list string) : M (world Backend) Z :=
  try_catch_cl_Error (device_loop devices)
    (fun what err => print Backend (line_error what err)) ;;
  ret 0.

End Main.

End TestPose.

(* ================================================================== *)
(** * src/test-pose.cc: the [try] block of [main]                      *)
(* ================================================================== *)

Module MainTry.
Import TestPose.

(** [size_t const static KiB = 1024;] *)
Definition KiB : Z := 1024.

(** [size_t const static MiB = KiB * KiB;] *)
Definition MiB : Z := size_t_wrap (KiB * KiB).

(** [operator<<] of an integer: its decimal digits. *)
Definition decimal (z : Z) : string :=
  DecimalString.NilZero.string_of_int (Z.to_int z).

Fixpoint spaces (n : nat) : string :=
  match n with
  | O => EmptyString
  | Datatypes.S n' => String (Ascii.ascii_of_nat 32) (spaces n')
  end.

(** [std::setw(width)] in front of an output: the output is moved to the
    right end of a field of [width] columns, and is not cut. *)
Definition setw (width : nat) (s : string) : string :=
  (spaces (width - String.length s) ++ s)%string.

(** A call into the OpenCL wrapper returns, or throws a [cl::Error]. *)
Inductive cl_call (A : Type) : Type :=
| cl_returns (a : A)
| cl_throws (what : string) (err : Z).

Arguments cl_returns {A} a.
Arguments cl_throws {A} what err.

(** A device, by what [main] asks of it.  The [getInfo] calls are taken
    to return. *)
Record cl_Device : Type := mk_Device {
  CL_DEVICE_NAME : string;
  CL_DEVICE_MAX_COMPUTE_UNITS : Z;
  CL_DEVICE_GLOBAL_MEM_SIZE : Z
}.

(** A platform, by what [main] asks of it; [getDevices] is the outcome
    of [pf.getDevices(CL_DEVICE_TYPE_ALL, &newDevices)]. *)
Record cl_Platform : Type := mk_Platform {
  CL_PLATFORM_NAME : string;
  CL_PLATFORM_VENDOR : string;
  CL_PLATFORM_VERSION : string;
  getDevices : cl_call (list cl_Device)
}.

Section Try.

Variable Backend : Type.
Variable pipeline_body : string -> Backend -> Result unit * Backend.

(** The vector [devices] of [main] beside the state of the host. *)
Record locals : Type := mk_locals {
  devices : list cl_Device;
  host : world Backend
}.

Definition on_host {A} (c : M (world Backend) A) : M locals A :=
  fun l =>
    let (r, w) := c (host l) in
    (r, {| devices := devices l; host := w |}).

Definition cerr (s : string) : M locals unit :=
  on_host (print Backend (line_text s)).

Definition cl {A} (c : cl_call A) : M locals A :=
  match c with
  | cl_returns a => ret a
  | cl_throws what err => throw (cl_Error what err)
  end.

(** [try { body } catch (cl::Error & err) { handler }] around a body
    that leaves a value behind. *)
Definition try_catch_cl {A} (body : M locals A)
    (handler : string -> Z -> M locals A) : M locals A :=
  fun l =>
    match body l with
    | (Throw (cl_Error what err), l') => handler what err l'
    | r => r
    end.

(** [devices.push_back(dev)] *)
Definition push_back (dev : cl_Device) : M locals unit :=
  modify (fun l => {| devices := devices l ++ [dev]; host := host l |}).

(** [err.what() << " (code " << err.err() << ")"] *)
Definition report (what : string) (err : Z) : M locals unit :=
  on_host (print Backend (line_error what err)).

(** The loop over the devices of one platform. *)
Definition list_devices (newDevices : list cl_Device) : M locals unit :=
  for_range 0 (Z.of_nat (List.length newDevices)) (fun id =>
    dev <- vector_at newDevices id ;;
    cerr ("    " ++ CL_DEVICE_NAME dev) ;;
    cerr ("      Compute units:  "
          ++ setw 8 (decimal (CL_DEVICE_MAX_COMPUTE_UNITS dev))) ;;
    cerr ("      Global memory:  "
          ++ setw 8 (decimal (CL_DEVICE_GLOBAL_MEM_SIZE dev / MiB))
          ++ " MiB") ;;
    push_back dev).

(** From [cl::Platform::get(&platforms)] to the end of the loop over
    the platforms. *)
Definition enumerate (platform_get : cl_call (list cl_Platform))
  : M locals unit :=
  platforms <- cl platform_get ;;
  cerr ("Found " ++ decimal (Z.of_nat (List.length platforms))
        ++ " OpenCL platforms") ;;
  for_range 0 (Z.of_nat (List.length platforms)) (fun ip =>
    pf <- vector_at platforms ip ;;
    cerr (CL_PLATFORM_NAME pf ++ " (" ++ CL_PLATFORM_VENDOR pf ++ ", "
          ++ CL_PLATFORM_VERSION pf ++ ")") ;;
    newDevices <-
      try_catch_cl
        (found <- cl (getDevices pf) ;;
         cerr ("  Found " ++ decimal (Z.of_nat (List.length found))
               ++ " OpenCL devices") ;;
         ret found)
        (fun what err => report what err ;; ret []) ;;
    list_devices newDevices).

(** The [try] block of [main] with its handler, and [return 0].  The
    vector [devices] is declared, empty, at the head of the block. *)
Definition main_try (platform_get : cl_call (list cl_Platform))
  : M (world Backend) Z :=
  fun w =>
    let (r, l) :=
      (try_catch_cl
         (enumerate platform_get ;;
          on_host (print Backend line_blank) ;;
          on_host (print Backend line_blank) ;;
          l <- get ;;
          on_host (device_loop Backend pipeline_body
                     (map CL_DEVICE_NAME (devices l))))
         report ;;
       ret 0) {| devices := []; host := w |} in
    (r, host l).

End Try.

End MainTry.

(* ================================================================== *)
(** * src/test-pose.cc: the overlay drawn at the end of [testPipeline] *)
(* ================================================================== *)

Module Draw.
Import TestPose.

(** [cl_int2] and [cl_float2], with their members [x] and [y]. *)
Record cl_int2 : Type := mk_int2 { int2_x : Z; int2_y : Z }.

Record cl_float2 : Type := mk_float2 { float2_x : cl_float; float2_y : cl_float }.

Inductive gl_mode : Type := GL_LINES | GL_POINTS.

(** The OpenGL calls of the overlay; the colour components are the
    integer literals of the source. *)
Inductive gl_command : Type :=
| glBegin (mode : gl_mode)
| glColor3f (red green blue : Z)
| glVertex2i (x y : Z)
| glEnd
| glFlush.

(** The OpenGL command stream and [std::cerr]. *)
Record canvas : Type := mk_canvas {
  gl : list gl_command;
  cerr : list line
}.

Definition gl_call (c : gl_command) : M canvas unit :=
  modify (fun s => {| gl := gl s ++ [c]; cerr := cerr s |}).

Definition cerr_line (l : line) : M canvas unit :=
  modify (fun s => {| gl := gl s; cerr := cerr s ++ [l] |}).

(** [try { body } catch (...) { handler }] *)
Definition try_catch_all (body handler : M canvas unit) : M canvas unit :=
  fun s =>
    match body s with
    | (Throw _, s') => handler s'
    | r => r
    end.

(** A value computed by a library call that may throw. *)
Definition library {A} (r : Result A) : M canvas A :=
  fun s => (r, s).

Section Overlay.

(** [Camera::Linear::project] belongs to libcvd.  With the conversion
    of the two coordinates it returns to [cl_int], it is a parameter
    here: it yields the pixel [xy3], or throws. *)
Variable project_pixel : cl_float2 -> Result cl_int2.

(** The image size, [int const nx] and [int const ny]. *)
Variables nx ny : Z.

(** The loop that draws the matches, from [glBegin(GL_LINES)] to
    [glFlush()].  A [cl_int] used as an index is converted to [size_t];
    the additions on [int] are written with their wrap-around. *)
Definition draw_pairs (pairs points1 points2 : list cl_int2)
    (uv2s : list cl_float2) : M canvas unit :=
  gl_call (glBegin GL_LINES) ;;
  for_range 0 (Z.of_nat (List.length pairs)) (fun ip =>
    try_catch_all
      (pair <- vector_at pairs ip ;;
       xy1 <- vector_at points1 (size_t_wrap (int2_x pair)) ;;
       xy2 <- vector_at points2 (size_t_wrap (int2_y pair)) ;;
       uv3 <- vector_at uv2s ip ;;
       xy3 <- library (project_pixel uv3) ;;
       gl_call (glColor3f 1 0 0) ;;
       gl_call (glVertex2i (int2_x xy1) (cl_int_wrap (int2_y xy1 + ny))) ;;
       gl_call (glVertex2i (cl_int_wrap (int2_x xy3 + nx))
                           (cl_int_wrap (int2_y xy3 + ny))))
      (cerr_line
         (line_text ("Bad pair " ++ MainTry.decimal ip ++ " of "
                     ++ MainTry.decimal (Z.of_nat (List.length pairs)))))) ;;
  gl_call glEnd ;;
  gl_call glFlush.

(** The corners of both images, from [glColor3f(0, 1, 0)] to
    [glFlush()]. *)
Definition draw_corners (points1 points2 : list cl_int2) : M canvas unit :=
  gl_call (glColor3f 0 1 0) ;;
  gl_call (glBegin GL_POINTS) ;;
  for_range 0 (Z.of_nat (List.length points1)) (fun i =>
    xy <- vector_at points1 i ;;
    gl_call (glVertex2i (int2_x xy) (int2_y xy)) ;;
    gl_call (glVertex2i (int2_x xy) (cl_int_wrap (int2_y xy + ny)))) ;;
  for_range 0 (Z.of_nat (List.length points2)) (fun i =>
    xy <- vector_at points2 i ;;
    gl_call (glVertex2i (cl_int_wrap (int2_x xy + nx)) (int2_y xy)) ;;
    gl_call (glVertex2i (cl_int_wrap (int2_x xy + nx))
                        (cl_int_wrap (int2_y xy + ny)))) ;;
  gl_call glEnd ;;
  gl_call glFlush.

End Overlay.

End Draw.

(* ================================================================== *)
(** * src/test-pose.cc: [readRGBD]                                     *)
(* ================================================================== *)

Module Rgbd.
Import TestPose.

(** How [readRGBD] ends when it does not return: the stream throws
    [std::ios_base::failure] (every state bit but [goodbit] is set to
    throw), or an [assert] fails and the program is aborted. *)
Inductive failure : Type :=
| ios_failure
| assertion_failed (expr : string).

Inductive outcome (A : Type) : Type :=
| returned (a : A)
| failed (f : failure).

Arguments returned {A} a.
Arguments failed {A} f.

(** Computations over a state [S] that return or fail. *)
Definition R (S A : Type) : Type := S -> outcome A * S.

Definition ret {S A} (a : A) : R S A := fun s => (returned a, s).

Definition bind {S A B} (c : R S A) (k : A -> R S B) : R S B :=
  fun s =>
    match c s with
    | (returned a, s') => k a s'
    | (failed f, s') => (failed f, s')
    end.

Definition fail {S A} (f : failure) : R S A := fun s => (failed f, s).

Definition modify {S} (f : S -> S) : R S unit := fun s => (returned tt, f s).

(** [assert(cond)], with the text of the condition; the assertions are
    compiled in (no [NDEBUG]). *)
Definition assert {S} (expr : string) (cond : bool) : R S unit :=
  if cond then ret tt else fail (assertion_failed expr).

(** [for (int i = lo; i < hi; i++) body], as [Cxx.for_range]. *)
Fixpoint for_upto {S} (n : nat) (i : Z) (body : Z -> R S unit) : R S unit :=
  match n with
  | O => ret tt
  | Datatypes.S n' => bind (body i) (fun _ => for_upto n' (i + 1) body)
  end.

Definition for_range {S} (lo hi : Z) (body : Z -> R S unit) : R S unit :=
  for_upto (Z.to_nat (hi - lo)) lo body.

(** [cl_uint] is 32 bits wide, [cl_uchar] 8 bits. *)
Definition cl_uint_wrap (z : Z) : Z := z mod 2 ^ 32.

Definition cl_uchar_wrap (z : Z) : Z := z mod 2 ^ 8.

(** A [blitz::Array<T, 3>]: its three extents and its cells.  The cells
    outside the extents carry no meaning. *)
Record Array3 (T : Type) : Type := mk_Array3 {
  length0 : Z;
  length1 : Z;
  length2 : Z;
  cell : Z -> Z -> Z -> T
}.

Arguments length0 {T} a.
Arguments length1 {T} a.
Arguments length2 {T} a.
Arguments cell {T} a.

(** [a.resize(n0, n1, n2)]; what the cells hold afterwards is not
    specified, here they are left as they were. *)
Definition resize {T} (n0 n1 n2 : Z) (a : Array3 T) : Array3 T :=
  {| length0 := n0; length1 := n1; length2 := n2; cell := cell a |}.

(** [a = v] *)
Definition fill {T} (v : T) (a : Array3 T) : Array3 T :=
  {| length0 := length0 a; length1 := length1 a; length2 := length2 a;
     cell := fun _ _ _ => v |}.

(** [a(y, x, blitz::Range::all()) = v] *)
Definition assign_all {T} (y x : Z) (v : T) (a : Array3 T) : Array3 T :=
  {| length0 := length0 a; length1 := length1 a; length2 := length2 a;
     cell := fun y' x' c =>
       if (y' =? y) && (x' =? x) && (0 <=? c) && (c <? length2 a) then v
       else cell a y' x' c |}.

(** The file and the two images.  The file is read by formatted
    extraction only, so it is given by the decimal numbers, separated
    by white space, that are left at its head ([file], as far as the
    text goes on that way), and by whether the last of these numbers is
    followed by another character, white space as a rule
    ([terminated]), or runs into the end of the file. *)
Record files : Type := mk_files {
  file : list Z;
  terminated : bool;
  colour : Array3 Z;
  depth : Array3 cl_float
}.

(** [file.open(path, ...)]: throws when the file cannot be opened. *)
Definition open (opens : bool) : R files unit :=
  if opens then ret tt else fail ios_failure.

(** The numbers [file >> n] stores without [failbit]: for an [int] the
    values of the type; for a [cl_uint] those whose magnitude is a
    value of the type, a negative one being negated in the unsigned
    type, as [strtoul] does. *)
Definition fits_int (n : Z) : bool := (- 2 ^ 31 <=? n) && (n <? 2 ^ 31).

Definition fits_cl_uint (n : Z) : bool := (- 2 ^ 32 <? n) && (n <? 2 ^ 32).

(** [file >> n] for an [n] of the integer type that [fits] and [conv]
    stand for.  Every state bit of the stream throws
    ([file.exceptions(~std::ios_base::goodbit)]): the extraction throws
    when no number is left ([failbit] and [eofbit]), when the number
    does not fit the type ([failbit]), and when the number runs into
    the end of the file ([eofbit]).  A stream that has failed delivers
    nothing further. *)
Definition extract (fits : Z -> bool) (conv : Z -> Z) : R files Z :=
  fun s =>
    match file s with
    | [] => (failed ios_failure, s)
    | n :: rest =>
      if fits n && (match rest with [] => terminated s | _ => true end)
      then (returned (conv n),
            {| file := rest; terminated := terminated s;
               colour := colour s; depth := depth s |})
      else (failed ios_failure,
            {| file := []; terminated := terminated s;
               colour := colour s; depth := depth s |})
    end.

Definition on_colour (f : Array3 Z -> Array3 Z) : R files unit :=
  modify (fun s => {| file := file s; terminated := terminated s;
                      colour := f (colour s); depth := depth s |}).

Definition on_depth (f : Array3 cl_float -> Array3 cl_float) : R files unit :=
  modify (fun s => {| file := file s; terminated := terminated s;
                      colour := colour s; depth := f (depth s) |}).

(** The body of the two loops: one pixel. *)
Definition read_pixel (y x : Z) : R files unit :=
  bind (extract fits_cl_uint cl_uint_wrap) (fun r =>
  bind (extract fits_cl_uint cl_uint_wrap) (fun g =>
  bind (extract fits_cl_uint cl_uint_wrap) (fun b =>
  bind (extract fits_cl_uint cl_uint_wrap) (fun d =>
  bind (assert "r <= 0xFF" (r <=? 255)) (fun _ =>
  bind (assert "g <= 0xFF" (g <=? 255)) (fun _ =>
  bind (assert "b <= 0xFF" (b <=? 255)) (fun _ =>
  bind (assert "d <= 0xFFFF" (d <=? 65535)) (fun _ =>
  bind (on_colour
          (assign_all y x
             (cl_uchar_wrap (cl_uint_wrap (r + g + b) / 3)))) (fun _ =>
  on_depth (assign_all y x (cl_float_of_Z d))))))))))).

(** [static void readRGBD(GrayImage & colour, DepthImage & depth,
    char const * path)]; [opens] tells whether the file at [path] can
    be opened.  The closing [file.close()] leaves the images and the
    numbers that were not read as they are. *)
Definition readRGBD (opens : bool) : R files unit :=
  bind (open opens) (fun _ =>
  bind (extract fits_int (fun n => n)) (fun nx =>
  bind (extract fits_int (fun n => n)) (fun ny =>
  bind (assert "nx > 0" (0 <? nx)) (fun _ =>
  bind (assert "ny > 0" (0 <? ny)) (fun _ =>
  bind (on_colour (resize ny nx 4)) (fun _ =>
  bind (on_depth (resize ny nx 1)) (fun _ =>
  bind (on_colour (fill 0)) (fun _ =>
  bind (on_depth (fill (cl_float_of_Z 0))) (fun _ =>
  for_range 0 ny (fun y =>
    for_range 0 nx (fun x => read_pixel y x))))))))))).

End Rgbd.

(* ================================================================== *)
(** * Vocabulary of the properties                                     *)
(* ================================================================== *)

Module Props.
Import Steps.

(** The state [w] in which the output list still carries the count [n]
    that an earlier frame left there. *)
Definition stale (n : Z) (w : world) : world :=
  {| i_points := i_points w;
     o_hips := ListState.setCount n (o_hips w);
     trace := trace w |}.

Definition is_enqueue (e : event) : bool :=
  match e with
  | ev_enqueueNDRangeKernel _ _ _ => true
  | _ => false
  end.

(** The events [new] were appended to the trace by a step that set the
    output count to [n] and then enqueued its kernel over [n] work
    items, with no kernel enqueued before the count was set. *)
Definition count_then_enqueue (n : Z) (local : option Z)
    (new : list event) : Prop :=
  exists before,
    new = before ++ [ev_setCount hips n;
                     ev_enqueueNDRangeKernel None n local]
    /\ forallb (fun e => negb (is_enqueue e)) before = true.

(** A frame with 130 corners whose descriptor list, of capacity 2048,
    still holds the 1984 descriptors of the frame before. *)
Definition frame_130 : world :=
  {| i_points := {| ListState.size := 2048; ListState.count := 130 |};
     o_hips := {| ListState.size := 2048; ListState.count := 1984 |};
     trace := [] |}.

(** A frame with 63 corners, one short of a work-group. *)
Definition few_points : world :=
  {| i_points := {| ListState.size := 2048; ListState.count := 63 |};
     o_hips := {| ListState.size := 2048; ListState.count := 0 |};
     trace := [] |}.

End Props.

(** ** Loops over a vector *)

Module VectorLoop.

(** The loop [for (size_t i = i0; ...; i++) f(i, v.at(i))] read off the
    elements that are left. *)
Fixpoint for_each_from {St A} (i : Z) (l : list A)
    (f : Z -> A -> M St unit) : M St unit :=
  match l with
  | [] => ret tt
  | x :: l' => bind (f i x) (fun _ => for_each_from (i + 1) l' f)
  end.

End VectorLoop.

(** ** The refinement loop *)

Module RefinementProps.
Import TestPose.

(** The steps of one pass of the cycle, each with the argument of its
    [measure] call. *)
Definition cycle_steps : list (step_id * option Z) :=
  [(runWls, None); (runCholesky, None); (runSe3Exp, None);
   (runMul, Some 1)].

(** One pass of the cycle, as calls on the steps. *)
Definition refinement_cycle : list call :=
  [call_measure runWls None; call_measure runCholesky None;
   call_measure runSe3Exp None; call_measure runMul (Some 1)].

Definition call_of (step : step_id * option Z) : call :=
  call_measure (fst step) (snd step).

(** What a pass writes to [std::cerr] from the four times measured;
    [report] does so for the times of several passes, and writes
    nothing for a pass that is not complete. *)
Fixpoint report (times : list Z) : list line :=
  match times with
  | timeWls :: timeCholesky :: timeSe3Exp :: timeMul :: rest =>
    [line_int timeWls " us differentiating matrix";
     line_int timeCholesky
       " us decomposing matrix and back-substituting vector";
     line_int timeSe3Exp " us exponentiating matrix";
     line_int timeMul " us multiplying matrix";
     line_blank] ++ report rest
  | _ => []
  end.

Section Run.

Variable Backend : Type.
Variable measure_step : step_id -> option Z -> Backend -> Result Z * Backend.

(** A list of steps run on the backend one after the other, up to the
    first one that throws: how the run ends, the times of the steps
    that returned, the number of steps begun, and the backend at the
    end. *)
Record run : Type := mk_run {
  outcome : Result unit;
  times : list Z;
  begun : nat;
  final : Backend
}.

Fixpoint run_steps (steps : list (step_id * option Z)) (b : Backend) : run :=
  match steps with
  | [] => {| outcome := Ok tt; times := []; begun := 0; final := b |}
  | (s, repeat) :: rest =>
    match measure_step s repeat b with
    | (Ok t, b') =>
      let r := run_steps rest b' in
      {| outcome := outcome r; times := t :: times r;
         begun := Datatypes.S (begun r); final := final r |}
    | (Throw e, b') =>
      {| outcome := Throw e; times := []; begun := 1; final := b' |}
    end
  end.

(** The world after the refinement loop has measured the steps of
    [steps]: how the loop ended, the backend, the calls begun and the
    lines written for the passes that were completed. *)
Definition refined (steps : list (step_id * option Z)) (w : world Backend)
  : Result unit * world Backend :=
  let r := run_steps steps (backend Backend w) in
  (outcome r,
   {| backend := final r;
      hypo_best_count := hypo_best_count Backend w;
      calls := calls Backend w ++ map call_of (firstn (begun r) steps);
      stderr := stderr Backend w ++ report (times r) |}).

End Run.

Arguments outcome {Backend} r.
Arguments times {Backend} r.
Arguments begun {Backend} r.
Arguments final {Backend} r.

(** A backend that keeps the list of the steps run on it; every step
    takes 7 microseconds. *)
Definition logging_step (s : step_id) (repeat : option Z)
    (b : list (step_id * option Z))
  : Result Z * list (step_id * option Z) :=
  (Ok 7, b ++ [(s, repeat)]).

(** The same, on a device that fails in the sixth step run on it. *)
Definition failing_step (s : step_id) (repeat : option Z)
    (b : list (step_id * option Z))
  : Result Z * list (step_id * option Z) :=
  if (List.length b =? 5)%nat
  then (Throw (cl_Error "clEnqueueNDRangeKernel" (-5)), b ++ [(s, repeat)])
  else (Ok 7, b ++ [(s, repeat)]).

Definition logging_world : world (list (step_id * option Z)) :=
  {| backend := []; hypo_best_count := 0; calls := []; stderr := [] |}.

End RefinementProps.

(** ** The per-device loop of main *)

Module MainProps.
Import TestPose.

(** An outcome that the handlers of [main] can deal with: a normal
    return, or a [cl::Error]. *)
Definition returns_or_cl_Error {A} (r : Result A) : Prop :=
  match r with
  | Ok _ => True
  | Throw (cl_Error _ _) => True
  | Throw _ => False
  end.

Definition is_cl_Error (e : exception) : bool :=
  match e with
  | cl_Error _ _ => true
  | _ => false
  end.

Section Expected.

Variable Backend : Type.
Variable pipeline_body : string -> Backend -> Result unit * Backend.

(** What a loop that runs every device and logs every [cl::Error]
    writes to [std::cerr], from the backend state [b] on. *)
Fixpoint expected_stderr (devices : list string) (b : Backend) : list line :=
  match devices with
  | [] => []
  | dev :: rest =>
    line_text ("Running pipeline for " ++ dquote ++ dev ++ dquote)%string
    :: (match fst (pipeline_body dev b) with
        | Throw (cl_Error what err) => [line_error what err]
        | _ => []
        end)
    ++ expected_stderr rest (snd (pipeline_body dev b))
  end.

(** The body of the loop over the devices, from the device read at
    index [id]. *)
Definition run_device (id : Z) (dev : string) : M (world Backend) unit :=
  bind (print Backend
          (line_text ("Running pipeline for " ++ dquote ++ dev ++ dquote)%string))
       (fun _ => try_catch_cl_Error (testPipeline Backend pipeline_body dev)
                   (fun what err => print Backend (line_error what err))).

(** The backend state after the pipelines of [devices] have run. *)
Fixpoint backend_after (devices : list string) (b : Backend) : Backend :=
  match devices with
  | [] => b
  | dev :: rest => backend_after rest (snd (pipeline_body dev b))
  end.

End Expected.

(** The reading of the error policy under which any failure on one
    device leaves the other devices to run: [main] returns 0 and
    [testPipeline] was called on every device, in order. *)
Definition every_device_runs (Backend : Type)
    (pipeline_body : string -> Backend -> Result unit * Backend)
    (devices : list string) (w : world Backend) : Prop :=
  fst (main_run Backend pipeline_body devices w) = Ok 0
  /\ calls Backend (snd (main_run Backend pipeline_body devices w))
     = calls Backend w ++ map call_testPipeline devices.

(** Two devices; the pipeline on the first one fails an expectation. *)
Definition two_devices : list string := ["gpu0"%string; "gpu1"%string].

Definition expectation_fails_on_gpu0 (dev : string) (b : unit)
  : Result unit * unit :=
  if String.eqb dev "gpu0" then (Throw (ExpectationError "bad size"), b)
  else (Ok tt, b).

(** The pipeline on the first one fails in the backend. *)
Definition backend_fails_on_gpu0 (dev : string) (b : unit)
  : Result unit * unit :=
  if String.eqb dev "gpu0" then (Throw (cl_Error "clEnqueueNDRangeKernel" (-5)), b)
  else (Ok tt, b).

Definition fresh_world : world unit :=
  {| backend := tt; hypo_best_count := 0; calls := []; stderr := [] |}.

End MainProps.

(** ** Score statistics and selection *)

Module SelectionProps.
Import TestPose.

(** [s > 0] *)
Definition positive (s : cl_float) : bool :=
  cl_float_gt s (cl_float_of_Z 0).

(** [s <= 0] *)
Definition not_above_zero (s : cl_float) : Prop :=
  SFleb s (cl_float_of_Z 0) = true.

(** [s >= 0] *)
Definition not_below_zero (s : cl_float) : Prop :=
  SFleb (cl_float_of_Z 0) s = true.

(** The score lists on which the selection is an argmax: some score is
    strictly greater than zero, or the list is not empty and none of
    its scores is below zero (or a NaN). *)
Definition argmax_domain (scores : list cl_float) : Prop :=
  (exists s, In s scores /\ positive s = true)
  \/ (scores <> [] /\ Forall not_below_zero scores).

(** One iteration of the statistics loop as a function on the locals. *)
Definition stats_step (i : Z) (score : cl_float) (st : stats) : stats :=
  {| total := cl_float_add (total st) score;
     best := if cl_float_gt score (best st) then score else best st;
     non0 := cl_int_wrap (non0 st + (if positive score then 1 else 0));
     ibest := if cl_float_gt score (best st) then cl_int_wrap i
              else ibest st |}.

Fixpoint stats_fold (i : Z) (l : list cl_float) (st : stats) : stats :=
  match l with
  | [] => st
  | score :: l' => stats_fold (i + 1) l' (stats_step i score st)
  end.

(** [k] is the argmax of the score list with ties resolved to the
    first-seen index: [k] is an index of the list, its score compares
    with the others, no score is greater, and no earlier index has an
    equal score. *)
Definition first_argmax (scores : list cl_float) (k : Z) : Prop :=
  0 <= k
  /\ exists sk,
       nth_error scores (Z.to_nat k) = Some sk
       /\ SFeqb sk sk = true
       /\ (forall j sj, nth_error scores j = Some sj ->
                        cl_float_gt sj sk = false)
       /\ (forall j sj, (j < Z.to_nat k)%nat ->
                        nth_error scores j = Some sj ->
                        SFeqb sj sk = false).

(** What the loop has established once the scores [done] are visited:
    none of them is greater than [best]; and either no update took
    place, or [ibest] is the first index that holds [best]. *)
Definition visited (done : list cl_float) (st : stats) : Prop :=
  (forall s, In s done -> cl_float_gt s (best st) = false)
  /\ ((best st = cl_float_of_Z 0 /\ ibest st = 0
       /\ forall s, In s done -> positive s = false)
      \/ (exists k : nat,
            ibest st = Z.of_nat k
            /\ nth_error done k = Some (best st)
            /\ positive (best st) = true
            /\ forall j sj, (j < k)%nat -> nth_error done j = Some sj ->
                            SFeqb sj (best st) = false)).

(** The index handed to [hypo_best.setCount]. *)
Definition selected (Backend : Type)
    (measure_step : step_id -> option Z -> Backend -> Result Z * Backend)
    (scores : list cl_float) (w : world Backend) : Z :=
  hypo_best_count Backend (snd (select_best Backend measure_step scores w)).

(** How the block ends: as its last call, [runSe3One.measure()],
    ends. *)
Definition last_call (Backend : Type)
    (measure_step : step_id -> option Z -> Backend -> Result Z * Backend)
    (w : world Backend) : Result unit :=
  match fst (measure_step runSe3One None (backend Backend w)) with
  | Ok _ => Ok tt
  | Throw e => Throw e
  end.

(** Score lists and a backend for the examples. *)
Definition scores_neg2_neg1 : list cl_float :=
  [cl_float_of_Z (-2); cl_float_of_Z (-1)].

Definition scores_0_2_1_2 : list cl_float :=
  [cl_float_of_Z 0; cl_float_of_Z 2; cl_float_of_Z 1; cl_float_of_Z 2].

Definition scores_nan_1 : list cl_float := [S754_nan; cl_float_of_Z 1].

Definition idle_step (s : step_id) (repeat : option Z) (b : unit)
  : Result Z * unit := (Ok 0, b).

Definition idle_world : world unit :=
  {| backend := tt; hypo_best_count := 7; calls := []; stderr := [] |}.

End SelectionProps.

(** ** The [try] block of main *)

Module MainTryProps.
Import TestPose MainTry.

(** The devices a platform contributes: those it lists, none when
    [getDevices] throws. *)
Definition listed (pf : cl_Platform) : list cl_Device :=
  match getDevices pf with
  | cl_returns found => found
  | cl_throws _ _ => []
  end.

Definition all_listed (platform_get : cl_call (list cl_Platform))
  : list cl_Device :=
  match platform_get with
  | cl_returns platforms => flat_map listed platforms
  | cl_throws _ _ => []
  end.

(** The lines written for one device and for one platform. *)
Definition device_lines (dev : cl_Device) : list line :=
  [line_text ("    " ++ CL_DEVICE_NAME dev);
   line_text ("      Compute units:  "
              ++ setw 8 (decimal (CL_DEVICE_MAX_COMPUTE_UNITS dev)));
   line_text ("      Global memory:  "
              ++ setw 8 (decimal (CL_DEVICE_GLOBAL_MEM_SIZE dev / MiB))
              ++ " MiB")].

Definition platform_lines (pf : cl_Platform) : list line :=
  line_text (CL_PLATFORM_NAME pf ++ " (" ++ CL_PLATFORM_VENDOR pf ++ ", "
             ++ CL_PLATFORM_VERSION pf ++ ")")
  :: match getDevices pf with
     | cl_returns found =>
         line_text ("  Found " ++ decimal (Z.of_nat (List.length found))
                    ++ " OpenCL devices")
     | cl_throws what err => line_error what err
     end
  :: flat_map device_lines (listed pf).

(** The host state [w] with [lines] written to [std::cerr]. *)
Definition logged (Backend : Type) (w : world Backend) (lines : list line)
  : world Backend :=
  {| backend := backend Backend w;
     hypo_best_count := hypo_best_count Backend w;
     calls := calls Backend w;
     stderr := stderr Backend w ++ lines |}.

(** The bodies of the two loops of the enumeration, from the element
    read by [at]. *)
Definition device_body (Backend : Type) (id : Z) (dev : cl_Device)
  : M (locals Backend) unit :=
  bind (cerr Backend ("    " ++ CL_DEVICE_NAME dev)) (fun _ =>
  bind (cerr Backend ("      Compute units:  "
          ++ setw 8 (decimal (CL_DEVICE_MAX_COMPUTE_UNITS dev)))) (fun _ =>
  bind (cerr Backend ("      Global memory:  "
          ++ setw 8 (decimal (CL_DEVICE_GLOBAL_MEM_SIZE dev / MiB))
          ++ " MiB")) (fun _ =>
  push_back Backend dev))).

Definition platform_body (Backend : Type) (ip : Z) (pf : cl_Platform)
  : M (locals Backend) unit :=
  bind (cerr Backend (CL_PLATFORM_NAME pf ++ " (" ++ CL_PLATFORM_VENDOR pf
                      ++ ", " ++ CL_PLATFORM_VERSION pf ++ ")")) (fun _ =>
  bind (try_catch_cl Backend
          (bind (cl Backend (getDevices pf)) (fun found =>
           bind (cerr Backend ("  Found "
                   ++ decimal (Z.of_nat (List.length found))
                   ++ " OpenCL devices")) (fun _ =>
           ret found)))
          (fun what err => bind (report Backend what err)
                             (fun _ => ret [])))
       (fun newDevices => list_devices Backend newDevices)).

(** A platform without devices, for which [getDevices] throws
    [CL_DEVICE_NOT_FOUND], and a platform with two devices. *)
Definition empty_platform : cl_Platform :=
  {| CL_PLATFORM_NAME := "A"; CL_PLATFORM_VENDOR := "a";
     CL_PLATFORM_VERSION := "OpenCL 1.1";
     getDevices := cl_throws "clGetDeviceIDs" (-1) |}.

Definition gpu (name : string) : cl_Device :=
  {| CL_DEVICE_NAME := name; CL_DEVICE_MAX_COMPUTE_UNITS := 14;
     CL_DEVICE_GLOBAL_MEM_SIZE := 1073741824 |}.

Definition gpu_platform : cl_Platform :=
  {| CL_PLATFORM_NAME := "B"; CL_PLATFORM_VENDOR := "b";
     CL_PLATFORM_VERSION := "OpenCL 1.1";
     getDevices := cl_returns [gpu "gpu0"; gpu "gpu1"] |}.

End MainTryProps.

(** ** The overlay *)

Module DrawProps.
Import TestPose Draw.

(** [v.at(i)] as a partial function. *)
Definition lookup {A} (v : list A) (i : Z) : option A :=
  if (0 <=? i) && (i <? Z.of_nat (List.length v)) then nth_error v (Z.to_nat i)
  else None.

Section Overlay.

Variable project_pixel : cl_float2 -> Result cl_int2.
Variables nx ny : Z.
Variables points1 points2 : list cl_int2.
Variable uv2s : list cl_float2.

(** The line segment drawn for the pair at index [ip], when both of its
    indices and [ip] itself are within their vectors and the projection
    returns. *)
Definition segment_of (ip : Z) (pair : cl_int2) : option (list gl_command) :=
  match lookup points1 (size_t_wrap (int2_x pair)),
        lookup points2 (size_t_wrap (int2_y pair)),
        lookup uv2s ip with
  | Some xy1, Some _, Some uv3 =>
    match project_pixel uv3 with
    | Ok xy3 =>
      Some [glColor3f 1 0 0;
            glVertex2i (int2_x xy1) (cl_int_wrap (int2_y xy1 + ny));
            glVertex2i (cl_int_wrap (int2_x xy3 + nx))
                       (cl_int_wrap (int2_y xy3 + ny))]
    | Throw _ => None
    end
  | _, _, _ => None
  end.

Definition bad_pair (n ip : Z) : line :=
  line_text ("Bad pair " ++ MainTry.decimal ip ++ " of " ++ MainTry.decimal n).

(** The segments drawn, and the lines written, for the pairs from index
    [ip] on. *)
Fixpoint segments (ip : Z) (pairs : list cl_int2) : list (list gl_command) :=
  match pairs with
  | [] => []
  | pr :: rest =>
    match segment_of ip pr with
    | Some seg => seg :: segments (ip + 1) rest
    | None => segments (ip + 1) rest
    end
  end.

Fixpoint bad_pairs (n ip : Z) (pairs : list cl_int2) : list line :=
  match pairs with
  | [] => []
  | pr :: rest =>
    match segment_of ip pr with
    | Some _ => bad_pairs n (ip + 1) rest
    | None => bad_pair n ip :: bad_pairs n (ip + 1) rest
    end
  end.

(** The body of the loop over the pairs, from the pair read. *)
Definition pair_body (n : Z) (ip : Z) (pair : cl_int2) : M canvas unit :=
  try_catch_all
    (bind (vector_at points1 (size_t_wrap (int2_x pair))) (fun xy1 =>
     bind (vector_at points2 (size_t_wrap (int2_y pair))) (fun xy2 =>
     bind (vector_at uv2s ip) (fun uv3 =>
     bind (library (project_pixel uv3)) (fun xy3 =>
     bind (gl_call (glColor3f 1 0 0)) (fun _ =>
     bind (gl_call (glVertex2i (int2_x xy1)
                      (cl_int_wrap (int2_y xy1 + ny)))) (fun _ =>
     gl_call (glVertex2i (cl_int_wrap (int2_x xy3 + nx))
                         (cl_int_wrap (int2_y xy3 + ny))))))))))
    (cerr_line (bad_pair n ip)).

End Overlay.

(** A red line segment: one colour and two vertices. *)
Definition is_segment (seg : list gl_command) : Prop :=
  exists x1 y1 x2 y2,
    seg = [glColor3f 1 0 0; glVertex2i x1 y1; glVertex2i x2 y2].

Definition is_vertex (c : gl_command) : bool :=
  match c with
  | glVertex2i _ _ => true
  | _ => false
  end.

(** The two vertices drawn for a corner of the first and of the second
    image. *)
Definition corner1 (ny : Z) (xy : cl_int2) : list gl_command :=
  [glVertex2i (int2_x xy) (int2_y xy);
   glVertex2i (int2_x xy) (cl_int_wrap (int2_y xy + ny))].

Definition corner2 (nx ny : Z) (xy : cl_int2) : list gl_command :=
  [glVertex2i (cl_int_wrap (int2_x xy + nx)) (int2_y xy);
   glVertex2i (cl_int_wrap (int2_x xy + nx)) (cl_int_wrap (int2_y xy + ny))].

(** Two corners, one transformed coordinate, and three pairs: a good
    one, one whose second index is -1, and one for which no transformed
    coordinate exists. *)
Definition two_points : list cl_int2 := [mk_int2 10 20; mk_int2 30 40].

Definition one_uv : list cl_float2 :=
  [mk_float2 (cl_float_of_Z 0) (cl_float_of_Z 0)].

Definition three_pairs : list cl_int2 :=
  [mk_int2 0 1; mk_int2 1 (-1); mk_int2 0 0].

Definition project_origin (uv : cl_float2) : Result cl_int2 :=
  Ok (mk_int2 5 6).

Definition blank_canvas : canvas := {| gl := []; cerr := [] |}.

End DrawProps.

(** ** readRGBD *)

Module RgbdProps.
Import TestPose Rgbd.

(** The four numbers of a pixel: red, green, blue, depth. *)
Definition quad : Type := (Z * Z * Z * Z)%type.

Definition numbers_of (q : quad) : list Z :=
  let '(r, g, b, d) := q in [r; g; b; d].

(** What the assertions of the loop ask of a pixel. *)
Definition in_bounds (q : quad) : Prop :=
  let '(r, g, b, d) := q in
  0 <= r <= 255 /\ 0 <= g <= 255 /\ 0 <= b <= 255 /\ 0 <= d <= 65535.

(** Four [cl_uint] values of which at least one fails its assertion. *)
Definition out_of_bounds (q : quad) : Prop :=
  let '(r, g, b, d) := q in
  (0 <= r < 2 ^ 32 /\ 0 <= g < 2 ^ 32 /\ 0 <= b < 2 ^ 32 /\ 0 <= d < 2 ^ 32)
  /\ (255 < r \/ 255 < g \/ 255 < b \/ 65535 < d).

(** Something follows the number before [rest]: another number, or the
    character after the last number of the file. *)
Definition followed (rest : list Z) (s : files) : Prop :=
  rest <> [] \/ terminated s = true.

(** The file starts with a width [nx] and a height [ny] that can be
    extracted: both fit an [int], and something follows the height. *)
Definition header (s : files) (nx ny : Z) (numbers : list Z) : Prop :=
  file s = nx :: ny :: numbers
  /\ fits_int nx = true /\ fits_int ny = true
  /\ followed numbers s.

(** The mean of the three colours, rounded down. *)
Definition gray (q : quad) : Z :=
  let '(r, g, b, d) := q in (r + g + b) / 3.

Definition depth_of (q : quad) : cl_float :=
  let '(r, g, b, d) := q in cl_float_of_Z d.

(** The body of the two loops at the [k]-th pixel of an image that is
    [nx] pixels wide. *)
Definition flat_pixel (nx : Z) (k : Z) : R files unit :=
  read_pixel (k / nx) (k mod nx).

(** Two arrays with the same extents. *)
Definition same_extents {T} (a b : Array3 T) : Prop :=
  length0 a = length0 b /\ length1 a = length1 b /\ length2 a = length2 b.

(** In an image [nx] pixels wide, the state [s'] holds the pixels
    [quads] at the places from the [k0]-th on, in row-major order, with
    the mean colour in each of the four colour cells and the depth in
    the depth cell; every other pixel is as in [s]. *)
Definition decoded (nx : Z) (quads : list quad) (k0 : Z) (s s' : files)
  : Prop :=
  forall y x,
    0 <= x < nx ->
    (forall q,
       k0 <= y * nx + x ->
       nth_error quads (Z.to_nat (y * nx + x - k0)) = Some q ->
       (forall c, 0 <= c < 4 -> cell (colour s') y x c = gray q)
       /\ cell (depth s') y x 0 = depth_of q)
    /\ (~ (k0 <= y * nx + x < k0 + Z.of_nat (List.length quads)) ->
        forall c,
          cell (colour s') y x c = cell (colour s) y x c
          /\ cell (depth s') y x c = cell (depth s) y x c).

(** The real number a finite [cl_float] stands for, when it is an
    integer. *)
Definition integer_of (f : cl_float) : option Z :=
  match f with
  | S754_zero _ => Some 0
  | S754_finite s m e =>
    let v := if s then Z.neg m else Z.pos m in
    if 0 <=? e then Some (v * 2 ^ e)
    else if (v mod 2 ^ (- e)) =? 0 then Some (v / 2 ^ (- e)) else None
  | _ => None
  end.

(** The conversion of [d] to [cl_float] stands for [d] again. *)
Definition exact_at (d : Z) : bool :=
  match integer_of (cl_float_of_Z d) with
  | Some v => v =? d
  | None => false
  end.

Fixpoint exact_below (n : nat) (p : Z) : bool :=
  match n with
  | O => exact_at p
  | Datatypes.S n' =>
    exact_below n' (2 * p) && exact_below n' (2 * p + 1)
  end.

(** An image of two by one pixels, followed by one more number; the
    same with a red value that is too large; the same cut short. *)
Definition empty_images : Array3 Z * Array3 cl_float :=
  ({| length0 := 0; length1 := 0; length2 := 0; cell := fun _ _ _ => 7 |},
   {| length0 := 0; length1 := 0; length2 := 0;
      cell := fun _ _ _ => S754_nan |}).

Definition at_start (numbers : list Z) : files :=
  {| file := numbers; terminated := true; colour := fst empty_images;
     depth := snd empty_images |}.

(** The same for a file that ends with its last number. *)
Definition unterminated (numbers : list Z) : files :=
  {| file := numbers; terminated := false; colour := fst empty_images;
     depth := snd empty_images |}.

Definition two_pixels : list quad :=
  [(30, 60, 91, 1000); (255, 255, 255, 65535)].

Definition too_red : quad := (256, 0, 0, 0).

End RgbdProps.

(* ================================================================== *)
(** * Properties of Expect.hh                                          *)
(* ================================================================== *)

Section ExpectProperties.

Variable St : Type.

(** C7: for every message and boolean state, [expect message state]
    throws [ExpectationError] carrying that message if and only if the
    state is false; the throw happens in the call itself, with the
    program state as it was; when the state is true the call returns
    and changes nothing. *)
Theorem expect_throws_iff_state_false
    (message : string) (state : bool) (s : St) :
  (fst (Expect.expect message state s) = Throw (ExpectationError message)
     <-> state = false)
  /\ (forall e, fst (Expect.expect message state s) = Throw e ->
        e = ExpectationError message /\ state = false)
  /\ (state = true -> Expect.expect message state s = (Ok tt, s))
  /\ snd (Expect.expect message state s) = s.
Proof.
  unfold Expect.expect, throw, ret.
  destruct state; cbn.
  - split; [split; discriminate |].
    split; [discriminate |].
    split; reflexivity.
  - split; [split; reflexivity |].
    split; [intros e H; inversion H; split; reflexivity |].
    split; [discriminate | reflexivity].
Qed.

(** C8: for every [cudaError_t] value, [cutry] throws an
    [ExpectationError] if and only if the value is not [cudaSuccess];
    the exception always carries the fixed message "CUDA call failed",
    whatever the error code was; on [cudaSuccess] the call returns and
    changes nothing. *)
Theorem cutry_throws_iff_not_cudaSuccess
    (error : Expect.cudaError_t) (s : St) :
  ((exists e, fst (Expect.cutry error s) = Throw e)
     <-> error <> Expect.cudaSuccess)
  /\ (forall e, fst (Expect.cutry error s) = Throw e ->
        e = ExpectationError "CUDA call failed")
  /\ (error = Expect.cudaSuccess -> Expect.cutry error s = (Ok tt, s))
  /\ snd (Expect.cutry error s) = s.
Proof.
  unfold Expect.cutry, throw, ret.
  destruct (Z.eqb_spec error Expect.cudaSuccess) as [Heq | Hne]; cbn.
  - split; [split; [intros [e He]; discriminate | contradiction] |].
    split; [discriminate |].
    split; reflexivity.
  - split; [split; [intros _; exact Hne | intros _; eexists; reflexivity] |].
    split; [intros e H; inversion H; reflexivity |].
    split; [contradiction | reflexivity].
Qed.

End ExpectProperties.

(* ================================================================== *)
(** * Properties of the descriptor steps                               *)
(* ================================================================== *)

Section StepProperties.
Import Steps Props.

Lemma size_t_max_eq : size_t_max = 18446744073709551616.
Proof. reflexivity. Qed.

(** Rounding down to a multiple of 64 stays in range, so the
    multiplication does not wrap. *)
Lemma round_down_64_no_wrap (np : Z) :
  0 <= np < size_t_max -> size_t_wrap (np / 64 * 64) = np / 64 * 64.
Proof.
  intros Hnp. unfold size_t_wrap.
  apply Z.mod_small.
  pose proof (Z.mul_div_le np 64 ltac:(lia)).
  pose proof (Z.div_pos np 64 ltac:(lia) ltac:(lia)).
  lia.
Qed.

(** The whole effect of [HipsGrayStep::execute]. *)
Lemma HipsGrayStep_execute_run (w : world) :
  HipsGrayStep.execute w =
  (Ok tt,
   let np := ListState.count (i_points w) in
   let np_64 := size_t_wrap (np / 64 * 64) in
   {| i_points := i_points w;
      o_hips := ListState.setCount np_64 (o_hips w);
      trace := trace w ++
        [ev_setArg 0 (arg_buffer image); ev_setArg 1 (arg_buffer points);
         ev_setArg 2 (arg_buffer hips); ev_setArg 3 (arg_int2 0 0);
         ev_getCount points np; ev_setCount hips np_64;
         ev_enqueueNDRangeKernel None np_64 (Some 64)] |}).
Proof.
  unfold HipsGrayStep.execute, HipsGrayStep.offset00, kernel_setArg,
    i_points_getCount, o_hips_setCount, enqueueNDRangeKernel, emit,
    bind, modify, get, ret, ListState.getCount; cbn.
  repeat rewrite <- app_assoc. reflexivity.
Qed.

(** The whole effect of [HipsRichStep::execute]. *)
Lemma HipsRichStep_execute_run (w : world) :
  HipsRichStep.execute w =
  (Ok tt,
   let np := ListState.count (i_points w) in
   {| i_points := i_points w;
      o_hips := ListState.setCount np (o_hips w);
      trace := trace w ++
        [ev_setArg 0 (arg_buffer image); ev_setArg 1 (arg_buffer points);
         ev_setArg 2 (arg_buffer hips);
         ev_getCount points np; ev_setCount hips np;
         ev_enqueueNDRangeKernel None np None] |}).
Proof.
  unfold HipsRichStep.execute, kernel_setArg,
    i_points_getCount, o_hips_setCount, enqueueNDRangeKernel, emit,
    bind, modify, get, ret, ListState.getCount; cbn.
  repeat rewrite <- app_assoc. reflexivity.
Qed.

(** C1: [HipsGrayStep::execute], run with [np] input points, returns
    with the output descriptor count set to [floor(np / 64) * 64]: a
    multiple of 64 that does not exceed [np] and leaves out at most 63
    trailing points. *)
Theorem HipsGrayStep_count_rounded_down (w : world) :
  0 <= ListState.count (i_points w) < size_t_max ->
  fst (HipsGrayStep.execute w) = Ok tt
  /\ ListState.count (o_hips (snd (HipsGrayStep.execute w)))
     = ListState.count (i_points w) / 64 * 64
  /\ (64 | ListState.count (o_hips (snd (HipsGrayStep.execute w))))
  /\ ListState.count (o_hips (snd (HipsGrayStep.execute w)))
     <= ListState.count (i_points w)
  /\ 0 <= ListState.count (i_points w)
          - ListState.count (o_hips (snd (HipsGrayStep.execute w))) <= 63.
Proof.
  intros Hnp. rewrite HipsGrayStep_execute_run. cbn.
  rewrite (round_down_64_no_wrap _ Hnp).
  set (np := ListState.count (i_points w)) in *.
  pose proof (Z.mul_div_le np 64 ltac:(lia)).
  pose proof (Z.mod_pos_bound np 64 ltac:(lia)).
  pose proof (Z.div_mod np 64 ltac:(lia)).
  repeat split; try lia.
  exists (np / 64). reflexivity.
Qed.

(** C2: [HipsRichStep::execute] returns with the output descriptor
    count equal to the input point count, with no rounding; its kernel
    is enqueued over that many work items with no work-group size. *)
Theorem HipsRichStep_count_is_input_count (w : world) :
  fst (HipsRichStep.execute w) = Ok tt
  /\ ListState.count (o_hips (snd (HipsRichStep.execute w)))
     = ListState.count (i_points w)
  /\ last (trace (snd (HipsRichStep.execute w)))
          (ev_setArg 0 (arg_buffer image))
     = ev_enqueueNDRangeKernel None (ListState.count (i_points w)) None.
Proof.
  rewrite HipsRichStep_execute_run. cbn.
  repeat split.
  match goal with
  | |- last (?l ++ [?a; ?b; ?c; ?d; ?e; ?f]) _ = _ =>
      change (l ++ [a; b; c; d; e; f]) with (l ++ [a; b; c; d; e] ++ [f])
  end.
  rewrite app_assoc. apply last_last.
Qed.

Lemma HipsGrayStep_count_rounded_down_witness :
  0 <= ListState.count (i_points frame_130) < size_t_max
  /\ ListState.count (o_hips (snd (HipsGrayStep.execute frame_130))) = 128.
Proof.
  assert (Hnp : 0 <= ListState.count (i_points frame_130) < size_t_max).
  { rewrite size_t_max_eq. cbn. lia. }
  split; [exact Hnp |].
  destruct (HipsGrayStep_count_rounded_down frame_130 Hnp) as [_ [Hn _]].
  exact Hn.
Defined.

(** C3: each descriptor step sets the count of its output list, and
    only then enqueues its kernel; the count it sets is a function of
    the input count alone, so whatever count an earlier frame left in
    the output list is gone when the step returns. *)
Theorem descriptor_steps_overwrite_count_first :
  (exists f : Z -> Z, forall w : world,
      fst (HipsGrayStep.execute w) = Ok tt
      /\ ListState.count (o_hips (snd (HipsGrayStep.execute w)))
         = f (ListState.count (i_points w))
      /\ exists new,
           trace (snd (HipsGrayStep.execute w)) = trace w ++ new
           /\ count_then_enqueue (f (ListState.count (i_points w)))
                (Some 64) new)
  /\ (exists f : Z -> Z, forall w : world,
      fst (HipsRichStep.execute w) = Ok tt
      /\ ListState.count (o_hips (snd (HipsRichStep.execute w)))
         = f (ListState.count (i_points w))
      /\ exists new,
           trace (snd (HipsRichStep.execute w)) = trace w ++ new
           /\ count_then_enqueue (f (ListState.count (i_points w)))
                None new)
  /\ (forall (w : world) (n : Z),
        ListState.count (o_hips (snd (HipsGrayStep.execute (stale n w))))
        = ListState.count (o_hips (snd (HipsGrayStep.execute w)))
        /\ ListState.count (o_hips (snd (HipsRichStep.execute (stale n w))))
           = ListState.count (o_hips (snd (HipsRichStep.execute w)))).
Proof.
  split; [| split].
  - exists (fun np => size_t_wrap (np / 64 * 64)). intros w.
    rewrite HipsGrayStep_execute_run. cbn.
    split; [reflexivity |]. split; [reflexivity |].
    eexists. split; [reflexivity |].
    exists [ev_setArg 0 (arg_buffer image); ev_setArg 1 (arg_buffer points);
            ev_setArg 2 (arg_buffer hips); ev_setArg 3 (arg_int2 0 0);
            ev_getCount points (ListState.count (i_points w))].
    split; reflexivity.
  - exists (fun np => np). intros w.
    rewrite HipsRichStep_execute_run. cbn.
    split; [reflexivity |]. split; [reflexivity |].
    eexists. split; [reflexivity |].
    exists [ev_setArg 0 (arg_buffer image); ev_setArg 1 (arg_buffer points);
            ev_setArg 2 (arg_buffer hips);
            ev_getCount points (ListState.count (i_points w))].
    split; reflexivity.
  - intros w n.
    rewrite !HipsGrayStep_execute_run, !HipsRichStep_execute_run.
    split; reflexivity.
Qed.

(** C4: when the input point count does not exceed the capacity of the
    output list, either descriptor step leaves the output count [n]
    with [0 <= n <= cap]; the capacity itself is not changed. *)
Theorem descriptor_steps_count_within_capacity (w : world) :
  0 <= ListState.count (i_points w) <= ListState.size (o_hips w) ->
  (0 <= ListState.count (o_hips (snd (HipsGrayStep.execute w)))
     <= ListState.size (o_hips (snd (HipsGrayStep.execute w)))
   /\ ListState.size (o_hips (snd (HipsGrayStep.execute w)))
      = ListState.size (o_hips w))
  /\ (0 <= ListState.count (o_hips (snd (HipsRichStep.execute w)))
        <= ListState.size (o_hips (snd (HipsRichStep.execute w)))
      /\ ListState.size (o_hips (snd (HipsRichStep.execute w)))
         = ListState.size (o_hips w)).
Proof.
  intros Hnp.
  rewrite HipsGrayStep_execute_run, HipsRichStep_execute_run. cbn.
  set (np := ListState.count (i_points w)) in *.
  set (cap := ListState.size (o_hips w)) in *.
  assert (Hdown : 0 <= np / 64 * 64 <= np).
  { pose proof (Z.mul_div_le np 64 ltac:(lia)).
    pose proof (Z.div_pos np 64 ltac:(lia) ltac:(lia)). lia. }
  assert (Hwrap : 0 <= size_t_wrap (np / 64 * 64) <= np / 64 * 64).
  { unfold size_t_wrap. rewrite size_t_max_eq. split.
    - apply Z.mod_pos_bound. lia.
    - apply Z.mod_le; lia. }
  repeat split; lia.
Qed.

Lemma descriptor_steps_count_within_capacity_witness :
  0 <= ListState.count (i_points frame_130)
    <= ListState.size (o_hips frame_130)
  /\ 0 <= ListState.count (o_hips (snd (HipsGrayStep.execute frame_130)))
       <= 2048
  /\ 0 <= ListState.count (o_hips (snd (HipsRichStep.execute frame_130)))
       <= 2048.
Proof.
  assert (Hnp : 0 <= ListState.count (i_points frame_130)
                  <= ListState.size (o_hips frame_130)).
  { cbn. lia. }
  split; [exact Hnp |].
  destruct (descriptor_steps_count_within_capacity frame_130 Hnp)
    as [[Hgray _] [Hrich _]].
  split; [exact Hgray | exact Hrich].
Defined.

(** Neither step compares the count with the capacity: with more input
    points than the output list can hold, the count set exceeds it. *)
Example descriptor_steps_do_not_check_capacity :
  let w := {| i_points := {| ListState.size := 4096; ListState.count := 4096 |};
              o_hips := {| ListState.size := 2048; ListState.count := 0 |};
              trace := [] |} in
  ListState.count (o_hips (snd (HipsGrayStep.execute w))) = 4096
  /\ ListState.count (o_hips (snd (HipsRichStep.execute w))) = 4096
  /\ ListState.size (o_hips (snd (HipsRichStep.execute w))) = 2048.
Proof. repeat split. Qed.

End StepProperties.

(* ================================================================== *)
(** * Loops                                                            *)
(* ================================================================== *)

Section LoopProperties.

Variable St : Type.

Lemma bind_Ok {A B} (c : M St A) (k : A -> M St B) (s s' : St) (a : A) :
  c s = (Ok a, s') -> bind c k s = k a s'.
Proof. intros H. unfold bind. rewrite H. reflexivity. Qed.

Lemma bind_Throw {A B} (c : M St A) (k : A -> M St B) (s s' : St)
    (e : exception) :
  c s = (Throw e, s') -> bind c k s = (Throw e, s').
Proof. intros H. unfold bind. rewrite H. reflexivity. Qed.

(** [for_range] is the loop it stands for: test, body, increment. *)
Lemma for_range_unfold (lo hi : Z) (body : Z -> M St unit) (s : St) :
  for_range lo hi body s =
  if lo <? hi then bind (body lo) (fun _ => for_range (lo + 1) hi body) s
  else ret tt s.
Proof.
  unfold for_range.
  destruct (Z.ltb_spec lo hi) as [Hlt | Hge].
  - replace (Z.to_nat (hi - lo)) with (Datatypes.S (Z.to_nat (hi - (lo + 1))))
      by lia.
    reflexivity.
  - replace (Z.to_nat (hi - lo)) with O by lia.
    reflexivity.
Qed.

End LoopProperties.

(* ================================================================== *)
(** * The refinement loop of testPipeline                              *)
(* ================================================================== *)

Section RefinementProperties.
Import TestPose RefinementProps.

Variable Backend : Type.
Variable measure_step : step_id -> option Z -> Backend -> Result Z * Backend.

Lemma bind_run {St A B} (c : M St A) (k : A -> M St B) (s : St) :
  bind c k s =
  match c s with
  | (Ok a, s') => k a s'
  | (Throw e, s') => (Throw e, s')
  end.
Proof. reflexivity. Qed.

(** A call of [measure] is recorded, then the step runs: the call ends
    as the step ends, on the backend the step leaves. *)
Lemma measure_run (s : step_id) (repeat : option Z) (w : world Backend) :
  measure Backend measure_step s repeat w =
  (fst (measure_step s repeat (backend Backend w)),
   {| backend := snd (measure_step s repeat (backend Backend w));
      hypo_best_count := hypo_best_count Backend w;
      calls := calls Backend w ++ [call_measure s repeat];
      stderr := stderr Backend w |}).
Proof.
  unfold measure, record, bind, modify; cbn.
  destruct (measure_step s repeat (backend Backend w)); reflexivity.
Qed.

(** The steps begun are steps of the list; when none throws, all of
    them are run and each gives its time. *)
Lemma run_steps_begun (steps : list (step_id * option Z)) :
  forall b : Backend,
    (begun (run_steps Backend measure_step steps b) <= List.length steps)%nat
    /\ (outcome (run_steps Backend measure_step steps b) = Ok tt ->
        begun (run_steps Backend measure_step steps b) = List.length steps
        /\ List.length (times (run_steps Backend measure_step steps b))
           = List.length steps).
Proof.
  induction steps as [| [s repeat] rest IH]; intros b; cbn [run_steps].
  - cbn. split; [lia | intros _; split; reflexivity].
  - destruct (measure_step s repeat b) as [[t | e] b1]; cbn.
    + destruct (IH b1) as [Hle Hall].
      split; [lia |]. intros Hok. destruct (Hall Hok) as [Hb Ht].
      split; congruence.
    + split; [lia | intros Hno; discriminate Hno].
Qed.

(** One pass of the loop runs the four steps of the cycle, up to the
    first one that throws, and reports the four times when it is
    completed. *)
Lemma refinement_body_run (w : world Backend) :
  (timeWls <- measure Backend measure_step runWls None ;;
   timeCholesky <- measure Backend measure_step runCholesky None ;;
   timeSe3Exp <- measure Backend measure_step runSe3Exp None ;;
   timeMul <- measure Backend measure_step runMul (Some 1) ;;
   print Backend (line_int timeWls " us differentiating matrix") ;;
   print Backend (line_int timeCholesky
            " us decomposing matrix and back-substituting vector") ;;
   print Backend (line_int timeSe3Exp " us exponentiating matrix") ;;
   print Backend (line_int timeMul " us multiplying matrix") ;;
   print Backend line_blank) w
  = refined Backend measure_step cycle_steps w.
Proof.
  unfold refined, cycle_steps. cbn [run_steps].
  rewrite bind_run, measure_run.
  destruct (measure_step runWls None (backend Backend w)) as [[t1 | e] b1];
    cbn [fst snd]; [| cbn; rewrite app_nil_r; reflexivity].
  rewrite bind_run, measure_run. cbn [backend].
  destruct (measure_step runCholesky None b1) as [[t2 | e] b2];
    cbn [fst snd];
    [| cbn; rewrite app_nil_r, <- app_assoc; reflexivity].
  rewrite bind_run, measure_run. cbn [backend].
  destruct (measure_step runSe3Exp None b2) as [[t3 | e] b3];
    cbn [fst snd];
    [| cbn; rewrite app_nil_r, <- !app_assoc; reflexivity].
  rewrite bind_run, measure_run. cbn [backend].
  destruct (measure_step runMul (Some 1) b3) as [[t4 | e] b4];
    cbn [fst snd];
    [| cbn; rewrite app_nil_r, <- !app_assoc; reflexivity].
  unfold bind, print, modify; cbn.
  rewrite <- !app_assoc. reflexivity.
Qed.

(** [n] passes of the loop run the steps of [n] cycles, up to the first
    one that throws. *)
Lemma refinement_loop_run (n : nat) :
  forall (i : Z) (w : world Backend),
    for_upto n i (fun _ =>
      timeWls <- measure Backend measure_step runWls None ;;
      timeCholesky <- measure Backend measure_step runCholesky None ;;
      timeSe3Exp <- measure Backend measure_step runSe3Exp None ;;
      timeMul <- measure Backend measure_step runMul (Some 1) ;;
      print Backend (line_int timeWls " us differentiating matrix") ;;
      print Backend (line_int timeCholesky
               " us decomposing matrix and back-substituting vector") ;;
      print Backend (line_int timeSe3Exp " us exponentiating matrix") ;;
      print Backend (line_int timeMul " us multiplying matrix") ;;
      print Backend line_blank) w
    = refined Backend measure_step (List.concat (repeat cycle_steps n)) w.
Proof.
  induction n as [| n IH]; intros i w.
  - destruct w as [b c k l]. unfold refined. cbn.
    rewrite !app_nil_r. reflexivity.
  - cbn [for_upto]. rewrite bind_run, refinement_body_run.
    cbn [repeat List.concat].
    unfold refined. unfold cycle_steps. cbn [app run_steps].
    destruct (measure_step runWls None (backend Backend w)) as [[t1 | e] b1];
      [| reflexivity].
    destruct (measure_step runCholesky None b1) as [[t2 | e] b2];
      [| reflexivity].
    destruct (measure_step runSe3Exp None b2) as [[t3 | e] b3];
      [| reflexivity].
    destruct (measure_step runMul (Some 1) b3) as [[t4 | e] b4];
      [| reflexivity].
    cbn [outcome times begun final]. rewrite IH. unfold refined.
    cbn. rewrite <- !app_assoc. reflexivity.
Qed.

(** C9: the refinement loop runs the steps of ten passes, each pass the
    weighted-least-squares step, the Cholesky step, the SE3 exponential
    step and the matrix multiplication step in this order (the last one
    with a repetition count of 1), one after the other on the backend,
    and it has no other way out than a step that throws: the loop ends
    as the run of these forty steps ends, on the backend this run
    leaves, with the calls begun and the times of every completed pass
    reported.  When no step throws, the loop returns after exactly ten
    passes, forty calls in all. *)
Theorem pose_refinement_runs_ten_cycles (w : world Backend) :
  let steps := List.concat (repeat cycle_steps 10) in
  let r := run_steps Backend measure_step steps (backend Backend w) in
  let w' := snd (pose_refinement Backend measure_step w) in
  fst (pose_refinement Backend measure_step w) = outcome r
  /\ backend Backend w' = final r
  /\ calls Backend w'
     = calls Backend w ++ map call_of (firstn (begun r) steps)
  /\ stderr Backend w' = stderr Backend w ++ report (times r)
  /\ hypo_best_count Backend w' = hypo_best_count Backend w
  /\ (begun r <= 40)%nat
  /\ (outcome r = Ok tt ->
      begun r = 40%nat
      /\ List.length (times r) = 40%nat
      /\ calls Backend w'
         = calls Backend w ++ List.concat (repeat refinement_cycle 10)).
Proof.
  intros steps r w'.
  assert (Hrun : pose_refinement Backend measure_step w
                 = refined Backend measure_step steps w).
  { unfold pose_refinement, for_range. apply refinement_loop_run. }
  assert (Hcalls : calls Backend w'
                   = calls Backend w ++ map call_of (firstn (begun r) steps)).
  { subst w'. rewrite Hrun. reflexivity. }
  destruct (run_steps_begun steps (backend Backend w)) as [Hle Hall].
  fold r in Hle, Hall.
  split; [rewrite Hrun; reflexivity |].
  split; [subst w'; rewrite Hrun; reflexivity |].
  split; [exact Hcalls |].
  split; [subst w'; rewrite Hrun; reflexivity |].
  split; [subst w'; rewrite Hrun; reflexivity |].
  split; [exact Hle |].
  intros Hok. destruct (Hall Hok) as [Hb Ht].
  split; [exact Hb |]. split; [exact Ht |].
  rewrite Hcalls, Hb. reflexivity.
Qed.

End RefinementProperties.

Section RefinementExamples.
Import TestPose RefinementProps.

(** On a backend that keeps the steps run on it the loop returns, and
    the steps run are those of ten passes; fifty lines are written. *)
Lemma pose_refinement_runs_ten_cycles_witness :
  fst (pose_refinement _ logging_step logging_world) = Ok tt
  /\ backend _ (snd (pose_refinement _ logging_step logging_world))
     = List.concat (repeat cycle_steps 10)
  /\ List.length
       (stderr _ (snd (pose_refinement _ logging_step logging_world)))
     = 50%nat.
Proof.
  pose proof (pose_refinement_runs_ten_cycles _ logging_step logging_world)
    as H.
  cbv zeta in H. destruct H as [Hout [Hback [_ [Herr _]]]].
  split; [rewrite Hout; reflexivity |].
  split; [rewrite Hback; reflexivity |].
  rewrite Herr. reflexivity.
Defined.

(** On a device that fails in the sixth step run on it the loop ends in
    the second pass, at the Cholesky step, with the [cl::Error] of the
    device: six calls are begun, and the first pass alone is
    reported. *)
Lemma pose_refinement_ends_at_failing_step :
  pose_refinement _ failing_step logging_world
  = (Throw (cl_Error "clEnqueueNDRangeKernel" (-5)),
     {| backend := cycle_steps ++ [(runWls, None); (runCholesky, None)];
        hypo_best_count := 0;
        calls := refinement_cycle
                 ++ [call_measure runWls None; call_measure runCholesky None];
        stderr := report [7; 7; 7; 7] |}).
Proof. reflexivity. Qed.

End RefinementExamples.

(* ================================================================== *)
(** * Loops over a vector                                              *)
(* ================================================================== *)

Section VectorLoopProperties.
Import VectorLoop.

Variables St A : Type.

(** Inside the vector, [at] returns the element and throws nothing. *)
Lemma vector_at_middle (done : list A) (x : A) (rest : list A) (s : St) :
  vector_at (done ++ x :: rest) (Z.of_nat (List.length done)) s = (Ok x, s).
Proof.
  unfold vector_at.
  rewrite List.length_app. cbn [List.length].
  replace ((0 <=? Z.of_nat (List.length done))
           && (Z.of_nat (List.length done)
               <? Z.of_nat (List.length done + Datatypes.S (List.length rest))))
    with true.
  - rewrite Nat2Z.id, nth_error_app2 by lia.
    rewrite Nat.sub_diag. reflexivity.
  - symmetry. apply andb_true_iff. split.
    + apply Z.leb_le. lia.
    + apply Z.ltb_lt. lia.
Qed.

(** A counting loop that reads [v.at(i)] at every index visits the
    elements of [v] in order. *)
Lemma for_upto_vector_at (f : Z -> A -> M St unit) (body : Z -> M St unit)
    (v : list A) :
  (forall i s, body i s = bind (vector_at v i) (f i) s) ->
  forall rest done s,
    v = done ++ rest ->
    for_upto (List.length rest) (Z.of_nat (List.length done)) body s
    = for_each_from (Z.of_nat (List.length done)) rest f s.
Proof.
  intros Hbody rest.
  induction rest as [| x rest IH]; intros done s Hv; cbn.
  - reflexivity.
  - unfold bind. rewrite Hbody. unfold bind.
    rewrite Hv at 1. rewrite vector_at_middle.
    destruct (f (Z.of_nat (List.length done)) x s) as [[[] | e] s1];
      [| reflexivity].
    replace (Z.of_nat (List.length done) + 1)
      with (Z.of_nat (List.length (done ++ [x])))
      by (rewrite List.length_app; cbn; lia).
    apply IH. rewrite Hv, <- app_assoc. reflexivity.
Qed.

Lemma for_range_vector_at (f : Z -> A -> M St unit) (body : Z -> M St unit)
    (v : list A) (s : St) :
  (forall i s, body i s = bind (vector_at v i) (f i) s) ->
  for_range 0 (Z.of_nat (List.length v)) body s = for_each_from 0 v f s.
Proof.
  intros Hbody. unfold for_range.
  rewrite Z.sub_0_r, Nat2Z.id.
  apply (for_upto_vector_at f body v Hbody v [] s). reflexivity.
Qed.

End VectorLoopProperties.

(* ================================================================== *)
(** * The per-device loop of main                                      *)
(* ================================================================== *)

Section MainProperties.
Import TestPose MainProps VectorLoop.

Variable Backend : Type.
Variable pipeline_body : string -> Backend -> Result unit * Backend.

Let world : Type := TestPose.world Backend.
Let run_device := MainProps.run_device Backend pipeline_body.

Lemma device_loop_for_each (devices : list string) (w : world) :
  device_loop Backend pipeline_body devices w
  = for_each_from 0 devices run_device w.
Proof.
  unfold device_loop.
  apply for_range_vector_at. reflexivity.
Qed.

(** One device whose pipeline returns or throws a [cl::Error]: the
    body of the loop returns. *)
Lemma run_device_caught (id : Z) (dev : string) (w : world) :
  returns_or_cl_Error (fst (pipeline_body dev (backend Backend w))) ->
  run_device id dev w =
  (Ok tt,
   {| backend := snd (pipeline_body dev (backend Backend w));
      hypo_best_count := hypo_best_count Backend w;
      calls := calls Backend w ++ [call_testPipeline dev];
      stderr := stderr Backend w ++
        line_text ("Running pipeline for " ++ dquote ++ dev ++ dquote)%string
        :: match fst (pipeline_body dev (backend Backend w)) with
           | Throw (cl_Error what err) => [line_error what err]
           | _ => []
           end |}).
Proof.
  intros Hok.
  unfold run_device, MainProps.run_device, bind, print, try_catch_cl_Error,
    testPipeline, record, bind, modify; cbn.
  destruct (pipeline_body dev (backend Backend w)) as [[[] | e] b]; cbn in *.
  - reflexivity.
  - destruct e; try contradiction.
    rewrite <- app_assoc. reflexivity.
Qed.

(** One device whose pipeline throws anything else: the exception
    leaves the body of the loop, and nothing is logged for it. *)
Lemma run_device_escapes (id : Z) (dev : string) (w : world) (e : exception) :
  fst (pipeline_body dev (backend Backend w)) = Throw e ->
  is_cl_Error e = false ->
  run_device id dev w =
  (Throw e,
   {| backend := snd (pipeline_body dev (backend Backend w));
      hypo_best_count := hypo_best_count Backend w;
      calls := calls Backend w ++ [call_testPipeline dev];
      stderr := stderr Backend w ++
        [line_text ("Running pipeline for " ++ dquote ++ dev ++ dquote)%string]
   |}).
Proof.
  intros Hthrow Hncl.
  unfold run_device, MainProps.run_device, bind, print, try_catch_cl_Error,
    testPipeline, record, bind, modify; cbn.
  destruct (pipeline_body dev (backend Backend w)) as [r b]; cbn in *.
  subst r. destruct e; try discriminate; reflexivity.
Qed.

Lemma for_each_devices_caught (devices : list string) :
  forall (i : Z) (w : world),
    (forall dev b, In dev devices ->
                   returns_or_cl_Error (fst (pipeline_body dev b))) ->
    for_each_from i devices run_device w =
    (Ok tt,
     {| backend := backend_after Backend pipeline_body devices
                     (backend Backend w);
        hypo_best_count := hypo_best_count Backend w;
        calls := calls Backend w ++ map call_testPipeline devices;
        stderr := stderr Backend w ++
                  expected_stderr Backend pipeline_body devices
                    (backend Backend w) |}).
Proof.
  induction devices as [| dev rest IH]; intros i w Hok.
  - cbn. rewrite !app_nil_r. destruct w; reflexivity.
  - cbn [for_each_from].
    rewrite (bind_Ok _ _ _ _ _ _
               (run_device_caught i dev w (Hok dev _ (or_introl eq_refl)))).
    rewrite IH by (intros d b Hin; apply Hok; right; exact Hin).
    cbn. rewrite <- !app_assoc. reflexivity.
Qed.

Lemma for_each_devices_escape (done : list string) :
  forall (i : Z) (w : world) (dev : string) (rest : list string)
         (e : exception),
    (forall d b, In d done ->
                 returns_or_cl_Error (fst (pipeline_body d b))) ->
    fst (pipeline_body dev
           (backend_after Backend pipeline_body done (backend Backend w)))
    = Throw e ->
    is_cl_Error e = false ->
    fst (for_each_from i (done ++ dev :: rest) run_device w) = Throw e
    /\ calls Backend (snd (for_each_from i (done ++ dev :: rest) run_device w))
       = calls Backend w ++ map call_testPipeline (done ++ [dev]).
Proof.
  induction done as [| d done IH]; intros i w dev rest e Hok Hthrow Hncl.
  - cbn [app for_each_from].
    rewrite (bind_Throw _ _ _ _ _ _ (run_device_escapes i dev w e Hthrow Hncl)).
    split; reflexivity.
  - cbn [app for_each_from].
    rewrite (bind_Ok _ _ _ _ _ _
               (run_device_caught i d w (Hok d _ (or_introl eq_refl)))).
    match goal with
    | |- context [for_each_from _ _ _ ?w1] =>
        destruct (IH (i + 1) w1 dev rest e) as [Hr Hc]
    end.
    + intros d' b Hin. apply Hok. right. exact Hin.
    + exact Hthrow.
    + exact Hncl.
    + rewrite Hr, Hc. cbn. rewrite <- app_assoc. split; reflexivity.
Qed.

(** C6, as the code has it: a [cl::Error] thrown by the pipeline of a
    device ends that run only; the handler in the loop logs it and the
    loop goes on, so that when no pipeline throws anything else, [main]
    returns 0 after a run on every device, with one error line per
    failed device.  An exception of another class, such as
    [ExpectationError], ends the run of its device as well, but no
    handler of [main] matches it: it leaves the loop and [main], nothing
    is logged for it, and the devices after it are not run. *)
Theorem main_run_catches_cl_Error_only (devices : list string) (w : world) :
  ((forall dev b, In dev devices ->
                  returns_or_cl_Error (fst (pipeline_body dev b))) ->
   fst (main_run Backend pipeline_body devices w) = Ok 0
   /\ calls Backend (snd (main_run Backend pipeline_body devices w))
      = calls Backend w ++ map call_testPipeline devices
   /\ stderr Backend (snd (main_run Backend pipeline_body devices w))
      = stderr Backend w
        ++ expected_stderr Backend pipeline_body devices (backend Backend w))
  /\ (forall done dev rest e,
        devices = done ++ dev :: rest ->
        (forall d b, In d done ->
                     returns_or_cl_Error (fst (pipeline_body d b))) ->
        fst (pipeline_body dev
               (backend_after Backend pipeline_body done (backend Backend w)))
        = Throw e ->
        is_cl_Error e = false ->
        fst (main_run Backend pipeline_body devices w) = Throw e
        /\ calls Backend (snd (main_run Backend pipeline_body devices w))
           = calls Backend w ++ map call_testPipeline (done ++ [dev])).
Proof.
  split.
  - intros Hok.
    unfold main_run, bind, try_catch_cl_Error.
    rewrite device_loop_for_each.
    fold run_device.
    rewrite (for_each_devices_caught devices 0 w Hok). cbn.
    repeat split.
  - intros done dev rest e Hdev Hok Hthrow Hncl.
    unfold main_run, bind, try_catch_cl_Error.
    rewrite device_loop_for_each.
    fold run_device.
    destruct (for_each_devices_escape done 0 w dev rest e Hok Hthrow Hncl)
      as [Hr Hc].
    rewrite Hdev.
    destruct (for_each_from 0 (done ++ dev :: rest) run_device w) as [r w'].
    cbn [fst snd] in Hr, Hc. subst r.
    destruct e; try discriminate; cbn [fst snd]; split; auto.
Qed.

End MainProperties.

Section MainExamples.
Import TestPose MainProps.

(** A [cl::Error] on the first of two devices: both devices are run. *)
Lemma main_run_catches_cl_Error_only_witness :
  (forall dev b, In dev two_devices ->
                 returns_or_cl_Error (fst (backend_fails_on_gpu0 dev b)))
  /\ fst (main_run unit backend_fails_on_gpu0 two_devices fresh_world) = Ok 0
  /\ calls unit (snd (main_run unit backend_fails_on_gpu0 two_devices
                        fresh_world))
     = [call_testPipeline "gpu0"; call_testPipeline "gpu1"].
Proof.
  assert (H : forall dev b, In dev two_devices ->
                returns_or_cl_Error (fst (backend_fails_on_gpu0 dev b))).
  { intros dev b [Hd | [Hd | []]]; subst dev; exact I. }
  split; [exact H |].
  destruct (proj1 (main_run_catches_cl_Error_only unit backend_fails_on_gpu0
                     two_devices fresh_world) H) as [Hr [Hc _]].
  split; [exact Hr | exact Hc].
Defined.

(** C6, as the claim has it, fails: an [ExpectationError] on the first
    of two devices is not caught; [main] does not return, no error line
    is written, and the second device is never run. *)
Lemma ExpectationError_ends_device_loop :
  fst (main_run unit expectation_fails_on_gpu0 two_devices fresh_world)
  = Throw (ExpectationError "bad size")
  /\ calls unit (snd (main_run unit expectation_fails_on_gpu0 two_devices
                        fresh_world))
     = [call_testPipeline "gpu0"]
  /\ stderr unit (snd (main_run unit expectation_fails_on_gpu0 two_devices
                         fresh_world))
     = [line_text ("Running pipeline for " ++ dquote ++ "gpu0" ++ dquote)%string]
  /\ ~ every_device_runs unit expectation_fails_on_gpu0 two_devices
         fresh_world.
Proof.
  split; [reflexivity |]. split; [reflexivity |]. split; [reflexivity |].
  intros [Hr _]. discriminate Hr.
Qed.

End MainExamples.

(* ================================================================== *)
(** * Score statistics and the selection of the best hypothesis        *)
(* ================================================================== *)

Section FloatOrder.
Import TestPose.

Ltac order_cases :=
  repeat match goal with
  | H : context [Z.compare ?x ?y] |- _ =>
      destruct (Z.compare_spec x y); try discriminate
  | |- context [Z.compare ?x ?y] =>
      destruct (Z.compare_spec x y); try discriminate
  | H : context [Pos.compare_cont Eq ?x ?y] |- _ =>
      change (Pos.compare_cont Eq x y) with (Pos.compare x y) in *;
      destruct (Pos.compare_spec x y); try discriminate
  | |- context [Pos.compare_cont Eq ?x ?y] =>
      change (Pos.compare_cont Eq x y) with (Pos.compare x y) in *;
      destruct (Pos.compare_spec x y); try discriminate
  end.

Ltac float_cases :=
  cbn; try discriminate; try reflexivity;
  intros; order_cases; cbn in *;
  try discriminate; try reflexivity; try lia.

Lemma cl_float_gt_trans (a b c : cl_float) :
  cl_float_gt a b = true -> cl_float_gt b c = true ->
  cl_float_gt a c = true.
Proof.
  unfold cl_float_gt, SFcompare.
  destruct a as [sa | sa | | sa ma ea], b as [sb | sb | | sb mb eb],
    c as [sc | sc | | sc mc ec];
    try destruct sa; try destruct sb; try destruct sc; float_cases.
Qed.

Lemma cl_float_gt_irrefl (a : cl_float) : cl_float_gt a a = false.
Proof.
  unfold cl_float_gt, SFcompare.
  destruct a as [sa | sa | | sa ma ea]; try destruct sa; float_cases.
Qed.

Lemma cl_float_eq_gt (a b c : cl_float) :
  SFeqb a b = true -> cl_float_gt b c = true -> cl_float_gt a c = true.
Proof.
  unfold cl_float_gt, SFeqb, SFcompare.
  destruct a as [sa | sa | | sa ma ea], b as [sb | sb | | sb mb eb],
    c as [sc | sc | | sc mc ec];
    try destruct sa; try destruct sb; try destruct sc; float_cases.
Qed.

Lemma cl_float_gt_comparable (a b : cl_float) :
  cl_float_gt a b = true -> SFeqb a a = true.
Proof.
  unfold cl_float_gt, SFeqb, SFcompare.
  destruct a as [sa | sa | | sa ma ea], b as [sb | sb | | sb mb eb];
    try destruct sa; try destruct sb; float_cases.
Qed.

Lemma cl_float_gt_le (a b c : cl_float) :
  cl_float_gt a b = true -> SFleb c b = true -> cl_float_gt a c = true.
Proof.
  unfold cl_float_gt, SFleb, SFcompare.
  destruct a as [sa | sa | | sa ma ea], b as [sb | sb | | sb mb eb],
    c as [sc | sc | | sc mc ec];
    try destruct sa; try destruct sb; try destruct sc; float_cases.
Qed.

Lemma SFleb_comparable (a b : cl_float) :
  SFleb a b = true -> SFeqb b b = true.
Proof.
  unfold SFeqb, SFleb, SFcompare.
  destruct a as [sa | sa | | sa ma ea], b as [sb | sb | | sb mb eb];
    try destruct sa; try destruct sb; float_cases.
Qed.

Lemma not_above_zero_not_positive (s : cl_float) :
  SelectionProps.not_above_zero s -> SelectionProps.positive s = false.
Proof.
  unfold SelectionProps.not_above_zero, SelectionProps.positive,
    cl_float_gt, SFleb.
  destruct (SFcompare s (cl_float_of_Z 0)) as [[] |];
    intros H; try reflexivity; discriminate H.
Qed.

End FloatOrder.

Section StatsProperties.
Import TestPose SelectionProps VectorLoop.

(** The score list is read back from a list state of capacity
    [nhypos], well within reach of a [cl_int] index. *)
Lemma nhypos_within_cl_int : nhypos <= 2 ^ 31.
Proof. unfold nhypos. lia. Qed.

Lemma cl_int_wrap_small (z : Z) :
  - 2 ^ 31 <= z < 2 ^ 31 -> cl_int_wrap z = z.
Proof.
  intros Hz. unfold cl_int_wrap.
  rewrite Z.mod_small; lia.
Qed.

(** The body of the loop, once the score is read, is [stats_step]. *)
Lemma stats_body_step (scores : list cl_float) (i : Z) (st : stats) :
  stats_body scores i st =
  bind (vector_at scores i)
       (fun score => modify (stats_step i score)) st.
Proof.
  unfold stats_body, bind.
  destruct (vector_at scores i st) as [[score | e] st1]; [| reflexivity].
  unfold modify, get, ret, stats_step, positive; cbn.
  destruct (cl_float_gt score (best st1)); reflexivity.
Qed.

Lemma for_each_stats (l : list cl_float) :
  forall (i : Z) (st : stats),
    for_each_from i l (fun i score => modify (stats_step i score)) st
    = (Ok tt, stats_fold i l st).
Proof.
  induction l as [| score l IH]; intros i st; cbn.
  - reflexivity.
  - unfold bind, modify. apply IH.
Qed.

(** The statistics loop never throws, and computes [stats_fold]. *)
Lemma stats_loop_run (scores : list cl_float) :
  stats_loop scores stats_init = (Ok tt, stats_fold 0 scores stats_init).
Proof.
  unfold stats_loop.
  rewrite (for_range_vector_at stats cl_float
             (fun i score => modify (stats_step i score))).
  - apply for_each_stats.
  - intros i s. apply stats_body_step.
Qed.

Lemma visited_init : visited [] stats_init.
Proof.
  split.
  - intros s [].
  - left. repeat split. intros s [].
Qed.

(** One more score visited. *)
Lemma visited_step (done : list cl_float) (score : cl_float) (st : stats) :
  Z.of_nat (List.length done) < 2 ^ 31 ->
  visited done st ->
  visited (done ++ [score])
          (stats_step (Z.of_nat (List.length done)) score st).
Proof.
  intros Hlen [Hmax Hidx].
  unfold visited, stats_step; cbn [best ibest].
  destruct (cl_float_gt score (best st)) eqn:Hgt.
  - (* the score becomes the best one *)
    split.
    + intros s Hin. apply in_app_or in Hin.
      destruct Hin as [Hin | [Heq | []]].
      * destruct (cl_float_gt s score) eqn:Hs; [| reflexivity].
        rewrite <- (Hmax s Hin). symmetry.
        now apply cl_float_gt_trans with score.
      * subst s. apply cl_float_gt_irrefl.
    + right. exists (List.length done).
      split; [apply cl_int_wrap_small; lia |].
      split; [rewrite nth_error_app2, Nat.sub_diag by lia; reflexivity |].
      split.
      * destruct Hidx as [[Hb _] | [k [_ [_ [Hpos _]]]]].
        -- unfold positive. rewrite <- Hb. exact Hgt.
        -- unfold positive in *. now apply cl_float_gt_trans with (best st).
      * intros j sj Hj Hnth.
        rewrite nth_error_app1 in Hnth by exact Hj.
        apply nth_error_In in Hnth.
        destruct (SFeqb sj score) eqn:Heq; [| reflexivity].
        rewrite <- (Hmax sj Hnth). symmetry.
        now apply cl_float_eq_gt with score.
  - (* the best score stays *)
    split.
    + intros s Hin. apply in_app_or in Hin.
      destruct Hin as [Hin | [Heq | []]].
      * now apply Hmax.
      * subst s. exact Hgt.
    + destruct Hidx as [[Hb [Hi Hnone]] | [k [Hi [Hk [Hpos Hfirst]]]]].
      * left. split; [exact Hb |]. split; [exact Hi |].
        intros s Hin. apply in_app_or in Hin.
        destruct Hin as [Hin | [Heq | []]].
        -- now apply Hnone.
        -- subst s. unfold positive. rewrite <- Hb. exact Hgt.
      * right. exists k.
        assert (Hklt : (k < List.length done)%nat).
        { apply nth_error_Some. rewrite Hk. discriminate. }
        split; [exact Hi |].
        split; [rewrite nth_error_app1 by exact Hklt; exact Hk |].
        split; [exact Hpos |].
        intros j sj Hj Hnth.
        rewrite nth_error_app1 in Hnth by lia.
        now apply Hfirst with j.
Qed.

Lemma visited_fold (rest : list cl_float) :
  forall (done : list cl_float) (st : stats),
    Z.of_nat (List.length (done ++ rest)) <= 2 ^ 31 ->
    visited done st ->
    visited (done ++ rest)
            (stats_fold (Z.of_nat (List.length done)) rest st).
Proof.
  induction rest as [| score rest IH]; intros done st Hlen Hv.
  - rewrite app_nil_r. exact Hv.
  - cbn [stats_fold].
    rewrite List.length_app in Hlen. cbn [List.length] in Hlen.
    replace (done ++ score :: rest) with ((done ++ [score]) ++ rest)
      by (rewrite <- app_assoc; reflexivity).
    replace (Z.of_nat (List.length done) + 1)
      with (Z.of_nat (List.length (done ++ [score])))
      by (rewrite List.length_app; cbn; lia).
    apply IH.
    + rewrite !List.length_app. cbn [List.length]. lia.
    + apply visited_step; [lia | exact Hv].
Qed.

Lemma visited_all (scores : list cl_float) :
  Z.of_nat (List.length scores) <= 2 ^ 31 ->
  visited scores (stats_fold 0 scores stats_init).
Proof.
  intros Hlen.
  apply (visited_fold scores [] stats_init Hlen visited_init).
Qed.

(** With no score above zero the loop changes neither [best] nor
    [ibest] nor [non0], whatever the length of the list. *)
Lemma stats_fold_none_positive (l : list cl_float) :
  forall (i : Z) (st : stats),
    (forall s, In s l -> positive s = false) ->
    best st = cl_float_of_Z 0 -> non0 st = 0 ->
    best (stats_fold i l st) = cl_float_of_Z 0
    /\ ibest (stats_fold i l st) = ibest st
    /\ non0 (stats_fold i l st) = 0.
Proof.
  induction l as [| score l IH]; intros i st Hnone Hb Hn; cbn [stats_fold].
  - auto.
  - assert (Hs : positive score = false) by (apply Hnone; left; reflexivity).
    assert (Hgt : cl_float_gt score (best st) = false)
      by (rewrite Hb; exact Hs).
    destruct (IH (i + 1) (stats_step i score st)) as [H1 [H2 H3]].
    + intros s Hin. apply Hnone. right. exact Hin.
    + unfold stats_step; cbn. rewrite Hgt. exact Hb.
    + unfold stats_step; cbn. rewrite Hs, Hn. reflexivity.
    + rewrite H1, H2, H3. unfold stats_step; cbn. rewrite Hgt. auto.
Qed.

(** [non0] counts the scores that are strictly greater than zero. *)
Lemma stats_fold_non0 (l : list cl_float) :
  forall (i : Z) (st : stats),
    0 <= non0 st ->
    non0 st + Z.of_nat (List.length l) < 2 ^ 31 ->
    non0 (stats_fold i l st)
    = non0 st + Z.of_nat (List.length (filter positive l)).
Proof.
  induction l as [| score l IH]; intros i st H0 Hlen; cbn [stats_fold filter].
  - cbn. lia.
  - cbn [List.length] in Hlen.
    assert (Hstep : non0 (stats_step i score st)
                    = non0 st + (if positive score then 1 else 0)).
    { unfold stats_step; cbn. apply cl_int_wrap_small.
      destruct (positive score); lia. }
    rewrite IH; rewrite Hstep.
    + destruct (positive score); cbn [List.length]; lia.
    + destruct (positive score); lia.
    + destruct (positive score); lia.
Qed.

End StatsProperties.

Section SelectionProperties.
Import TestPose SelectionProps.

Variable Backend : Type.
Variable measure_step : step_id -> option Z -> Backend -> Result Z * Backend.

(** The whole effect of the selection block. *)
Lemma select_best_run (scores : list cl_float) (w : world Backend) :
  select_best Backend measure_step scores w =
  (last_call Backend measure_step w,
   let st := stats_fold 0 scores stats_init in
   {| backend := snd (measure_step runSe3One None (backend Backend w));
      hypo_best_count := size_t_wrap (ibest st);
      calls := calls Backend w ++ [call_finish; call_measure runSe3One None];
      stderr := stderr Backend w ++
        [line_int (non0 st) " non-zero scores";
         line_float (total st) " total score";
         line_float
           (cl_float_div (total st)
              (cl_float_of_Z (Z.of_nat (List.length scores))))
           " average score";
         line_float (best st) " best score";
         line_int (ibest st) " best matrix index"] |}).
Proof.
  unfold select_best. rewrite stats_loop_run.
  unfold last_call, bind, print, worker_finish, hypo_best_setCount, measure,
    record, modify, ret; cbn.
  destruct (measure_step runSe3One None (backend Backend w)) as [[t | e] b];
    cbn; repeat rewrite <- app_assoc; reflexivity.
Qed.

(** Either some score is above zero, or none is. *)
Lemma positive_or_none (scores : list cl_float) :
  (exists s, In s scores /\ positive s = true)
  \/ (forall s, In s scores -> positive s = false).
Proof.
  destruct (existsb positive scores) eqn:Hex.
  - left. apply existsb_exists in Hex. exact Hex.
  - right. intros s Hin.
    destruct (positive s) eqn:Hs; [| reflexivity].
    rewrite <- Hex. symmetry. apply existsb_exists. now exists s.
Qed.

(** With some score above zero, the index selected is the first
    argmax. *)
Lemma select_best_some_positive (scores : list cl_float)
    (w : world Backend) :
  Z.of_nat (List.length scores) <= 2 ^ 31 ->
  (exists s, In s scores /\ positive s = true) ->
  first_argmax scores (selected Backend measure_step scores w).
Proof.
  intros Hlen [s [Hin Hs]].
  unfold selected. rewrite select_best_run. cbn [fst snd].
  cbn [hypo_best_count].
  destruct (visited_all scores Hlen) as [Hmax Hidx].
  destruct Hidx as [[_ [_ Hnone]] | [k [Hi [Hk [Hpos Hfirst]]]]].
  { rewrite (Hnone s Hin) in Hs. discriminate Hs. }
  assert (Hklt : (k < List.length scores)%nat).
  { apply nth_error_Some. rewrite Hk. discriminate. }
  assert (Hwrap : size_t_wrap (ibest (stats_fold 0 scores stats_init))
                  = Z.of_nat k).
  { rewrite Hi. unfold size_t_wrap. rewrite size_t_max_eq.
    apply Z.mod_small. lia. }
  rewrite Hwrap. split; [lia |].
  exists (best (stats_fold 0 scores stats_init)).
  rewrite Nat2Z.id.
  split; [exact Hk |].
  split; [exact (cl_float_gt_comparable _ _ Hpos) |].
  split.
  - intros j sj Hnth. apply Hmax. now apply nth_error_In with j.
  - intros j sj Hj Hnth. now apply Hfirst with j.
Qed.

(** With no score above zero and none below, index 0, which is
    selected, is the first argmax. *)
Lemma select_best_all_zero (scores : list cl_float) (w : world Backend) :
  scores <> [] ->
  Forall not_below_zero scores ->
  (forall s, In s scores -> positive s = false) ->
  first_argmax scores (selected Backend measure_step scores w).
Proof.
  intros Hne Hall Hnone.
  destruct (stats_fold_none_positive scores 0 stats_init Hnone
              eq_refl eq_refl) as [_ [Hi _]].
  change (ibest stats_init) with 0 in Hi.
  unfold selected. rewrite select_best_run. cbn [fst snd].
  cbn [hypo_best_count]. rewrite Hi.
  change (size_t_wrap 0) with 0.
  destruct scores as [| s0 l]; [contradiction |].
  rewrite Forall_forall in Hall.
  assert (H0 : not_below_zero s0) by (apply Hall; left; reflexivity).
  split; [lia |]. exists s0.
  split; [reflexivity |].
  split; [exact (SFleb_comparable _ _ H0) |].
  split.
  - intros j sj Hnth. apply nth_error_In in Hnth.
    destruct (cl_float_gt sj s0) eqn:Hgt; [| reflexivity].
    rewrite <- (Hnone sj Hnth). symmetry.
    exact (cl_float_gt_le sj s0 (cl_float_of_Z 0) Hgt H0).
  - intros j sj Hj. cbn in Hj. lia.
Qed.

(** C5, as the code has it: when at least one score read back is
    strictly greater than zero, or the list is not empty and none of
    its scores is below zero, the index handed to the single-hypothesis
    step is the argmax of the score list, and among equal maximal
    scores it is the first-seen, lowest index.  (The list is one that a
    32-bit index can address.  The block throws nothing of its own: it
    ends as its last call, the run of the single-hypothesis step,
    ends.) *)
Theorem select_best_first_argmax (scores : list cl_float)
    (w : world Backend) :
  Z.of_nat (List.length scores) <= 2 ^ 31 ->
  argmax_domain scores ->
  fst (select_best Backend measure_step scores w)
    = last_call Backend measure_step w
  /\ first_argmax scores (selected Backend measure_step scores w)
  /\ selected Backend measure_step scores w
     = size_t_wrap (ibest (snd (stats_loop scores stats_init))).
Proof.
  intros Hlen Hdom.
  split; [rewrite select_best_run; reflexivity |].
  split.
  - destruct (positive_or_none scores) as [Hsome | Hnone].
    + now apply select_best_some_positive.
    + destruct Hdom as [[s [Hin Hs]] | [Hne Hall]].
      * rewrite (Hnone s Hin) in Hs. discriminate Hs.
      * now apply select_best_all_zero.
  - unfold selected. rewrite select_best_run, stats_loop_run. reflexivity.
Qed.

(** C10: when every score read back is less than or equal to zero, the
    loop leaves the best index and the best score at 0 and counts no
    score as non-zero; these are the values reported, and hypothesis 0
    is the one handed to the single-hypothesis step, which is then
    run; the block ends as this run ends. *)
Theorem select_best_without_positive_score (scores : list cl_float)
    (w : world Backend) :
  Forall not_above_zero scores ->
  fst (select_best Backend measure_step scores w)
    = last_call Backend measure_step w
  /\ stats_loop scores stats_init
     = (Ok tt, snd (stats_loop scores stats_init))
  /\ ibest (snd (stats_loop scores stats_init)) = 0
  /\ best (snd (stats_loop scores stats_init)) = cl_float_of_Z 0
  /\ non0 (snd (stats_loop scores stats_init)) = 0
  /\ non0 (snd (stats_loop scores stats_init))
     = Z.of_nat (List.length (filter positive scores))
  /\ selected Backend measure_step scores w = 0
  /\ calls Backend (snd (select_best Backend measure_step scores w))
     = calls Backend w ++ [call_finish; call_measure runSe3One None]
  /\ In (line_float (cl_float_of_Z 0) " best score")
        (stderr Backend (snd (select_best Backend measure_step scores w)))
  /\ In (line_int 0 " best matrix index")
        (stderr Backend (snd (select_best Backend measure_step scores w)))
  /\ In (line_int 0 " non-zero scores")
        (stderr Backend (snd (select_best Backend measure_step scores w))).
Proof.
  intros Hall.
  assert (Hnone : forall s, In s scores -> positive s = false).
  { intros s Hin. apply not_above_zero_not_positive.
    rewrite Forall_forall in Hall. now apply Hall. }
  destruct (stats_fold_none_positive scores 0 stats_init Hnone
              eq_refl eq_refl) as [Hb [Hi Hn]].
  change (ibest stats_init) with 0 in Hi.
  assert (Hfilter : filter positive scores = []).
  { clear - Hnone. induction scores as [| s l IH]; [reflexivity |].
    cbn. rewrite (Hnone s (or_introl eq_refl)).
    apply IH. intros s' Hin. apply Hnone. right. exact Hin. }
  unfold selected. rewrite select_best_run, stats_loop_run. cbn [fst snd].
  cbn [hypo_best_count calls stderr].
  rewrite Hb, Hi, Hn, Hfilter.
  repeat split.
  - apply in_or_app. right. cbn. auto.
  - apply in_or_app. right. cbn. auto 10.
  - apply in_or_app. right. cbn. auto.
Qed.

End SelectionProperties.

Section SelectionExamples.
Import TestPose SelectionProps.

(** Scores 0, 2, 1, 2: index 1, the first of the two maxima. *)
Lemma select_best_first_argmax_witness :
  Z.of_nat (List.length scores_0_2_1_2) <= 2 ^ 31
  /\ argmax_domain scores_0_2_1_2
  /\ first_argmax scores_0_2_1_2 1.
Proof.
  assert (Hlen : Z.of_nat (List.length scores_0_2_1_2) <= 2 ^ 31)
    by (cbn; lia).
  assert (Hdom : argmax_domain scores_0_2_1_2).
  { left. exists (cl_float_of_Z 2). split; [right; left |]; reflexivity. }
  split; [exact Hlen |]. split; [exact Hdom |].
  exact (proj1 (proj2 (select_best_first_argmax unit idle_step
                         scores_0_2_1_2 idle_world Hlen Hdom))).
Defined.

(** Scores -2 and -1, both at most zero: index 0 is selected. *)
Lemma select_best_without_positive_score_witness :
  Forall not_above_zero scores_neg2_neg1
  /\ selected unit idle_step scores_neg2_neg1 idle_world = 0.
Proof.
  assert (Hall : Forall not_above_zero scores_neg2_neg1).
  { repeat constructor. }
  split; [exact Hall |].
  destruct (select_best_without_positive_score unit idle_step
              scores_neg2_neg1 idle_world Hall)
    as [_ [_ [_ [_ [_ [_ [Hsel _]]]]]]].
  exact Hsel.
Defined.

(** C5, as the claim has it, fails: of the scores -2 and -1 the host
    selects index 0, while the greater score is at index 1. *)
Lemma select_best_not_argmax_of_negative_scores :
  selected unit idle_step scores_neg2_neg1 idle_world = 0
  /\ cl_float_gt (nth 1 scores_neg2_neg1 S754_nan)
                 (nth 0 scores_neg2_neg1 S754_nan) = true
  /\ ~ first_argmax scores_neg2_neg1
         (selected unit idle_step scores_neg2_neg1 idle_world).
Proof.
  split; [reflexivity |]. split; [reflexivity |].
  intros [_ [sk [Hk [_ [Hmax _]]]]].
  change (selected unit idle_step scores_neg2_neg1 idle_world) with 0 in Hk.
  cbn in Hk. inversion Hk; subst sk.
  specialize (Hmax 1%nat (cl_float_of_Z (-1)) eq_refl).
  discriminate Hmax.
Qed.

End SelectionExamples.

(* ================================================================== *)
(** * Further properties of the descriptor steps                       *)
(* ================================================================== *)

Section StepFurtherProperties.
Import Steps Props.

(** The rounded count is a multiple of 64 for any count read, also one
    for which the multiplication wraps. *)
Lemma round_down_64_divisible (np : Z) :
  (64 | size_t_wrap (np / 64 * 64)) /\ 0 <= size_t_wrap (np / 64 * 64) < size_t_max.
Proof.
  unfold size_t_wrap. rewrite size_t_max_eq.
  change 18446744073709551616 with (288230376151711744 * 64).
  rewrite Z.mul_mod_distr_r by lia.
  split.
  - exists ((np / 64) mod 288230376151711744). reflexivity.
  - pose proof (Z.mod_pos_bound (np / 64) 288230376151711744 ltac:(lia)).
    lia.
Qed.

(** X1: the kernel of [HipsGrayStep] is always enqueued over whole
    work-groups: the work-group size is 64, the global size is a
    multiple of it, and the global size is the descriptor count that
    was set. *)
Theorem HipsGrayStep_enqueues_whole_work_groups (w : world) :
  exists before global,
    trace (snd (HipsGrayStep.execute w))
    = trace w ++ before ++ [ev_enqueueNDRangeKernel None global (Some 64)]
    /\ (64 | global)
    /\ 0 <= global < size_t_max
    /\ ListState.count (o_hips (snd (HipsGrayStep.execute w))) = global.
Proof.
  rewrite HipsGrayStep_execute_run. cbn.
  exists [ev_setArg 0 (arg_buffer image); ev_setArg 1 (arg_buffer points);
          ev_setArg 2 (arg_buffer hips); ev_setArg 3 (arg_int2 0 0);
          ev_getCount points (ListState.count (i_points w));
          ev_setCount hips
            (size_t_wrap (ListState.count (i_points w) / 64 * 64))].
  exists (size_t_wrap (ListState.count (i_points w) / 64 * 64)).
  split; [reflexivity |].
  destruct (round_down_64_divisible (ListState.count (i_points w)))
    as [Hdiv Hrange].
  split; [exact Hdiv |]. split; [exact Hrange | reflexivity].
Qed.

(** X2: with fewer than 64 input points [HipsGrayStep] produces no
    descriptor at all: the count is set to 0 and the kernel is enqueued
    over an empty range. *)
Theorem HipsGrayStep_below_one_work_group (w : world) :
  0 <= ListState.count (i_points w) < 64 ->
  ListState.count (o_hips (snd (HipsGrayStep.execute w))) = 0
  /\ last (trace (snd (HipsGrayStep.execute w)))
          (ev_setArg 0 (arg_buffer image))
     = ev_enqueueNDRangeKernel None 0 (Some 64).
Proof.
  intros Hnp. rewrite HipsGrayStep_execute_run. cbn.
  rewrite (Z.div_small _ 64 Hnp). cbn.
  split; [reflexivity |].
  match goal with
  | |- last (?l ++ [?a; ?b; ?c; ?d; ?e; ?f; ?g]) _ = _ =>
      change (l ++ [a; b; c; d; e; f; g])
        with (l ++ [a; b; c; d; e; f] ++ [g])
  end.
  rewrite app_assoc. apply last_last.
Qed.

(** X3: on the same input the two steps differ by the remainder of the
    point count modulo 64, so they agree exactly on the multiples of
    64. *)
Theorem HipsGrayStep_against_HipsRichStep (w : world) :
  0 <= ListState.count (i_points w) < size_t_max ->
  ListState.count (o_hips (snd (HipsRichStep.execute w)))
  - ListState.count (o_hips (snd (HipsGrayStep.execute w)))
  = ListState.count (i_points w) mod 64
  /\ (ListState.count (o_hips (snd (HipsGrayStep.execute w)))
      = ListState.count (o_hips (snd (HipsRichStep.execute w)))
      <-> ListState.count (i_points w) mod 64 = 0).
Proof.
  intros Hnp.
  rewrite HipsGrayStep_execute_run, HipsRichStep_execute_run. cbn.
  rewrite (round_down_64_no_wrap _ Hnp).
  pose proof (Z.div_mod (ListState.count (i_points w)) 64 ltac:(lia)).
  split; [lia |]. split; lia.
Qed.

End StepFurtherProperties.

Section StepFurtherExamples.
Import Steps Props.

Lemma HipsGrayStep_below_one_work_group_witness :
  0 <= ListState.count (i_points (stale 5 few_points)) < 64
  /\ ListState.count
       (o_hips (snd (HipsGrayStep.execute (stale 5 few_points)))) = 0.
Proof.
  assert (H : 0 <= ListState.count (i_points (stale 5 few_points)) < 64)
    by (cbn; lia).
  split; [exact H |].
  exact (proj1 (HipsGrayStep_below_one_work_group _ H)).
Defined.

Lemma HipsGrayStep_against_HipsRichStep_witness :
  0 <= ListState.count (i_points frame_130) < size_t_max
  /\ ListState.count (o_hips (snd (HipsRichStep.execute frame_130)))
     - ListState.count (o_hips (snd (HipsGrayStep.execute frame_130)))
     = 2.
Proof.
  assert (H : 0 <= ListState.count (i_points frame_130) < size_t_max)
    by (rewrite size_t_max_eq; cbn; lia).
  split; [exact H |].
  exact (proj1 (HipsGrayStep_against_HipsRichStep _ H)).
Defined.

End StepFurtherExamples.

(* ================================================================== *)
(** * Further properties of the score statistics                       *)
(* ================================================================== *)

Section StatsFurtherProperties.
Import TestPose SelectionProps.

Lemma positive_not_below_zero (s : cl_float) :
  positive s = true -> not_below_zero s.
Proof.
  unfold positive, not_below_zero, cl_float_gt, SFleb.
  change (cl_float_of_Z 0) with (S754_zero false).
  destruct s as [sg | sg | | sg m e]; try destruct sg; cbn;
    intros H; try discriminate H; reflexivity.
Qed.

Lemma zero_not_below_zero : not_below_zero (cl_float_of_Z 0).
Proof. reflexivity. Qed.

(** Adding to a NaN, or adding a NaN, gives a NaN. *)
Lemma cl_float_add_nan_l (s : cl_float) : cl_float_add S754_nan s = S754_nan.
Proof. reflexivity. Qed.

Lemma cl_float_add_nan_r (s : cl_float) : cl_float_add s S754_nan = S754_nan.
Proof. destruct s; reflexivity. Qed.

Lemma stats_fold_total_stays_nan (l : list cl_float) :
  forall (i : Z) (st : stats),
    total st = S754_nan -> total (stats_fold i l st) = S754_nan.
Proof.
  induction l as [| s l IH]; intros i st Hnan; cbn [stats_fold].
  - exact Hnan.
  - apply IH. unfold stats_step; cbn. rewrite Hnan.
    apply cl_float_add_nan_l.
Qed.

Lemma stats_fold_total_nan (l : list cl_float) :
  forall (i : Z) (st : stats),
    In S754_nan l -> total (stats_fold i l st) = S754_nan.
Proof.
  induction l as [| s l IH]; intros i st Hin; cbn [stats_fold].
  - destruct Hin.
  - destruct Hin as [Hs | Hin].
    + subst s. apply stats_fold_total_stays_nan.
      unfold stats_step; cbn. apply cl_float_add_nan_r.
    + now apply IH.
Qed.

Section OnWorld.

Variable Backend : Type.
Variable measure_step : step_id -> option Z -> Backend -> Result Z * Backend.

(** X5: the index handed to the single-hypothesis step is an index of the
    score list whenever the list has an entry; for the empty list it is
    0, which no hypothesis has.  No read of the list fails: the block
    ends as its last call, the run of the single-hypothesis step,
    ends. *)
Theorem select_best_index_within_list (scores : list cl_float)
    (w : world Backend) :
  Z.of_nat (List.length scores) <= 2 ^ 31 ->
  fst (select_best Backend measure_step scores w)
    = last_call Backend measure_step w
  /\ 0 <= selected Backend measure_step scores w
  /\ (scores <> [] ->
      selected Backend measure_step scores w
      < Z.of_nat (List.length scores))
  /\ (scores = [] -> selected Backend measure_step scores w = 0).
Proof.
  intros Hlen.
  unfold selected. rewrite select_best_run. cbn [fst snd hypo_best_count].
  split; [reflexivity |].
  destruct (visited_all scores Hlen) as [_ Hidx].
  assert (Hi : 0 <= ibest (stats_fold 0 scores stats_init)
               /\ (scores <> [] ->
                   ibest (stats_fold 0 scores stats_init)
                   < Z.of_nat (List.length scores))).
  { destruct Hidx as [[_ [Hi _]] | [k [Hi [Hk _]]]]; rewrite Hi.
    - split; [lia |]. intros Hne.
      destruct scores; [contradiction | cbn [List.length]; lia].
    - assert (k < List.length scores)%nat
        by (apply nth_error_Some; rewrite Hk; discriminate).
      split; lia. }
  destruct Hi as [Hi0 Hi1].
  assert (Hwrap : size_t_wrap (ibest (stats_fold 0 scores stats_init))
                  = ibest (stats_fold 0 scores stats_init)).
  { unfold size_t_wrap. rewrite size_t_max_eq. apply Z.mod_small.
    destruct scores as [| s l].
    - cbn. lia.
    - specialize (Hi1 ltac:(discriminate)). lia. }
  rewrite Hwrap.
  split; [exact Hi0 |]. split; [exact Hi1 |].
  intros He. subst scores. reflexivity.
Qed.

(** X6: the number reported as non-zero scores is the number of scores
    that are strictly greater than zero: negative scores, zeros of
    either sign and NaNs are not counted. *)
Theorem select_best_counts_scores_above_zero (scores : list cl_float)
    (w : world Backend) :
  Z.of_nat (List.length scores) < 2 ^ 31 ->
  non0 (snd (stats_loop scores stats_init))
  = Z.of_nat (List.length (filter positive scores))
  /\ In (line_int (Z.of_nat (List.length (filter positive scores)))
                  " non-zero scores")
        (stderr Backend (snd (select_best Backend measure_step scores w)))
  /\ positive (S754_zero true) = false
  /\ positive S754_nan = false.
Proof.
  intros Hlen.
  assert (Hn : non0 (stats_fold 0 scores stats_init)
               = Z.of_nat (List.length (filter positive scores))).
  { rewrite stats_fold_non0; cbn [non0 stats_init]; lia. }
  rewrite select_best_run, stats_loop_run. cbn [fst snd stderr].
  rewrite Hn.
  split; [reflexivity |].
  split; [apply in_or_app; right; left; reflexivity |].
  split; reflexivity.
Qed.

(** X7: the best score reported is never below zero and never a NaN; when a
    score above zero exists it is the score stored at the best index
    reported, and otherwise it is the initial 0. *)
Theorem select_best_reports_score_at_index (scores : list cl_float) :
  Z.of_nat (List.length scores) <= 2 ^ 31 ->
  not_below_zero (best (snd (stats_loop scores stats_init)))
  /\ ((exists s, In s scores /\ positive s = true) ->
      nth_error scores (Z.to_nat (ibest (snd (stats_loop scores stats_init))))
      = Some (best (snd (stats_loop scores stats_init))))
  /\ ((forall s, In s scores -> positive s = false) ->
      best (snd (stats_loop scores stats_init)) = cl_float_of_Z 0
      /\ ibest (snd (stats_loop scores stats_init)) = 0).
Proof.
  intros Hlen. rewrite stats_loop_run. cbn [snd].
  destruct (visited_all scores Hlen) as [_ Hidx].
  destruct Hidx as [[Hb [Hi Hnone]] | [k [Hi [Hk [Hpos _]]]]].
  - split; [rewrite Hb; exact zero_not_below_zero |].
    split.
    + intros [s [Hin Hs]]. rewrite (Hnone s Hin) in Hs. discriminate Hs.
    + intros _. split; assumption.
  - split; [exact (positive_not_below_zero _ Hpos) |].
    split.
    + intros _. rewrite Hi, Nat2Z.id. exact Hk.
    + intros Hnone. apply nth_error_In in Hk.
      rewrite (Hnone _ Hk) in Hpos. discriminate Hpos.
Qed.

(** X8: one NaN among the scores turns the total and the average reported
    into NaN. *)
Theorem select_best_total_of_nan (scores : list cl_float)
    (w : world Backend) :
  In S754_nan scores ->
  total (snd (stats_loop scores stats_init)) = S754_nan
  /\ In (line_float S754_nan " total score")
        (stderr Backend (snd (select_best Backend measure_step scores w)))
  /\ In (line_float S754_nan " average score")
        (stderr Backend (snd (select_best Backend measure_step scores w))).
Proof.
  intros Hin.
  assert (Ht : total (stats_fold 0 scores stats_init) = S754_nan)
    by (now apply stats_fold_total_nan).
  rewrite select_best_run, stats_loop_run. cbn [fst snd stderr].
  rewrite Ht.
  split; [reflexivity |].
  split; apply in_or_app; right; cbn; auto.
Qed.

End OnWorld.

End StatsFurtherProperties.

(* ================================================================== *)
(** * The try block of main                                            *)
(* ================================================================== *)

Section MainTryProperties.
Import TestPose MainProps MainTry MainTryProps VectorLoop.

Variable Backend : Type.

Lemma cerr_run (text : string) (l : locals Backend) :
  cerr Backend text l =
  (Ok tt, {| devices := devices Backend l;
             host := logged Backend (host Backend l) [line_text text] |}).
Proof. reflexivity. Qed.

Lemma logged_logged (w : world Backend) (l1 l2 : list line) :
  logged Backend (logged Backend w l1) l2 = logged Backend w (l1 ++ l2).
Proof. unfold logged; cbn. rewrite <- app_assoc. reflexivity. Qed.

Lemma logged_nil (w : world Backend) : logged Backend w [] = w.
Proof. unfold logged. rewrite app_nil_r. destruct w; reflexivity. Qed.

(** The loop over the devices of a platform appends them all. *)
Lemma list_devices_run (found : list cl_Device) (l : locals Backend) :
  list_devices Backend found l =
  (Ok tt, {| devices := devices Backend l ++ found;
             host := logged Backend (host Backend l)
                       (flat_map device_lines found) |}).
Proof.
  unfold list_devices.
  rewrite (for_range_vector_at (locals Backend) cl_Device
             (device_body Backend)) by reflexivity.
  generalize 0 as i. revert l.
  induction found as [| dev found IH]; intros l i; cbn [for_each_from].
  - cbn. rewrite app_nil_r, logged_nil. destruct l; reflexivity.
  - unfold bind at 1. unfold device_body at 1.
    unfold bind at 1. rewrite cerr_run.
    unfold bind at 1. rewrite cerr_run.
    unfold bind at 1. rewrite cerr_run.
    unfold push_back, modify. cbn [devices host].
    rewrite IH. cbn [devices host flat_map].
    rewrite !logged_logged, <- app_assoc. reflexivity.
Qed.

(** One platform: its devices are appended when it lists them; when
    [getDevices] throws, the error is written and nothing is appended. *)
Lemma platform_run (ip : Z) (pf : cl_Platform) (l : locals Backend) :
  platform_body Backend ip pf l
  = (Ok tt, {| devices := devices Backend l ++ listed pf;
               host := logged Backend (host Backend l)
                         (platform_lines pf) |}).
Proof.
  unfold platform_body.
  unfold bind at 1. rewrite cerr_run.
  unfold bind at 1. unfold try_catch_cl, platform_lines, listed.
  destruct (getDevices pf) as [found | what err]; cbn [cl].
  - unfold bind at 1. unfold ret at 1.
    unfold bind at 1. rewrite cerr_run. unfold ret at 1.
    rewrite list_devices_run. cbn [devices host].
    rewrite !logged_logged. reflexivity.
  - unfold bind at 1. unfold throw at 1.
    unfold bind at 1. unfold report, on_host, print, modify at 1.
    cbn [devices host]. unfold ret at 1.
    rewrite list_devices_run. cbn [devices host flat_map].
    rewrite app_nil_r. unfold logged; cbn.
    rewrite <- !app_assoc. reflexivity.
Qed.

Lemma platforms_run (platforms : list cl_Platform) :
  forall (i : Z) (l : locals Backend),
    for_each_from i platforms (platform_body Backend) l
    = (Ok tt,
       {| devices := devices Backend l ++ flat_map listed platforms;
          host := logged Backend (host Backend l)
                    (flat_map platform_lines platforms) |}).
Proof.
  induction platforms as [| pf platforms IH]; intros i l;
    cbn [for_each_from flat_map].
  - cbn. rewrite app_nil_r, logged_nil. destruct l; reflexivity.
  - unfold bind at 1. rewrite platform_run, IH. cbn [devices host].
    rewrite logged_logged, <- app_assoc. reflexivity.
Qed.

(** The whole enumeration, when [cl::Platform::get] returns. *)
Lemma enumerate_run (platforms : list cl_Platform) (l : locals Backend) :
  enumerate Backend (cl_returns platforms) l
  = (Ok tt,
     {| devices := devices Backend l ++ flat_map listed platforms;
        host := logged Backend (host Backend l)
                  (line_text ("Found "
                              ++ decimal (Z.of_nat (List.length platforms))
                              ++ " OpenCL platforms")
                   :: flat_map platform_lines platforms) |}).
Proof.
  unfold enumerate. cbn [cl].
  unfold bind at 1. unfold ret at 1.
  unfold bind at 1. rewrite cerr_run.
  rewrite (for_range_vector_at (locals Backend) cl_Platform
             (platform_body Backend)) by reflexivity.
  rewrite platforms_run. cbn [devices host].
  rewrite logged_logged. reflexivity.
Qed.

(** When [cl::Platform::get] throws, so does the enumeration, with
    nothing written. *)
Lemma enumerate_throws (what : string) (err : Z) (l : locals Backend) :
  enumerate Backend (cl_throws what err) l = (Throw (cl_Error what err), l).
Proof. reflexivity. Qed.

(** X9: the enumeration goes through every platform: a platform whose
    [getDevices] throws is reported and contributes no device, and the
    platforms after it are still asked.  The devices collected are
    those of the platforms that list them, in order; no pipeline is
    run. *)
Theorem enumerate_skips_failing_platforms (platforms : list cl_Platform)
    (l : locals Backend) :
  fst (enumerate Backend (cl_returns platforms) l) = Ok tt
  /\ devices Backend (snd (enumerate Backend (cl_returns platforms) l))
     = devices Backend l ++ flat_map listed platforms
  /\ (forall pf what err,
        In pf platforms -> getDevices pf = cl_throws what err ->
        listed pf = []
        /\ In (line_error what err)
              (stderr Backend
                 (host Backend
                    (snd (enumerate Backend (cl_returns platforms) l)))))
  /\ calls Backend
       (host Backend (snd (enumerate Backend (cl_returns platforms) l)))
     = calls Backend (host Backend l).
Proof.
  rewrite enumerate_run. cbn [fst snd devices host].
  split; [reflexivity |]. split; [reflexivity |].
  split; [| reflexivity].
  intros pf what err Hin Hthrow.
  split; [unfold listed; rewrite Hthrow; reflexivity |].
  unfold logged; cbn [stderr].
  apply in_or_app. right. right.
  apply in_flat_map. exists pf. split; [exact Hin |].
  unfold platform_lines. rewrite Hthrow. right. left. reflexivity.
Qed.

Variable pipeline_body : string -> Backend -> Result unit * Backend.

(** The whole [try] block when [cl::Platform::get] returns and no
    pipeline throws anything but a [cl::Error]. *)
Lemma main_try_run (platforms : list cl_Platform) (w : world Backend) :
  (forall dev b, returns_or_cl_Error (fst (pipeline_body dev b))) ->
  main_try Backend pipeline_body (cl_returns platforms) w
  = (Ok 0,
     let names := map CL_DEVICE_NAME (flat_map listed platforms) in
     {| backend := backend_after Backend pipeline_body names
                     (backend Backend w);
        hypo_best_count := hypo_best_count Backend w;
        calls := calls Backend w ++ map call_testPipeline names;
        stderr :=
          ((stderr Backend w
            ++ line_text ("Found "
                          ++ decimal (Z.of_nat (List.length platforms))
                          ++ " OpenCL platforms")
               :: flat_map platform_lines platforms)
           ++ [line_blank]) ++ [line_blank]
          ++ expected_stderr Backend pipeline_body names
               (backend Backend w) |}).
Proof.
  intros Hok. unfold main_try.
  unfold bind at 1. unfold try_catch_cl.
  unfold bind at 1. rewrite enumerate_run.
  unfold bind at 1. unfold on_host at 1, print at 1, modify at 1.
  cbn [devices host].
  unfold bind at 1. unfold on_host at 1, print at 1, modify at 1.
  cbn [devices host].
  unfold bind at 1. unfold get at 1. cbn [devices host].
  unfold on_host.
  cbn [devices host app].
  pose proof (device_loop_for_each Backend pipeline_body) as Hloop.
  pose proof (for_each_devices_caught Backend pipeline_body) as Hall.
  cbv zeta in Hloop, Hall.
  rewrite Hloop, Hall by (intros dev b _; apply Hok).
  unfold ret, logged. cbn.
  rewrite <- !app_assoc. reflexivity.
Qed.

(** X10: whatever [cl::Error] is thrown in the [try] block, [main] returns
    0: when [cl::Platform::get] throws, the error is written and no
    pipeline is run; otherwise the pipeline is run once on every device
    that the platforms list, in order, also after a platform has failed
    to list its devices or a pipeline has thrown a [cl::Error]. *)
Theorem main_try_returns_0 (platform_get : cl_call (list cl_Platform))
    (w : world Backend) :
  (forall dev b, returns_or_cl_Error (fst (pipeline_body dev b))) ->
  fst (main_try Backend pipeline_body platform_get w) = Ok 0
  /\ calls Backend (snd (main_try Backend pipeline_body platform_get w))
     = calls Backend w
       ++ map call_testPipeline (map CL_DEVICE_NAME (all_listed platform_get))
  /\ (forall what err,
        platform_get = cl_throws what err ->
        stderr Backend (snd (main_try Backend pipeline_body platform_get w))
        = stderr Backend w ++ [line_error what err]).
Proof.
  intros Hok.
  destruct platform_get as [platforms | what err].
  - rewrite (main_try_run platforms w Hok). cbn [fst snd calls all_listed].
    split; [reflexivity |]. split; [reflexivity |].
    intros what err Hthrow. discriminate Hthrow.
  - cbn.
    split; [reflexivity |]. split; [rewrite app_nil_r; reflexivity |].
    intros what' err' Hthrow. inversion Hthrow. reflexivity.
Qed.

End MainTryProperties.

Section MainTryExamples.
Import TestPose MainProps MainTry MainTryProps.

Lemma backend_fails_on_gpu0_caught (dev : string) (b : unit) :
  returns_or_cl_Error (fst (backend_fails_on_gpu0 dev b)).
Proof.
  unfold backend_fails_on_gpu0. destruct (String.eqb dev "gpu0"); exact I.
Qed.

(** A platform that cannot list its devices, then a platform with two
    devices, on the first of which the pipeline throws a [cl::Error]:
    both devices are run. *)
Lemma main_try_returns_0_witness :
  (forall dev b, returns_or_cl_Error (fst (backend_fails_on_gpu0 dev b)))
  /\ fst (main_try unit backend_fails_on_gpu0
            (cl_returns [empty_platform; gpu_platform]) fresh_world) = Ok 0
  /\ calls unit (snd (main_try unit backend_fails_on_gpu0
                        (cl_returns [empty_platform; gpu_platform])
                        fresh_world))
     = [call_testPipeline "gpu0"; call_testPipeline "gpu1"].
Proof.
  split; [exact backend_fails_on_gpu0_caught |].
  destruct (main_try_returns_0 unit backend_fails_on_gpu0
              (cl_returns [empty_platform; gpu_platform]) fresh_world
              backend_fails_on_gpu0_caught) as [Hr [Hc _]].
  split; [exact Hr | exact Hc].
Defined.

End MainTryExamples.

(* ================================================================== *)
(** * The overlay                                                      *)
(* ================================================================== *)

Section IndexedLoop.
Import VectorLoop.

Variables St A : Type.

(** A counting loop over the indices of [v] whose body, at every index
    of [v], does what [f] does with the element there. *)
Lemma for_upto_elements (f : Z -> A -> M St unit) (body : Z -> M St unit)
    (v : list A) :
  (forall done x rest s,
     v = done ++ x :: rest ->
     body (Z.of_nat (List.length done)) s
     = f (Z.of_nat (List.length done)) x s) ->
  forall rest done s,
    v = done ++ rest ->
    for_upto (List.length rest) (Z.of_nat (List.length done)) body s
    = for_each_from (Z.of_nat (List.length done)) rest f s.
Proof.
  intros Hbody rest.
  induction rest as [| x rest IH]; intros done s Hv; cbn.
  - reflexivity.
  - unfold bind. rewrite (Hbody done x rest s Hv).
    destruct (f (Z.of_nat (List.length done)) x s) as [[[] | e] s1];
      [| reflexivity].
    replace (Z.of_nat (List.length done) + 1)
      with (Z.of_nat (List.length (done ++ [x])))
      by (rewrite List.length_app; cbn; lia).
    apply IH. rewrite Hv, <- app_assoc. reflexivity.
Qed.

Lemma for_range_elements (f : Z -> A -> M St unit) (body : Z -> M St unit)
    (v : list A) (s : St) :
  (forall done x rest s,
     v = done ++ x :: rest ->
     body (Z.of_nat (List.length done)) s
     = f (Z.of_nat (List.length done)) x s) ->
  for_range 0 (Z.of_nat (List.length v)) body s = for_each_from 0 v f s.
Proof.
  intros Hbody. unfold for_range.
  rewrite Z.sub_0_r, Nat2Z.id.
  apply (for_upto_elements f body v Hbody v [] s). reflexivity.
Qed.

End IndexedLoop.

Section DrawProperties.
Import TestPose Draw DrawProps VectorLoop.

Variable project_pixel : cl_float2 -> Result cl_int2.
Variables nx ny : Z.

Lemma vector_at_lookup {A} (v : list A) (i : Z) (s : canvas) :
  vector_at v i s =
  match lookup v i with
  | Some x => (Ok x, s)
  | None => (Throw (out_of_range "vector::at"), s)
  end.
Proof.
  unfold vector_at, lookup.
  destruct ((0 <=? i) && (i <? Z.of_nat (List.length v))); [| reflexivity].
  destruct (nth_error v (Z.to_nat i)); reflexivity.
Qed.

(** One pair: a whole segment, or nothing but a line on [std::cerr];
    in either case the body of the loop returns. *)
Lemma pair_body_run (points1 points2 : list cl_int2) (uv2s : list cl_float2)
    (n ip : Z) (pair : cl_int2) (s : canvas) :
  pair_body project_pixel nx ny points1 points2 uv2s n ip pair s =
  (Ok tt,
   match segment_of project_pixel nx ny points1 points2 uv2s ip pair with
   | Some seg => {| gl := gl s ++ seg; cerr := cerr s |}
   | None => {| gl := gl s; cerr := cerr s ++ [bad_pair n ip] |}
   end).
Proof.
  unfold pair_body, segment_of, try_catch_all, bind.
  rewrite !vector_at_lookup.
  destruct (lookup points1 (size_t_wrap (int2_x pair))) as [xy1 |];
    [| reflexivity].
  rewrite !vector_at_lookup.
  destruct (lookup points2 (size_t_wrap (int2_y pair))) as [xy2 |];
    [| reflexivity].
  rewrite !vector_at_lookup.
  destruct (lookup uv2s ip) as [uv3 |]; [| reflexivity].
  unfold library.
  destruct (project_pixel uv3) as [xy3 | e]; [| reflexivity].
  unfold gl_call, modify; cbn.
  rewrite <- !app_assoc. reflexivity.
Qed.

Lemma pairs_run (points1 points2 : list cl_int2) (uv2s : list cl_float2)
    (n : Z) (pairs : list cl_int2) :
  forall (ip : Z) (s : canvas),
    for_each_from ip pairs
      (pair_body project_pixel nx ny points1 points2 uv2s n) s
    = (Ok tt,
       {| gl := gl s ++ List.concat
                  (segments project_pixel nx ny points1 points2 uv2s ip pairs);
          cerr := cerr s
                  ++ bad_pairs project_pixel nx ny points1 points2 uv2s
                       n ip pairs |}).
Proof.
  induction pairs as [| pr pairs IH]; intros ip s;
    cbn [for_each_from segments bad_pairs].
  - cbn. rewrite !app_nil_r. destruct s; reflexivity.
  - unfold bind at 1. rewrite pair_body_run, IH.
    destruct (segment_of project_pixel nx ny points1 points2 uv2s ip pr);
      cbn [gl cerr List.concat].
    + rewrite <- app_assoc. reflexivity.
    + rewrite <- app_assoc. reflexivity.
Qed.

(** The whole effect of [draw_pairs]. *)
Lemma draw_pairs_run (pairs points1 points2 : list cl_int2)
    (uv2s : list cl_float2) (s : canvas) :
  draw_pairs project_pixel nx ny pairs points1 points2 uv2s s =
  (Ok tt,
   {| gl := gl s ++ glBegin GL_LINES
            :: List.concat
                 (segments project_pixel nx ny points1 points2 uv2s 0 pairs)
            ++ [glEnd; glFlush];
      cerr := cerr s
              ++ bad_pairs project_pixel nx ny points1 points2 uv2s
                   (Z.of_nat (List.length pairs)) 0 pairs |}).
Proof.
  unfold draw_pairs.
  unfold bind at 1. unfold gl_call at 1, modify at 1.
  unfold bind at 1.
  rewrite (for_range_elements canvas cl_int2
             (pair_body project_pixel nx ny points1 points2 uv2s
                (Z.of_nat (List.length pairs)))).
  - rewrite pairs_run. unfold bind, gl_call, modify; cbn.
    rewrite <- !app_assoc. reflexivity.
  - intros done pr rest s0 Hv.
    unfold pair_body, try_catch_all.
    unfold bind at 1. rewrite Hv at 1. rewrite vector_at_middle.
    unfold bad_pair. reflexivity.
Qed.

Lemma segment_of_is_segment (points1 points2 : list cl_int2)
    (uv2s : list cl_float2) (ip : Z) (pr : cl_int2) (seg : list gl_command) :
  segment_of project_pixel nx ny points1 points2 uv2s ip pr = Some seg ->
  is_segment seg.
Proof.
  unfold segment_of, is_segment.
  destruct (lookup points1 (size_t_wrap (int2_x pr))) as [xy1 |];
    [| discriminate].
  destruct (lookup points2 (size_t_wrap (int2_y pr))) as [xy2 |];
    [| discriminate].
  destruct (lookup uv2s ip) as [uv3 |]; [| discriminate].
  destruct (project_pixel uv3) as [xy3 | e]; [| discriminate].
  intros H. inversion H. eauto.
Qed.

Lemma segments_are_segments (points1 points2 : list cl_int2)
    (uv2s : list cl_float2) (pairs : list cl_int2) :
  forall ip,
    Forall is_segment
      (segments project_pixel nx ny points1 points2 uv2s ip pairs).
Proof.
  induction pairs as [| pr pairs IH]; intros ip; cbn [segments].
  - constructor.
  - destruct (segment_of project_pixel nx ny points1 points2 uv2s ip pr)
      as [seg |] eqn:Hseg.
    + constructor; [exact (segment_of_is_segment _ _ _ _ _ _ Hseg) | apply IH].
    + apply IH.
Qed.

Lemma segments_and_bad_pairs (points1 points2 : list cl_int2)
    (uv2s : list cl_float2) (n : Z) (pairs : list cl_int2) :
  forall ip,
    (List.length (segments project_pixel nx ny points1 points2 uv2s ip pairs)
     + List.length
         (bad_pairs project_pixel nx ny points1 points2 uv2s n ip pairs)
     = List.length pairs)%nat.
Proof.
  induction pairs as [| pr pairs IH]; intros ip; cbn [segments bad_pairs].
  - reflexivity.
  - specialize (IH (ip + 1)).
    destruct (segment_of project_pixel nx ny points1 points2 uv2s ip pr);
      cbn [List.length]; lia.
Qed.

Lemma vertices_of_segments (segs : list (list gl_command)) :
  Forall is_segment segs ->
  List.length (filter is_vertex (List.concat segs))
  = (2 * List.length segs)%nat.
Proof.
  induction 1 as [| seg segs [x1 [y1 [x2 [y2 Hseg]]]] _ IH].
  - reflexivity.
  - subst seg. cbn [List.concat List.length].
    rewrite filter_app, List.length_app, IH. cbn. lia.
Qed.

Lemma bad_pairs_at (points1 points2 : list cl_int2)
    (uv2s : list cl_float2) (n : Z) (pairs : list cl_int2) :
  forall (ip : Z) (k : nat) (pr : cl_int2),
    nth_error pairs k = Some pr ->
    segment_of project_pixel nx ny points1 points2 uv2s
      (ip + Z.of_nat k) pr = None ->
    In (bad_pair n (ip + Z.of_nat k))
       (bad_pairs project_pixel nx ny points1 points2 uv2s n ip pairs).
Proof.
  induction pairs as [| p0 pairs IH]; intros ip k pr Hk Hnone.
  - destruct k; discriminate Hk.
  - destruct k as [| k]; cbn [nth_error] in Hk; cbn [bad_pairs].
    + inversion Hk; subst p0. rewrite Z.add_0_r in *.
      rewrite Hnone. left. reflexivity.
    + assert (Hin : In (bad_pair n (ip + Z.of_nat (Datatypes.S k)))
                       (bad_pairs project_pixel nx ny points1 points2 uv2s
                          n (ip + 1) pairs)).
      { replace (ip + Z.of_nat (Datatypes.S k)) with (ip + 1 + Z.of_nat k)
          by lia.
        apply IH with pr; [exact Hk |].
        replace (ip + 1 + Z.of_nat k) with (ip + Z.of_nat (Datatypes.S k))
          by lia.
        exact Hnone. }
      destruct (segment_of project_pixel nx ny points1 points2 uv2s ip p0);
        [exact Hin | right; exact Hin].
Qed.

(** X11: the loop that draws the matches never throws, whatever the pairs
    refer to and whatever the projection throws.  What it hands to
    OpenGL between [glBegin(GL_LINES)] and [glEnd()] is a sequence of
    whole segments, one colour and two vertices each; every pair gives
    either one segment or one line on [std::cerr]. *)
Theorem draw_pairs_draws_whole_segments
    (pairs points1 points2 : list cl_int2) (uv2s : list cl_float2)
    (s : canvas) :
  fst (draw_pairs project_pixel nx ny pairs points1 points2 uv2s s) = Ok tt
  /\ exists segs bad,
       gl (snd (draw_pairs project_pixel nx ny pairs points1 points2 uv2s s))
       = gl s ++ glBegin GL_LINES :: List.concat segs ++ [glEnd; glFlush]
       /\ cerr (snd (draw_pairs project_pixel nx ny pairs points1 points2
                       uv2s s))
          = cerr s ++ bad
       /\ Forall is_segment segs
       /\ List.length (filter is_vertex (List.concat segs))
          = (2 * List.length segs)%nat
       /\ (List.length segs + List.length bad = List.length pairs)%nat.
Proof.
  rewrite draw_pairs_run. cbn [fst snd gl cerr].
  split; [reflexivity |].
  exists (segments project_pixel nx ny points1 points2 uv2s 0 pairs).
  exists (bad_pairs project_pixel nx ny points1 points2 uv2s
            (Z.of_nat (List.length pairs)) 0 pairs).
  split; [reflexivity |]. split; [reflexivity |].
  split; [apply segments_are_segments |].
  split; [apply vertices_of_segments, segments_are_segments |].
  apply segments_and_bad_pairs.
Qed.

(** X12: a pair is reported as bad, and not drawn, as soon as one of its two
    indices is outside its point list, also the second index, whose
    point is read but not drawn, or when there is no transformed
    coordinate at the index of the pair. *)
Theorem draw_pairs_reports_bad_pair
    (pairs points1 points2 : list cl_int2) (uv2s : list cl_float2)
    (s : canvas) (k : nat) (pr : cl_int2) :
  nth_error pairs k = Some pr ->
  lookup points1 (size_t_wrap (int2_x pr)) = None
  \/ lookup points2 (size_t_wrap (int2_y pr)) = None
  \/ lookup uv2s (Z.of_nat k) = None ->
  segment_of project_pixel nx ny points1 points2 uv2s (Z.of_nat k) pr = None
  /\ In (bad_pair (Z.of_nat (List.length pairs)) (Z.of_nat k))
        (cerr (snd (draw_pairs project_pixel nx ny pairs points1 points2
                      uv2s s))).
Proof.
  intros Hk Hbad.
  assert (Hnone : segment_of project_pixel nx ny points1 points2 uv2s
                    (Z.of_nat k) pr = None).
  { unfold segment_of.
    destruct Hbad as [H | [H | H]]; rewrite H.
    - reflexivity.
    - destruct (lookup points1 (size_t_wrap (int2_x pr))); reflexivity.
    - destruct (lookup points1 (size_t_wrap (int2_x pr))); [| reflexivity].
      destruct (lookup points2 (size_t_wrap (int2_y pr))); reflexivity. }
  split; [exact Hnone |].
  rewrite draw_pairs_run. cbn [snd cerr].
  apply in_or_app. right.
  apply (bad_pairs_at points1 points2 uv2s _ pairs 0 k pr Hk Hnone).
Qed.

(** An index below zero, converted to [size_t], is outside any vector
    that memory can hold. *)
Lemma lookup_negative {A} (v : list A) (i : Z) :
  - 2 ^ 31 <= i < 0 ->
  Z.of_nat (List.length v) <= 2 ^ 63 ->
  lookup v (size_t_wrap i) = None.
Proof.
  intros Hi Hlen. unfold lookup, size_t_wrap. rewrite size_t_max_eq.
  replace (i mod 18446744073709551616) with (i + 18446744073709551616).
  - replace (i + 18446744073709551616 <? Z.of_nat (List.length v)) with false.
    + rewrite andb_false_r. reflexivity.
    + symmetry. apply Z.ltb_ge. lia.
  - apply Z.mod_unique with (-1); lia.
Qed.

Lemma corners_run (f : cl_int2 -> list gl_command)
    (body : Z -> cl_int2 -> M canvas unit) (points : list cl_int2) :
  (forall i xy s, body i xy s
                  = (Ok tt, {| gl := gl s ++ f xy; cerr := cerr s |})) ->
  forall (i : Z) (s : canvas),
    for_each_from i points body s
    = (Ok tt, {| gl := gl s ++ flat_map f points; cerr := cerr s |}).
Proof.
  intros Hbody.
  induction points as [| xy points IH]; intros i s; cbn [for_each_from flat_map].
  - cbn. rewrite app_nil_r. destruct s; reflexivity.
  - unfold bind at 1. rewrite Hbody, IH. cbn [gl cerr].
    rewrite <- app_assoc. reflexivity.
Qed.

(** X13: the loops over the corners never throw and draw every corner of
    either image twice, in the order of the lists: the corners of the
    first image in place and one image height below, those of the
    second image one image width to the right. *)
Theorem draw_corners_draws_every_corner (points1 points2 : list cl_int2)
    (s : canvas) :
  fst (draw_corners nx ny points1 points2 s) = Ok tt
  /\ gl (snd (draw_corners nx ny points1 points2 s))
     = gl s ++ [glColor3f 0 1 0; glBegin GL_POINTS]
       ++ flat_map (corner1 ny) points1
       ++ flat_map (corner2 nx ny) points2
       ++ [glEnd; glFlush]
  /\ cerr (snd (draw_corners nx ny points1 points2 s)) = cerr s
  /\ List.length (flat_map (corner1 ny) points1
                  ++ flat_map (corner2 nx ny) points2)
     = (2 * (List.length points1 + List.length points2))%nat.
Proof.
  assert (Hrun : draw_corners nx ny points1 points2 s =
    (Ok tt, {| gl := gl s ++ [glColor3f 0 1 0; glBegin GL_POINTS]
                     ++ flat_map (corner1 ny) points1
                     ++ flat_map (corner2 nx ny) points2
                     ++ [glEnd; glFlush];
               cerr := cerr s |})).
  { unfold draw_corners.
    unfold bind at 1. unfold gl_call at 1, modify at 1.
    unfold bind at 1. unfold gl_call at 1, modify at 1.
    unfold bind at 1.
    rewrite (for_range_vector_at canvas cl_int2
               (fun i xy =>
                  bind (gl_call (glVertex2i (int2_x xy) (int2_y xy)))
                    (fun _ => gl_call (glVertex2i (int2_x xy)
                                         (cl_int_wrap (int2_y xy + ny))))))
      by reflexivity.
    rewrite (corners_run (corner1 ny)).
    2:{ intros i xy s0. unfold bind, gl_call, modify, corner1; cbn.
        rewrite <- app_assoc. reflexivity. }
    unfold bind at 1.
    rewrite (for_range_vector_at canvas cl_int2
               (fun i xy =>
                  bind (gl_call (glVertex2i (cl_int_wrap (int2_x xy + nx))
                                   (int2_y xy)))
                    (fun _ => gl_call (glVertex2i
                                         (cl_int_wrap (int2_x xy + nx))
                                         (cl_int_wrap (int2_y xy + ny))))))
      by reflexivity.
    rewrite (corners_run (corner2 nx ny)).
    2:{ intros i xy s0. unfold bind, gl_call, modify, corner2; cbn.
        rewrite <- app_assoc. reflexivity. }
    unfold bind, gl_call, modify; cbn.
    rewrite <- !app_assoc. reflexivity. }
  rewrite Hrun. cbn [fst snd gl cerr].
  split; [reflexivity |]. split; [reflexivity |]. split; [reflexivity |].
  rewrite List.length_app.
  assert (Hlen : forall (f : cl_int2 -> list gl_command) l,
             (forall xy, List.length (f xy) = 2%nat) ->
             List.length (flat_map f l) = (2 * List.length l)%nat).
  { intros f l Hf. induction l as [| xy l IH]; [reflexivity |].
    cbn [flat_map List.length]. rewrite List.length_app, Hf, IH. lia. }
  rewrite !Hlen by reflexivity. lia.
Qed.

End DrawProperties.

Section DrawExamples.
Import TestPose Draw DrawProps.

(** The second of three pairs has -1 as its second index. *)
Lemma draw_pairs_reports_bad_pair_witness :
  nth_error three_pairs 1 = Some (mk_int2 1 (-1))
  /\ lookup two_points (size_t_wrap (-1)) = None
  /\ In (bad_pair 3 1)
        (cerr (snd (draw_pairs project_origin 512 256 three_pairs
                      two_points two_points one_uv blank_canvas))).
Proof.
  split; [reflexivity |]. split; [reflexivity |].
  exact (proj2 (draw_pairs_reports_bad_pair project_origin 512 256
                  three_pairs two_points two_points one_uv blank_canvas
                  1%nat (mk_int2 1 (-1)) eq_refl
                  (or_intror (or_introl eq_refl)))).
Defined.

End DrawExamples.

(* ================================================================== *)
(** * readRGBD                                                         *)
(* ================================================================== *)

Section RgbdLoops.
Import Rgbd.

Variable St : Type.

Lemma R_bind_returned {A B} (c : R St A) (k : A -> R St B) (s s' : St)
    (a : A) :
  c s = (returned a, s') -> bind c k s = k a s'.
Proof. intros H. unfold bind. rewrite H. reflexivity. Qed.

Lemma R_bind_failed {A B} (c : R St A) (k : A -> R St B) (s s' : St)
    (f : failure) :
  c s = (failed f, s') -> bind c k s = (failed f, s').
Proof. intros H. unfold bind. rewrite H. reflexivity. Qed.

(** A loop of [n + m] rounds is a loop of [n] rounds followed by a loop
    of [m] rounds. *)
Lemma R_for_upto_app (body : Z -> R St unit) (n m : nat) :
  forall (i : Z) (s : St),
    for_upto (n + m) i body s
    = bind (for_upto n i body)
        (fun _ => for_upto m (i + Z.of_nat n) body) s.
Proof.
  induction n as [| n IH]; intros i s.
  - cbn. rewrite Z.add_0_r. reflexivity.
  - cbn [Nat.add for_upto]. unfold bind.
    destruct (body i s) as [[[] | f] s1]; [| reflexivity].
    rewrite IH. unfold bind.
    replace (i + 1 + Z.of_nat n) with (i + Z.of_nat (Datatypes.S n)) by lia.
    reflexivity.
Qed.

(** Two loops whose bodies agree round by round. *)
Lemma R_for_upto_ext (body1 body2 : Z -> R St unit) (n : nat) :
  forall (i1 i2 : Z),
    (forall j s, (j < n)%nat ->
                 body1 (i1 + Z.of_nat j) s = body2 (i2 + Z.of_nat j) s) ->
    forall s, for_upto n i1 body1 s = for_upto n i2 body2 s.
Proof.
  induction n as [| n IH]; intros i1 i2 Hbody s; cbn.
  - reflexivity.
  - unfold bind.
    pose proof (Hbody O s ltac:(lia)) as H0. rewrite !Z.add_0_r in H0.
    rewrite H0.
    destruct (body2 i2 s) as [[[] | f] s1]; [| reflexivity].
    apply IH. intros j s' Hj.
    replace (i1 + 1 + Z.of_nat j) with (i1 + Z.of_nat (Datatypes.S j)) by lia.
    replace (i2 + 1 + Z.of_nat j) with (i2 + Z.of_nat (Datatypes.S j)) by lia.
    apply Hbody. lia.
Qed.

(** The two nested loops over the rows and the columns of an image visit
    its pixels in row-major order. *)
Lemma R_nested_loops_flat (body : Z -> Z -> R St unit) (nx : Z) (ny : nat) :
  0 < nx ->
  forall (y0 : Z) (s : St),
    0 <= y0 ->
    for_upto ny y0 (fun y => for_range 0 nx (fun x => body y x)) s
    = for_upto (ny * Z.to_nat nx) (y0 * nx)
        (fun k => body (k / nx) (k mod nx)) s.
Proof.
  intros Hnx.
  induction ny as [| ny IH]; intros y0 s Hy0.
  - reflexivity.
  - cbn [for_upto Nat.mul]. rewrite R_for_upto_app.
    unfold for_range at 1. rewrite Z.sub_0_r. unfold bind.
    rewrite (R_for_upto_ext (fun x => body y0 x)
               (fun k => body (k / nx) (k mod nx))
               (Z.to_nat nx) 0 (y0 * nx)).
    + destruct (for_upto (Z.to_nat nx) (y0 * nx)
                  (fun k => body (k / nx) (k mod nx)) s)
        as [[[] | f] s1]; [| reflexivity].
      rewrite IH by lia.
      replace (y0 * nx + Z.of_nat (Z.to_nat nx)) with ((y0 + 1) * nx) by lia.
      reflexivity.
    + intros j s' Hj. cbn [Z.add].
      replace ((y0 * nx + Z.of_nat j) / nx) with y0.
      * replace ((y0 * nx + Z.of_nat j) mod nx) with (Z.of_nat j);
          [reflexivity |].
        symmetry. rewrite Z.add_comm, Z.mod_add by lia.
        apply Z.mod_small. lia.
      * symmetry. rewrite Z.add_comm, Z.div_add by lia.
        rewrite Z.div_small by lia. reflexivity.
Qed.

End RgbdLoops.

Section RgbdPixels.
Import TestPose Rgbd RgbdProps.

Lemma cl_uint_wrap_small (z : Z) : 0 <= z < 2 ^ 32 -> cl_uint_wrap z = z.
Proof. intros H. unfold cl_uint_wrap. apply Z.mod_small. exact H. Qed.

Lemma fits_cl_uint_small (z : Z) : 0 <= z < 2 ^ 32 -> fits_cl_uint z = true.
Proof.
  intros H. unfold fits_cl_uint. apply andb_true_iff.
  split; [apply Z.ltb_lt | apply Z.ltb_lt]; lia.
Qed.

Lemma fits_int_range (z : Z) :
  fits_int z = true <-> - 2 ^ 31 <= z < 2 ^ 31.
Proof.
  unfold fits_int. rewrite andb_true_iff, Z.leb_le, Z.ltb_lt. reflexivity.
Qed.

Lemma followed_app (l rest : list Z) (s : files) :
  followed rest s -> followed (l ++ rest) s.
Proof.
  intros H. destruct l as [| n l]; [exact H | left; discriminate].
Qed.

(** An extraction of a number that fits its type and does not run into
    the end of the file. *)
Lemma bind_extract {B} (fits : Z -> bool) (conv : Z -> Z)
    (k : Z -> R files B) (n : Z) (rest : list Z) (term : bool)
    (col : Array3 Z) (dep : Array3 cl_float) :
  fits n = true ->
  rest <> [] \/ term = true ->
  bind (extract fits conv) k
    {| file := n :: rest; terminated := term; colour := col; depth := dep |}
  = k (conv n)
      {| file := rest; terminated := term; colour := col; depth := dep |}.
Proof.
  intros Hfits Hrest. unfold bind, extract.
  cbn [file terminated colour depth]. rewrite Hfits.
  destruct rest as [| m rest]; [| reflexivity].
  destruct Hrest as [Hne | Hterm]; [contradiction |].
  rewrite Hterm. reflexivity.
Qed.

(** An extraction of the last number of a file that ends with it. *)
Lemma bind_extract_unterminated {B} (fits : Z -> bool) (conv : Z -> Z)
    (k : Z -> R files B) (n : Z) (col : Array3 Z) (dep : Array3 cl_float) :
  bind (extract fits conv) k
    {| file := [n]; terminated := false; colour := col; depth := dep |}
  = (failed ios_failure,
     {| file := []; terminated := false; colour := col; depth := dep |}).
Proof.
  unfold bind, extract. cbn [file terminated colour depth].
  rewrite andb_false_r. reflexivity.
Qed.

(** Within the bounds that are asserted, the mean of the colours needs
    no wrap-around and fits a [cl_uchar]. *)
Lemma gray_exact (r g b d : Z) :
  in_bounds (r, g, b, d) ->
  cl_uchar_wrap (cl_uint_wrap (r + g + b) / 3) = gray (r, g, b, d)
  /\ 0 <= gray (r, g, b, d) <= 255.
Proof.
  intros [Hr [Hg [Hb Hd]]]. unfold gray.
  rewrite cl_uint_wrap_small by lia.
  assert (H : 0 <= (r + g + b) / 3 <= 255).
  { split.
    - apply Z.div_pos; lia.
    - apply Z.div_le_upper_bound; lia. }
  split; [| exact H].
  unfold cl_uchar_wrap. apply Z.mod_small. lia.
Qed.

Lemma flat_index (nx k y x : Z) :
  0 < nx -> 0 <= x < nx -> k = y * nx + x -> k / nx = y /\ k mod nx = x.
Proof.
  intros Hnx Hx Hk. split; symmetry.
  - apply Z.div_unique with x; lia.
  - apply Z.mod_unique with y; lia.
Qed.

(** The four extractions of a pixel whose numbers are values of a
    [cl_uint], the last of them followed by something. *)
Lemma read_pixel_extracted (r g b d : Z) (rest : list Z) (s : files)
    (k : Z -> Z -> Z -> Z -> R files unit) :
  file s = r :: g :: b :: d :: rest ->
  0 <= r < 2 ^ 32 -> 0 <= g < 2 ^ 32 -> 0 <= b < 2 ^ 32 -> 0 <= d < 2 ^ 32 ->
  followed rest s ->
  bind (extract fits_cl_uint cl_uint_wrap) (fun r' =>
  bind (extract fits_cl_uint cl_uint_wrap) (fun g' =>
  bind (extract fits_cl_uint cl_uint_wrap) (fun b' =>
  bind (extract fits_cl_uint cl_uint_wrap) (fun d' => k r' g' b' d')))) s
  = k r g b d {| file := rest; terminated := terminated s;
                 colour := colour s; depth := depth s |}.
Proof.
  intros Hfile Hr Hg Hb Hd Hrest.
  destruct s as [numbers term col dep]. unfold followed in Hrest.
  cbn [file terminated colour depth] in *. subst numbers.
  rewrite bind_extract
    by (first [apply fits_cl_uint_small; assumption | left; discriminate]).
  rewrite bind_extract
    by (first [apply fits_cl_uint_small; assumption | left; discriminate]).
  rewrite bind_extract
    by (first [apply fits_cl_uint_small; assumption | left; discriminate]).
  rewrite bind_extract
    by (first [apply fits_cl_uint_small; assumption | exact Hrest]).
  rewrite !cl_uint_wrap_small by assumption. reflexivity.
Qed.

(** One pixel whose four numbers are within their bounds. *)
Lemma read_pixel_run (y x r g b d : Z) (rest : list Z) (s : files) :
  file s = r :: g :: b :: d :: rest ->
  in_bounds (r, g, b, d) ->
  followed rest s ->
  read_pixel y x s =
  (returned tt,
   {| file := rest; terminated := terminated s;
      colour := assign_all y x (gray (r, g, b, d)) (colour s);
      depth := assign_all y x (cl_float_of_Z d) (depth s) |}).
Proof.
  intros Hfile Hq Hrest.
  destruct (gray_exact r g b d Hq) as [Hgray _].
  destruct Hq as [Hr [Hg [Hb Hd]]].
  unfold read_pixel.
  rewrite (read_pixel_extracted r g b d rest s _ Hfile)
    by (assumption || lia).
  replace (r <=? 255) with true by (symmetry; apply Z.leb_le; lia).
  replace (g <=? 255) with true by (symmetry; apply Z.leb_le; lia).
  replace (b <=? 255) with true by (symmetry; apply Z.leb_le; lia).
  replace (d <=? 65535) with true by (symmetry; apply Z.leb_le; lia).
  unfold bind, assert, ret, on_colour, on_depth, modify.
  cbn [file terminated colour depth].
  rewrite Hgray. reflexivity.
Qed.

(** One pixel of which a number is beyond its bound: an assertion
    fails, after the four numbers are taken and before either image is
    written. *)
Lemma read_pixel_out_of_bounds (y x r g b d : Z) (rest : list Z) (s : files) :
  file s = r :: g :: b :: d :: rest ->
  out_of_bounds (r, g, b, d) ->
  followed rest s ->
  exists expr,
    read_pixel y x s =
    (failed (assertion_failed expr),
     {| file := rest; terminated := terminated s;
        colour := colour s; depth := depth s |}).
Proof.
  intros Hfile [[Hr [Hg [Hb Hd]]] Hbad] Hrest.
  unfold read_pixel.
  rewrite (read_pixel_extracted r g b d rest s _ Hfile)
    by assumption.
  unfold bind, assert.
  destruct (Z.leb_spec r 255); [| eexists; reflexivity].
  destruct (Z.leb_spec g 255); [| eexists; reflexivity].
  destruct (Z.leb_spec b 255); [| eexists; reflexivity].
  destruct (Z.leb_spec d 65535); [| eexists; reflexivity].
  lia.
Qed.

(** One pixel with fewer than four numbers left: the stream throws,
    whatever the numbers are, and neither image is written. *)
Lemma read_pixel_short (y x : Z) (s : files) :
  (List.length (file s) < 4)%nat ->
  read_pixel y x s =
  (failed ios_failure,
   {| file := []; terminated := terminated s;
      colour := colour s; depth := depth s |}).
Proof.
  destruct s as [numbers term col dep].
  cbn [file terminated colour depth]. intros Hlen.
  unfold read_pixel, bind, extract. cbn [file terminated colour depth].
  destruct numbers as [| r [| g [| b [| d rest]]]];
    [ | | | | cbn in Hlen; lia ];
    destruct term;
    repeat match goal with
           | |- context [fits_cl_uint ?n] =>
               destruct (fits_cl_uint n);
               cbn [andb file terminated colour depth]
           end;
    reflexivity.
Qed.

(** One pixel whose depth is the last number of a file that ends with
    it: the stream throws at the depth, and neither image is
    written. *)
Lemma read_pixel_unterminated (y x r g b d : Z) (s : files) :
  file s = [r; g; b; d] ->
  0 <= r < 2 ^ 32 -> 0 <= g < 2 ^ 32 -> 0 <= b < 2 ^ 32 ->
  terminated s = false ->
  read_pixel y x s =
  (failed ios_failure,
   {| file := []; terminated := terminated s;
      colour := colour s; depth := depth s |}).
Proof.
  intros Hfile Hr Hg Hb Hterm.
  destruct s as [numbers term col dep].
  cbn [file terminated colour depth] in *. subst numbers term.
  unfold read_pixel.
  rewrite bind_extract
    by (first [apply fits_cl_uint_small; assumption | left; discriminate]).
  rewrite bind_extract
    by (first [apply fits_cl_uint_small; assumption | left; discriminate]).
  rewrite bind_extract
    by (first [apply fits_cl_uint_small; assumption | left; discriminate]).
  apply bind_extract_unterminated.
Qed.

End RgbdPixels.

Section RgbdProperties.
Import TestPose Rgbd RgbdProps.

Variable nx : Z.
Hypothesis nx_positive : 0 < nx.

(** The pixels in bounds at the head of the file are decoded one after
    the other, in row-major order. *)
Lemma flat_pixels_run (quads : list quad) :
  forall (k0 : Z) (s : files) (rest : list Z),
    Forall in_bounds quads ->
    file s = flat_map numbers_of quads ++ rest ->
    followed rest s ->
    length2 (colour s) = 4 ->
    length2 (depth s) = 1 ->
    exists s',
      for_upto (List.length quads) k0 (flat_pixel nx) s = (returned tt, s')
      /\ file s' = rest
      /\ terminated s' = terminated s
      /\ same_extents (colour s') (colour s)
      /\ same_extents (depth s') (depth s)
      /\ decoded nx quads k0 s s'.
Proof.
  induction quads as [| q quads IH]; intros k0 s rest Hall Hfile Hgo Hc Hd.
  - exists s. cbn in Hfile.
    split; [reflexivity |]. split; [exact Hfile |]. split; [reflexivity |].
    split; [repeat split |]. split; [repeat split |].
    intros y x Hx. split.
    + intros q _ Hnth. destruct (Z.to_nat (y * nx + x - k0)); discriminate.
    + intros _ c. split; reflexivity.
  - destruct q as [[[r g] b] d].
    inversion Hall as [| ? ? Hq Hrest]; subst.
    cbn [flat_map numbers_of app] in Hfile.
    cbn [List.length for_upto]. unfold flat_pixel at 1.
    rewrite (R_bind_returned _ _ _ _ _ _
               (read_pixel_run (k0 / nx) (k0 mod nx) r g b d _ s Hfile Hq
                  (followed_app _ _ _ Hgo))).
    match goal with
    | |- context [for_upto _ _ _ ?s1] =>
        destruct (IH (k0 + 1) s1 rest Hrest eq_refl Hgo Hc Hd)
          as [s' [Hrun [Hf [Ht [Hec [Hed Hdec]]]]]]
    end.
    exists s'.
    split; [exact Hrun |]. split; [exact Hf |]. split; [exact Ht |].
    split; [exact Hec |]. split; [exact Hed |].
    intros y x Hx.
    destruct (Hdec y x Hx) as [Hin Hout].
    cbn [colour depth] in Hout.
    assert (Hat : y * nx + x = k0 ->
                  forall c,
                    cell (assign_all (k0 / nx) (k0 mod nx)
                            (gray (r, g, b, d)) (colour s)) y x c
                    = (if (0 <=? c) && (c <? 4) then gray (r, g, b, d)
                       else cell (colour s) y x c)
                    /\ cell (assign_all (k0 / nx) (k0 mod nx)
                               (cl_float_of_Z d) (depth s)) y x c
                       = (if (0 <=? c) && (c <? 1) then cl_float_of_Z d
                          else cell (depth s) y x c)).
    { intros Hk c.
      destruct (flat_index nx k0 y x nx_positive Hx (eq_sym Hk)) as [Hy Hxx].
      unfold assign_all; cbn [cell]. rewrite Hy, Hxx, Hc, Hd.
      rewrite !Z.eqb_refl. cbn [andb]. split; reflexivity. }
    assert (Hoff : y * nx + x <> k0 ->
                   forall c,
                     cell (assign_all (k0 / nx) (k0 mod nx)
                             (gray (r, g, b, d)) (colour s)) y x c
                     = cell (colour s) y x c
                     /\ cell (assign_all (k0 / nx) (k0 mod nx)
                                (cl_float_of_Z d) (depth s)) y x c
                        = cell (depth s) y x c).
    { intros Hk c. unfold assign_all; cbn [cell].
      assert (Hne : (y =? k0 / nx) && (x =? k0 mod nx) = false).
      { destruct (Z.eqb_spec y (k0 / nx)) as [Hy |]; [| reflexivity].
        destruct (Z.eqb_spec x (k0 mod nx)) as [Hxx |]; [| reflexivity].
        exfalso. apply Hk. subst y x.
        rewrite Z.mul_comm. symmetry. apply Z.div_mod. lia. }
      rewrite Hne. cbn [andb]. split; reflexivity. }
    split.
    + intros q Hk Hnth.
      destruct (Z.eq_dec (y * nx + x) k0) as [Heq | Hneq].
      * rewrite Heq, Z.sub_diag in Hnth. cbn in Hnth.
        inversion Hnth; subst q.
        assert (Hnot : ~ (k0 + 1 <= y * nx + x
                          < k0 + 1 + Z.of_nat (List.length quads))) by lia.
        specialize (Hout Hnot).
        split.
        -- intros c Hcr. rewrite (proj1 (Hout c)), (proj1 (Hat Heq c)).
           replace ((0 <=? c) && (c <? 4)) with true; [reflexivity |].
           symmetry. apply andb_true_iff.
           split; [apply Z.leb_le | apply Z.ltb_lt]; lia.
        -- rewrite (proj2 (Hout 0)), (proj2 (Hat Heq 0)). reflexivity.
      * apply Hin; [lia |].
        replace (Z.to_nat (y * nx + x - k0))
          with (Datatypes.S (Z.to_nat (y * nx + x - (k0 + 1)))) in Hnth
          by lia.
        exact Hnth.
    + intros Hnot c. cbn [List.length] in Hnot.
      assert (Hnot' : ~ (k0 + 1 <= y * nx + x
                         < k0 + 1 + Z.of_nat (List.length quads))) by lia.
      assert (Hneq : y * nx + x <> k0) by lia.
      destruct (Hout Hnot' c) as [H1 H2].
      destruct (Hoff Hneq c) as [H3 H4].
      rewrite H1, H2, H3, H4. split; reflexivity.
Qed.

End RgbdProperties.

Section ReadRGBDProperties.
Import TestPose Rgbd RgbdProps.

Lemma exists_last_or_nil {A} (l : list A) :
  l = [] \/ exists l' a, l = l' ++ [a].
Proof.
  destruct l as [| x l]; [left; reflexivity | right].
  destruct (@exists_last A (x :: l) ltac:(discriminate)) as [l' [a H]].
  exists l', a. exact H.
Qed.

(** With a header that passes its assertions, [readRGBD] comes to the
    loops with both images resized and cleared. *)
Lemma readRGBD_header_run (nx ny : Z) (numbers : list Z) (s : files) :
  0 < nx < 2 ^ 31 -> 0 < ny < 2 ^ 31 ->
  file s = nx :: ny :: numbers ->
  followed numbers s ->
  readRGBD true s
  = for_upto (Z.to_nat ny * Z.to_nat nx) 0 (flat_pixel nx)
      {| file := numbers; terminated := terminated s;
         colour := fill 0 (resize ny nx 4 (colour s));
         depth := fill (cl_float_of_Z 0) (resize ny nx 1 (depth s)) |}.
Proof.
  intros Hnx Hny Hfile Hgo.
  destruct s as [numbers0 term col dep]. unfold followed in Hgo.
  cbn [file terminated colour depth] in *. subst numbers0.
  unfold readRGBD, open. unfold bind at 1, ret at 1.
  rewrite bind_extract
    by (first [apply fits_int_range; lia | left; discriminate]).
  rewrite bind_extract
    by (first [apply fits_int_range; lia | exact Hgo]).
  replace (0 <? nx) with true by (symmetry; apply Z.ltb_lt; lia).
  replace (0 <? ny) with true by (symmetry; apply Z.ltb_lt; lia).
  unfold assert. unfold bind at 1, ret at 1.
  unfold bind at 1, ret at 1.
  unfold bind at 1, on_colour at 1, modify at 1.
  cbn [file terminated colour depth].
  unfold bind at 1, on_depth at 1, modify at 1.
  cbn [file terminated colour depth].
  unfold bind at 1, on_colour at 1, modify at 1.
  cbn [file terminated colour depth].
  unfold bind at 1, on_depth at 1, modify at 1.
  cbn [file terminated colour depth].
  unfold for_range at 1. rewrite Z.sub_0_r.
  rewrite (R_nested_loops_flat files read_pixel nx (Z.to_nat ny)) by lia.
  reflexivity.
Qed.

(** The height is the last number of a file that ends with it: the
    stream throws before anything is asserted. *)
Lemma readRGBD_header_unterminated (nx ny : Z) (s : files) :
  file s = [nx; ny] ->
  fits_int nx = true ->
  terminated s = false ->
  readRGBD true s =
  (failed ios_failure,
   {| file := []; terminated := terminated s;
      colour := colour s; depth := depth s |}).
Proof.
  intros Hfile Hnx Hterm.
  destruct s as [numbers term col dep].
  cbn [file terminated colour depth] in *. subst numbers term.
  unfold readRGBD, open. unfold bind at 1, ret at 1.
  rewrite bind_extract
    by (first [exact Hnx | left; discriminate]).
  apply bind_extract_unterminated.
Qed.

(** The pixels [good] are read, and the depth of the pixel after them
    is the last number of a file that ends with it: the stream throws
    with this pixel not written. *)
Lemma readRGBD_unterminated (nx ny r g b d : Z) (good : list quad)
    (s : files) :
  0 < nx < 2 ^ 31 -> 0 < ny < 2 ^ 31 ->
  Z.of_nat (List.length good) < nx * ny ->
  Forall in_bounds good ->
  0 <= r < 2 ^ 32 -> 0 <= g < 2 ^ 32 -> 0 <= b < 2 ^ 32 ->
  file s = nx :: ny :: flat_map numbers_of good ++ [r; g; b; d] ->
  terminated s = false ->
  exists s',
    readRGBD true s = (failed ios_failure, s')
    /\ file s' = []
    /\ forall y x c,
         0 <= x < nx ->
         Z.of_nat (List.length good) <= y * nx + x ->
         cell (colour s') y x c = 0
         /\ cell (depth s') y x c = cl_float_of_Z 0.
Proof.
  intros Hnx Hny Hlen Hall Hr Hg Hb Hfile Hterm.
  rewrite (readRGBD_header_run nx ny _ s Hnx Hny Hfile)
    by (left; destruct (flat_map numbers_of good); discriminate).
  replace (Z.to_nat ny * Z.to_nat nx)%nat
    with (List.length good
          + Datatypes.S (Z.to_nat ny * Z.to_nat nx - List.length good - 1))%nat
    by nia.
  rewrite R_for_upto_app.
  assert (Hpos : 0 < nx) by lia.
  match goal with
  | |- context [bind _ _ ?s0] =>
      destruct (flat_pixels_run nx Hpos good 0 s0 [r; g; b; d]
                  Hall eq_refl ltac:(left; discriminate) eq_refl eq_refl)
        as [s1 [Hrun [Hf [Ht [_ [_ Hdec]]]]]]
  end.
  rewrite (R_bind_returned _ _ _ _ _ _ Hrun).
  cbn [for_upto]. unfold flat_pixel at 1.
  cbn [terminated] in Ht. rewrite Hterm in Ht.
  eexists.
  rewrite (R_bind_failed _ _ _ _ _ _
             (read_pixel_unterminated _ _ r g b d s1 Hf Hr Hg Hb Ht)).
  split; [reflexivity |]. split; [reflexivity |].
  intros y x c Hx Hk. cbn [colour depth].
  destruct (Hdec y x Hx) as [_ Hout].
  destruct (Hout ltac:(lia) c) as [H1 H2].
  rewrite H1, H2. split; reflexivity.
Qed.

(** X14: a file that holds the size of the image and, for each of its
    pixels, four numbers within their bounds, the last of them followed
    by white space or by anything else, is read to its image data:
    [readRGBD] returns, has taken exactly these numbers from the file,
    and leaves a colour image of [ny] by [nx] by 4 cells and a depth
    image of [ny] by [nx] by 1 cells in which the pixel at row [y] and
    column [x] is the pixel number [y * nx + x] of the file, with the
    mean of its three colours, rounded down, in every colour cell and
    its depth in the depth cell. *)
Theorem readRGBD_reads_row_major (nx ny : Z) (quads : list quad)
    (rest : list Z) (s : files) :
  0 < nx < 2 ^ 31 -> 0 < ny < 2 ^ 31 ->
  Z.of_nat (List.length quads) = nx * ny ->
  Forall in_bounds quads ->
  file s = nx :: ny :: flat_map numbers_of quads ++ rest ->
  followed rest s ->
  exists s',
    readRGBD true s = (returned tt, s')
    /\ file s' = rest
    /\ (length0 (colour s') = ny /\ length1 (colour s') = nx
        /\ length2 (colour s') = 4)
    /\ (length0 (depth s') = ny /\ length1 (depth s') = nx
        /\ length2 (depth s') = 1)
    /\ forall y x,
         0 <= y < ny -> 0 <= x < nx ->
         exists q,
           nth_error quads (Z.to_nat (y * nx + x)) = Some q
           /\ (forall c, 0 <= c < 4 -> cell (colour s') y x c = gray q)
           /\ cell (depth s') y x 0 = depth_of q
           /\ 0 <= gray q <= 255.
Proof.
  intros Hnx Hny Hlen Hall Hfile Hgo.
  rewrite (readRGBD_header_run nx ny _ s Hnx Hny Hfile
             (followed_app _ _ _ Hgo)).
  replace (Z.to_nat ny * Z.to_nat nx)%nat with (List.length quads) by nia.
  assert (Hpos : 0 < nx) by lia.
  match goal with
  | |- context [for_upto _ _ _ ?s0] =>
      destruct (flat_pixels_run nx Hpos quads 0 s0 rest Hall eq_refl
                  Hgo eq_refl eq_refl)
        as [s' [Hrun [Hf [_ [[Hc0 [Hc1 Hc2]] [[Hd0 [Hd1 Hd2]] Hdec]]]]]]
  end.
  exists s'.
  split; [exact Hrun |]. split; [exact Hf |].
  split; [repeat split; assumption |].
  split; [repeat split; assumption |].
  intros y x Hy Hx.
  assert (Hk : (Z.to_nat (y * nx + x) < List.length quads)%nat) by nia.
  destruct (nth_error quads (Z.to_nat (y * nx + x))) as [q |] eqn:Hnth;
    [| apply nth_error_None in Hnth; lia].
  exists q. split; [reflexivity |].
  destruct (Hdec y x Hx) as [Hin _].
  destruct (Hin q ltac:(nia)) as [Hcol Hdep].
  { rewrite Z.sub_0_r. exact Hnth. }
  split; [exact Hcol |]. split; [exact Hdep |].
  apply nth_error_In in Hnth.
  rewrite Forall_forall in Hall. specialize (Hall q Hnth).
  destruct q as [[[r g] b] d].
  exact (proj2 (gray_exact r g b d Hall)).
Qed.

(** X15: a pixel with a number beyond its bound stops [readRGBD] by a
    failed assertion, when the pixels before it passed and its depth is
    followed by white space or by anything else: no image is
    returned. *)
Theorem readRGBD_asserts_pixel_bounds (nx ny : Z) (good : list quad)
    (bad : quad) (rest : list Z) (s : files) :
  0 < nx < 2 ^ 31 -> 0 < ny < 2 ^ 31 ->
  Z.of_nat (List.length good) < nx * ny ->
  Forall in_bounds good ->
  out_of_bounds bad ->
  file s = nx :: ny :: flat_map numbers_of good ++ numbers_of bad ++ rest ->
  followed rest s ->
  exists expr s',
    readRGBD true s = (failed (assertion_failed expr), s')
    /\ file s' = rest.
Proof.
  intros Hnx Hny Hlen Hall Hbad Hfile Hgo.
  assert (Hgo' : followed (numbers_of bad ++ rest) s)
    by (apply followed_app; exact Hgo).
  rewrite (readRGBD_header_run nx ny _ s Hnx Hny Hfile
             (followed_app _ _ _ Hgo')).
  replace (Z.to_nat ny * Z.to_nat nx)%nat
    with (List.length good
          + Datatypes.S (Z.to_nat ny * Z.to_nat nx - List.length good - 1))%nat
    by nia.
  rewrite R_for_upto_app.
  assert (Hpos : 0 < nx) by lia.
  match goal with
  | |- context [bind _ _ ?s0] =>
      destruct (flat_pixels_run nx Hpos good 0 s0 (numbers_of bad ++ rest)
                  Hall eq_refl Hgo' eq_refl eq_refl)
        as [s1 [Hrun [Hf [Ht _]]]]
  end.
  rewrite (R_bind_returned _ _ _ _ _ _ Hrun).
  cbn [for_upto]. unfold flat_pixel at 1.
  destruct bad as [[[r g] b] d]. cbn [numbers_of app] in Hf.
  assert (Hgo1 : followed rest s1).
  { destruct Hgo as [Hne | Hterm]; [left; exact Hne | right].
    rewrite Ht. exact Hterm. }
  destruct (read_pixel_out_of_bounds
              ((0 + Z.of_nat (List.length good)) / nx)
              ((0 + Z.of_nat (List.length good)) mod nx)
              r g b d rest s1 Hf Hbad Hgo1) as [expr Hfail].
  exists expr. eexists.
  rewrite (R_bind_failed _ _ _ _ _ _ Hfail).
  split; reflexivity.
Qed.

(** X16: a file that ends before the last pixel makes the stream throw:
    with fewer than four numbers left for a pixel it does so whatever
    these numbers are. *)
Theorem readRGBD_throws_at_end_of_file (nx ny : Z) (good : list quad)
    (tail : list Z) (s : files) :
  0 < nx < 2 ^ 31 -> 0 < ny < 2 ^ 31 ->
  Z.of_nat (List.length good) < nx * ny ->
  Forall in_bounds good ->
  (List.length tail < 4)%nat ->
  file s = nx :: ny :: flat_map numbers_of good ++ tail ->
  exists s',
    readRGBD true s = (failed ios_failure, s') /\ file s' = [].
Proof.
  intros Hnx Hny Hlen Hall Htail Hfile.
  assert (Hcases : followed tail s \/ (tail = [] /\ terminated s = false)).
  { destruct tail as [| t tail]; [| left; left; discriminate].
    destruct (terminated s) eqn:Hterm.
    - left. right. exact Hterm.
    - right. split; reflexivity. }
  destruct Hcases as [Hgo | [Hnil Hterm]].
  - rewrite (readRGBD_header_run nx ny _ s Hnx Hny Hfile
               (followed_app _ _ _ Hgo)).
    replace (Z.to_nat ny * Z.to_nat nx)%nat
      with (List.length good
            + Datatypes.S
                (Z.to_nat ny * Z.to_nat nx - List.length good - 1))%nat
      by nia.
    rewrite R_for_upto_app.
    assert (Hpos : 0 < nx) by lia.
    match goal with
    | |- context [bind _ _ ?s0] =>
        destruct (flat_pixels_run nx Hpos good 0 s0 tail
                    Hall eq_refl Hgo eq_refl eq_refl)
          as [s1 [Hrun [Hf _]]]
    end.
    rewrite (R_bind_returned _ _ _ _ _ _ Hrun).
    cbn [for_upto]. unfold flat_pixel at 1.
    eexists.
    rewrite (R_bind_failed _ _ _ _ _ _
               (read_pixel_short _ _ s1 ltac:(rewrite Hf; exact Htail))).
    split; reflexivity.
  - subst tail. rewrite app_nil_r in Hfile.
    destruct (exists_last_or_nil good) as [Hgood | [good' [q Hgood]]].
    + subst good. cbn in Hfile.
      rewrite (readRGBD_header_unterminated nx ny s Hfile
                 (proj2 (fits_int_range nx) ltac:(lia)) Hterm).
      eexists. split; reflexivity.
    + subst good. destruct q as [[[r g] b] d].
      rewrite flat_map_app in Hfile. cbn [flat_map numbers_of] in Hfile.
      rewrite app_nil_r in Hfile.
      apply Forall_app in Hall. destruct Hall as [Hall' Hq].
      inversion Hq as [| ? ? Hin _]; subst.
      unfold in_bounds in Hin. destruct Hin as [Hr [Hg [Hb Hd]]].
      rewrite length_app in Hlen. cbn [List.length] in Hlen.
      destruct (readRGBD_unterminated nx ny r g b d good' s Hnx Hny
                  ltac:(lia) Hall' ltac:(lia) ltac:(lia) ltac:(lia)
                  Hfile Hterm) as [s' [Hrun [Hf _]]].
      exists s'. split; assumption.
Qed.

(** X17: without a header that can be extracted [readRGBD] touches
    neither image.  The stream throws when the file cannot be opened
    and when it does not start with a width and a height that fit an
    [int], the height followed by white space or by anything else; a
    width or a height that is extracted and is not positive fails its
    assertion, the width first, after both have been read. *)
Theorem readRGBD_needs_header (opens : bool) (s : files) :
  (opens = false \/ (forall nx ny numbers, ~ header s nx ny numbers) ->
   fst (readRGBD opens s) = failed ios_failure
   /\ colour (snd (readRGBD opens s)) = colour s
   /\ depth (snd (readRGBD opens s)) = depth s)
  /\ (forall nx ny numbers,
        opens = true ->
        header s nx ny numbers ->
        nx <= 0 \/ ny <= 0 ->
        readRGBD opens s
        = (failed (assertion_failed
                     (if nx <=? 0 then "nx > 0" else "ny > 0")),
           {| file := numbers; terminated := terminated s;
              colour := colour s; depth := depth s |})).
Proof.
  split.
  - intros [Hopen | Hnone].
    + subst opens. cbn. repeat split.
    + destruct opens; [| cbn; repeat split].
      destruct s as [numbers term col dep].
      unfold header in Hnone. cbn [file terminated colour depth] in *.
      unfold readRGBD, open, bind, ret, extract.
      cbn [file terminated colour depth].
      destruct numbers as [| a [| b numbers]].
      * cbn. repeat split.
      * destruct (fits_int a && term);
          cbn [file terminated colour depth]; repeat split.
      * destruct (fits_int a) eqn:Ha; cbn [andb];
          cbn [file terminated colour depth]; [| repeat split].
        destruct (fits_int b) eqn:Hb; cbn [andb];
          cbn [file terminated colour depth]; [| repeat split].
        destruct numbers as [| c numbers].
        -- destruct term; cbn [file terminated colour depth];
             [| repeat split].
           exfalso. apply (Hnone a b []).
           split; [reflexivity |]. split; [exact Ha |].
           split; [exact Hb |]. right. reflexivity.
        -- exfalso. apply (Hnone a b (c :: numbers)).
           split; [reflexivity |]. split; [exact Ha |].
           split; [exact Hb |]. left. discriminate.
  - intros nx ny numbers Hopen [Hfile [Hnx [Hny Hgo]]] Hbad. subst opens.
    destruct s as [numbers0 term col dep]. unfold followed in Hgo.
    cbn [file terminated colour depth] in *. subst numbers0.
    unfold readRGBD, open. unfold bind at 1, ret at 1.
    rewrite bind_extract
      by (first [exact Hnx | left; discriminate]).
    rewrite bind_extract
      by (first [exact Hny | exact Hgo]).
    unfold bind, assert.
    destruct (Z.leb_spec nx 0) as [Hle | Hgt].
    + replace (0 <? nx) with false by (symmetry; apply Z.ltb_ge; lia).
      reflexivity.
    + replace (0 <? nx) with true by (symmetry; apply Z.ltb_lt; lia).
      replace (0 <? ny) with false by (symmetry; apply Z.ltb_ge; lia).
      reflexivity.
Qed.

(** X19: a file that holds every pixel and ends with the depth of the
    last one, with no white space after it, is not read to the end: the
    stream throws at this last number, and the last pixel of both
    images is left as it was cleared. *)
Theorem readRGBD_needs_terminated_file (nx ny r g b d : Z)
    (quads : list quad) (s : files) :
  0 < nx < 2 ^ 31 -> 0 < ny < 2 ^ 31 ->
  Z.of_nat (List.length quads) + 1 = nx * ny ->
  Forall in_bounds quads ->
  in_bounds (r, g, b, d) ->
  file s = nx :: ny :: flat_map numbers_of quads ++ [r; g; b; d] ->
  terminated s = false ->
  exists s',
    readRGBD true s = (failed ios_failure, s')
    /\ (forall c, cell (colour s') (ny - 1) (nx - 1) c = 0)
    /\ (forall c, cell (depth s') (ny - 1) (nx - 1) c = cl_float_of_Z 0).
Proof.
  intros Hnx Hny Hlen Hall [Hr [Hg [Hb Hd]]] Hfile Hterm.
  destruct (readRGBD_unterminated nx ny r g b d quads s Hnx Hny
              ltac:(lia) Hall ltac:(lia) ltac:(lia) ltac:(lia)
              Hfile Hterm) as [s' [Hrun [_ Hlast]]].
  exists s'. split; [exact Hrun |].
  split; intros c;
    apply (Hlast (ny - 1) (nx - 1) c ltac:(lia) ltac:(nia)).
Qed.

End ReadRGBDProperties.

Section DepthExact.
Import TestPose Rgbd RgbdProps.

(** [exact_below n p]: every number whose binary digits are those of
    [p] followed by [n] more digits is converted exactly. *)
Lemma exact_below_covers (n : nat) :
  forall p d,
    exact_below n p = true ->
    p * 2 ^ Z.of_nat n <= d < (p + 1) * 2 ^ Z.of_nat n ->
    exact_at d = true.
Proof.
  induction n as [| n IH]; intros p d Hall Hd.
  - cbn in Hall. change (2 ^ Z.of_nat 0) with 1 in Hd.
    replace d with p by lia. exact Hall.
  - cbn [exact_below] in Hall. apply andb_true_iff in Hall.
    destruct Hall as [H0 H1].
    rewrite Nat2Z.inj_succ, Z.pow_succ_r in Hd by lia.
    destruct (Z_lt_le_dec d ((2 * p + 1) * 2 ^ Z.of_nat n)) as [Hlo | Hhi].
    + apply (IH (2 * p) d H0). lia.
    + apply (IH (2 * p + 1) d H1). lia.
Qed.

Lemma exact_below_0x10000 : exact_below 16 0 = true.
Proof. vm_compute. reflexivity. Qed.

(** X18: the bound asserted on the depth makes its conversion to [cl_float]
    exact: the depth cell of a pixel holds the very number read. *)
Theorem readRGBD_depth_is_exact (q : quad) :
  in_bounds q ->
  integer_of (depth_of q) = Some (snd q).
Proof.
  destruct q as [[[r g] b] d]. intros [_ [_ [_ Hd]]]. cbn [snd depth_of].
  assert (Hex : exact_at d = true).
  { apply (exact_below_covers 16 0 d exact_below_0x10000).
    change (2 ^ Z.of_nat 16) with 65536. lia. }
  unfold exact_at in Hex.
  destruct (integer_of (cl_float_of_Z d)) as [v |]; [| discriminate Hex].
  apply Z.eqb_eq in Hex. subst v. reflexivity.
Qed.

End DepthExact.

(* ================================================================== *)
(** * Instances                                                        *)
(* ================================================================== *)

Section FurtherExamples.
Import TestPose SelectionProps Rgbd RgbdProps.

(** Scores 0, 2, 1, 2: the index selected, 1, is below 4. *)
Lemma select_best_index_within_list_witness :
  Z.of_nat (List.length scores_0_2_1_2) <= 2 ^ 31
  /\ selected unit idle_step scores_0_2_1_2 idle_world < 4.
Proof.
  assert (Hlen : Z.of_nat (List.length scores_0_2_1_2) <= 2 ^ 31)
    by (cbn; lia).
  split; [exact Hlen |].
  destruct (select_best_index_within_list unit idle_step scores_0_2_1_2
              idle_world Hlen) as [_ [_ [Hlt _]]].
  apply Hlt. discriminate.
Defined.

(** Scores 0, 2, 1, 2: three scores are above zero. *)
Lemma select_best_counts_scores_above_zero_witness :
  Z.of_nat (List.length scores_0_2_1_2) < 2 ^ 31
  /\ non0 (snd (stats_loop scores_0_2_1_2 stats_init)) = 3.
Proof.
  assert (Hlen : Z.of_nat (List.length scores_0_2_1_2) < 2 ^ 31)
    by (cbn; lia).
  split; [exact Hlen |].
  exact (proj1 (select_best_counts_scores_above_zero unit idle_step
                  scores_0_2_1_2 idle_world Hlen)).
Defined.

(** Scores 0, 2, 1, 2: the best score, 2, is not below zero. *)
Lemma select_best_reports_score_at_index_witness :
  Z.of_nat (List.length scores_0_2_1_2) <= 2 ^ 31
  /\ not_below_zero (best (snd (stats_loop scores_0_2_1_2 stats_init))).
Proof.
  assert (Hlen : Z.of_nat (List.length scores_0_2_1_2) <= 2 ^ 31)
    by (cbn; lia).
  split; [exact Hlen |].
  exact (proj1 (select_best_reports_score_at_index scores_0_2_1_2 Hlen)).
Defined.

(** A NaN and the score 1: the total is a NaN. *)
Lemma select_best_total_of_nan_witness :
  In S754_nan scores_nan_1
  /\ total (snd (stats_loop scores_nan_1 stats_init)) = S754_nan.
Proof.
  assert (Hin : In S754_nan scores_nan_1) by (left; reflexivity).
  split; [exact Hin |].
  exact (proj1 (select_best_total_of_nan unit idle_step scores_nan_1
                  idle_world Hin)).
Defined.

Lemma two_pixels_in_bounds : Forall in_bounds two_pixels.
Proof. repeat constructor; cbn; lia. Qed.

(** An image two pixels wide and one high, in a file that ends with
    white space. *)
Lemma readRGBD_reads_row_major_witness :
  Forall in_bounds two_pixels
  /\ followed [] (at_start (2 :: 1 :: flat_map numbers_of two_pixels ++ []))
  /\ exists s',
       readRGBD true
         (at_start (2 :: 1 :: flat_map numbers_of two_pixels ++ []))
       = (returned tt, s')
       /\ file s' = []
       /\ cell (colour s') 0 0 3 = 60
       /\ cell (colour s') 0 1 0 = 255.
Proof.
  assert (Hgo : followed []
                  (at_start (2 :: 1 :: flat_map numbers_of two_pixels ++ [])))
    by (right; reflexivity).
  split; [exact two_pixels_in_bounds |]. split; [exact Hgo |].
  destruct (readRGBD_reads_row_major 2 1 two_pixels []
              (at_start (2 :: 1 :: flat_map numbers_of two_pixels ++ []))
              ltac:(lia) ltac:(lia) eq_refl two_pixels_in_bounds eq_refl Hgo)
    as [s' [Hrun [Hfile [_ [_ Hpix]]]]].
  exists s'. split; [exact Hrun |]. split; [exact Hfile |].
  destruct (Hpix 0 0 ltac:(lia) ltac:(lia)) as [q0 [Hq0 [Hc0 _]]].
  destruct (Hpix 0 1 ltac:(lia) ltac:(lia)) as [q1 [Hq1 [Hc1 _]]].
  cbn in Hq0, Hq1. inversion Hq0; subst q0. inversion Hq1; subst q1.
  split; [apply Hc0; lia | apply Hc1; lia].
Defined.

(** The same image four pixels wide: the third pixel is too red. *)
Lemma readRGBD_asserts_pixel_bounds_witness :
  out_of_bounds too_red
  /\ exists expr s',
       readRGBD true
         (at_start (4 :: 1 :: flat_map numbers_of two_pixels
                    ++ numbers_of too_red ++ [1; 2; 3; 4]))
       = (failed (assertion_failed expr), s').
Proof.
  assert (Hbad : out_of_bounds too_red) by (cbn; lia).
  split; [exact Hbad |].
  destruct (readRGBD_asserts_pixel_bounds 4 1 two_pixels too_red [1; 2; 3; 4]
              (at_start (4 :: 1 :: flat_map numbers_of two_pixels
                         ++ numbers_of too_red ++ [1; 2; 3; 4]))
              ltac:(lia) ltac:(lia) ltac:(cbn; lia) two_pixels_in_bounds
              Hbad eq_refl ltac:(left; discriminate))
    as [expr [s' [Hrun _]]].
  exists expr, s'. exact Hrun.
Defined.

(** The same image three pixels wide: the file ends in the third
    pixel. *)
Lemma readRGBD_throws_at_end_of_file_witness :
  (List.length [7; 8; 9] < 4)%nat
  /\ exists s',
       readRGBD true
         (at_start (3 :: 1 :: flat_map numbers_of two_pixels ++ [7; 8; 9]))
       = (failed ios_failure, s').
Proof.
  assert (Hshort : (List.length [7; 8; 9] < 4)%nat) by (cbn; lia).
  split; [exact Hshort |].
  destruct (readRGBD_throws_at_end_of_file 3 1 two_pixels [7; 8; 9]
              (at_start (3 :: 1 :: flat_map numbers_of two_pixels
                         ++ [7; 8; 9]))
              ltac:(lia) ltac:(lia) ltac:(cbn; lia) two_pixels_in_bounds
              Hshort eq_refl)
    as [s' [Hrun _]].
  exists s'. exact Hrun.
Defined.

(** A width of 0 in a file that goes on after its height; the same two
    numbers in a file that ends with the height. *)
Lemma readRGBD_needs_header_witness :
  header (at_start [0; 5]) 0 5 []
  /\ fst (readRGBD true (at_start [0; 5]))
     = failed (assertion_failed "nx > 0")
  /\ (forall nx ny numbers, ~ header (unterminated [0; 5]) nx ny numbers)
  /\ fst (readRGBD true (unterminated [0; 5])) = failed ios_failure.
Proof.
  assert (Hhead : header (at_start [0; 5]) 0 5 []).
  { split; [reflexivity |]. split; [reflexivity |].
    split; [reflexivity |]. right. reflexivity. }
  assert (Hnone : forall nx ny numbers,
                    ~ header (unterminated [0; 5]) nx ny numbers).
  { intros nx ny numbers [Hfile [_ [_ Hgo]]].
    cbn in Hfile. inversion Hfile; subst.
    destruct Hgo as [Hne | Hterm]; [apply Hne; reflexivity |].
    discriminate Hterm. }
  destruct (readRGBD_needs_header true (at_start [0; 5])) as [_ Hassert].
  destruct (readRGBD_needs_header true (unterminated [0; 5])) as [Hthrow _].
  split; [exact Hhead |].
  split; [rewrite (Hassert 0 5 [] eq_refl Hhead ltac:(lia)); reflexivity |].
  split; [exact Hnone |].
  exact (proj1 (Hthrow (or_intror Hnone))).
Defined.

(** The image of two pixels in a file that ends with the depth of the
    second one. *)
Lemma readRGBD_needs_terminated_file_witness :
  in_bounds (255, 255, 255, 65535)
  /\ terminated (unterminated
                   (2 :: 1 :: flat_map numbers_of two_pixels)) = false
  /\ fst (readRGBD true
            (unterminated (2 :: 1 :: flat_map numbers_of two_pixels)))
     = failed ios_failure.
Proof.
  assert (Hq : in_bounds (255, 255, 255, 65535)) by (cbn; lia).
  split; [exact Hq |]. split; [reflexivity |].
  destruct (readRGBD_needs_terminated_file 2 1 255 255 255 65535
              [(30, 60, 91, 1000)]
              (unterminated (2 :: 1 :: flat_map numbers_of two_pixels))
              ltac:(lia) ltac:(lia) eq_refl
              ltac:(repeat constructor; cbn; lia) Hq eq_refl eq_refl)
    as [s' [Hrun _]].
  rewrite Hrun. reflexivity.
Defined.

(** The depth 65535, the largest one admitted. *)
Lemma readRGBD_depth_is_exact_witness :
  in_bounds (255, 255, 255, 65535)
  /\ integer_of (depth_of (255, 255, 255, 65535)) = Some 65535.
Proof.
  assert (Hq : in_bounds (255, 255, 255, 65535)) by (cbn; lia).
  split; [exact Hq |].
  exact (readRGBD_depth_is_exact (255, 255, 255, 65535) Hq).
Defined.

End FurtherExamples.
